(** * tfpp: Terraform provider packager

    A shallow embedding of [main.go] and the properties of its version
    merge, manifest parsing, discovery fallback and architecture files.

    Go strings are byte sequences and are modelled by [string]; slices by
    [list]; [int] by [Z]; an [error] by [option string] ([None] is [nil]).
    Functions that touch the disk, may call [log.Fatal] or may panic live in
    the monad [M] over the file-system state [FS]. *)

From Stdlib Require Import String Ascii List Arith ZArith Lia Bool.
From stdpp Require Import base gmap strings list fin_maps.
Import ListNotations.

#[local] Arguments String.append !_ _ / : simpl nomatch.


(** ** The parts of Go's [strings] package that the program calls *)

Module strings.

(** [s[n:]] for [n <= len(s)]. *)
Fixpoint drop (n : nat) (s : string) : string :=
  match n, s with
  | S m, String _ s' => drop m s'
  | _, _ => s
  end.

(** [strings.Cut]: the text before and after the first instance of [sep];
    [None] when [sep] does not occur ([strings.Index] returns -1). *)
Fixpoint Cut (s sep : string) : option (string * string) :=
  if String.prefix sep s then Some ("", drop (String.length sep) s)
  else match s with
       | EmptyString => None
       | String c s' =>
           match Cut s' sep with
           | Some (before, after) => Some (String c before, after)
           | None => None
           end
       end.

(** The loop of [genSplit]: cut at [sep] until it no longer occurs.  [n]
    bounds the number of cuts, as the slice capacity does in Go. *)
Fixpoint genSplit (n : nat) (s sep : string) : list string :=
  match n with
  | O => [s]
  | S m =>
      match Cut s sep with
      | None => [s]
      | Some (before, after) => before :: genSplit m after sep
      end
  end.

(** [strings.Split(s, sep)] for a non-empty [sep] (the program only ever
    passes a two-space string, [".zip"], ["_"] and ["/"]). *)
Definition Split (s sep : string) : list string :=
  genSplit (String.length s) s sep.

(** [strings.Join]. *)
Fixpoint Join (elems : list string) (sep : string) : string :=
  match elems with
  | [] => ""
  | [x] => x
  | x :: rest => x +:+ sep +:+ Join rest sep
  end.

(** [strings.HasSuffix]. *)
Definition HasSuffix (s suffix : string) : bool :=
  (String.length suffix <=? String.length s)%nat &&
  String.eqb (drop (String.length s - String.length suffix) s) suffix.

End strings.

(** ** Data model (the struct types of [main.go]) *)

Record Platform := mkPlatform {
  Platform_Os : string;
  Platform_Arch : string }.

Record Version := mkVersion {
  Version_Version : string;
  Version_Protocols : list string;
  Version_Platforms : list Platform }.

Record Versions := mkVersions {
  Versions_Versions : list Version }.

Record WellKnown := mkWellKnown {
  WellKnown_ProvidersV1 : string;
  WellKnown_ModulesV1 : string }.

Definition defaultWellKnownData : WellKnown :=
  {| WellKnown_ProvidersV1 := "/v1/providers/";
     WellKnown_ModulesV1 := "/v1/modules/" |}.

Record GpgPublicKey := mkGpgPublicKey {
  KeyId : string;
  AsciiArmor : string;
  TrustSignature : string;
  Source : string;
  SourceUrl : string }.

Record Architecture := mkArchitecture {
  Architecture_Protocols : list string;
  Architecture_Os : string;
  Architecture_Arch : string;
  Architecture_Filename : string;
  Architecture_DownloadUrl : string;
  Architecture_ShasumsUrl : string;
  Architecture_ShasumsSignatureUrl : string;
  Architecture_Shasum : string;
  Architecture_SigningKeys_GpgPublicKeys : list GpgPublicKey }.

(** ** Errors *)

(** A Go [error]: [None] is [nil], [Some msg] a value whose [Error()] is
    [msg]. *)
Definition error := option string.

Inductive errno := ENOENT | EEXIST | ENOTDIR | EISDIR.

Definition errno_text (e : errno) : string :=
  match e with
  | ENOENT => "no such file or directory"
  | EEXIST => "file exists"
  | ENOTDIR => "not a directory"
  | EISDIR => "is a directory"
  end.

(** The message of an [fs.PathError]. *)
Definition PathError (op path : string) (e : errno) : string :=
  op +:+ " " +:+ path +:+ ": " +:+ errno_text e.

(** The verb [%s] applied to an [error] operand. *)
Definition fmt_s (err : error) : string :=
  match err with
  | Some msg => msg
  | None => "%!s(<nil>)"
  end.

(** ** The file system

    A path names a file by its non-empty segments (a leading ["/"] is kept
    as a root marker), so ["release//v1/providers//ns/"] and
    ["release/v1/providers/ns"] are the same directory, as they are for the
    operating system.  The segments ["."] and [".."] and symbolic links are
    not interpreted; permissions and device errors are left out.  The
    working directory [[]] and the root always exist.  [journal] lists the
    calls of [writeFile] that succeeded, oldest first. *)

Definition nonEmpty (s : string) : bool := negb (String.eqb s "").

Definition resolve (name : string) : list string :=
  (if String.prefix "/" name then ["/"] else []) ++
  List.filter nonEmpty (strings.Split name "/").

Definition parent (p : list string) : list string := removelast p.

Record FS := mkFS {
  dirs : gset (list string);
  files : gmap (list string) string;
  journal : list (string * string) }.

Definition isDir (fs : FS) (p : list string) : bool :=
  bool_decide (p = []) || bool_decide (p = ["/"]) || bool_decide (p ∈ dirs fs).

Definition isFile (fs : FS) (p : list string) : bool :=
  bool_decide (is_Some (files fs !! p)).

(** Some proper prefix of [p] is a regular file. *)
Fixpoint fileAbove (fs : FS) (pre p : list string) : bool :=
  match p with
  | [] => false
  | seg :: rest => (isFile fs pre && negb (isDir fs pre)) || fileAbove fs (pre ++ [seg]) rest
  end.

Inductive FileInfo := IsDirectory | IsRegular.

(** [os.Stat]. *)
Definition os_Stat (fs : FS) (name : string) : FileInfo + errno :=
  let p := resolve name in
  if String.eqb name "" then inr ENOENT
  else if isDir fs p then inl IsDirectory
  else if isFile fs p then
    if strings.HasSuffix name "/" then inr ENOTDIR else inl IsRegular
  else if fileAbove fs [] p then inr ENOTDIR
  else inr ENOENT.

(** [os.Open]: the bytes of a regular file; a directory opens too, but
    every read from it fails. *)
Inductive Opened := OpenedFile (data : string) | OpenedDir.

Definition os_Open (fs : FS) (name : string) : Opened + errno :=
  let p := resolve name in
  if String.eqb name "" then inr ENOENT
  else if isDir fs p then inl OpenedDir
  else match files fs !! p with
       | Some data =>
           if strings.HasSuffix name "/" then inr ENOTDIR else inl (OpenedFile data)
       | None => if fileAbove fs [] p then inr ENOTDIR else inr ENOENT
       end.

(** Why a file or directory cannot be created at [p]: [None] when it can. *)
Definition createErrno (fs : FS) (p : list string) : option errno :=
  if isDir fs (parent p) then None
  else if fileAbove fs [] p then Some ENOTDIR
  else Some ENOENT.

(** [os.Mkdir]: the new state, or the reason for the failure. *)
Definition os_Mkdir (fs : FS) (name : string) : FS + errno :=
  let p := resolve name in
  if String.eqb name "" then inr ENOENT
  else if isDir fs p || isFile fs p then inr EEXIST
  else match createErrno fs p with
       | Some e => inr e
       | None => inl {| dirs := {[ p ]} ∪ dirs fs; files := files fs; journal := journal fs |}
       end.

(** [os.MkdirAll]: walks the prefixes of the path, creating the missing
    ones; stops at a prefix that is a regular file. *)
Fixpoint mkdirAll (fs : FS) (pre p : list string) : FS + errno :=
  match p with
  | [] => inl fs
  | seg :: rest =>
      let q := pre ++ [seg] in
      if isDir fs q then mkdirAll fs q rest
      else if isFile fs q then inr ENOTDIR
      else mkdirAll {| dirs := {[ q ]} ∪ dirs fs; files := files fs; journal := journal fs |} q rest
  end.

Definition os_MkdirAll (fs : FS) (name : string) : FS + errno :=
  if String.eqb name "" then inr ENOENT
  else match resolve name with
       | "/" :: p => mkdirAll fs ["/"] p
       | p => mkdirAll fs [] p
       end.

(** Opening [name] for writing with [O_CREATE|O_TRUNC], as [os.WriteFile]
    and [os.Create] do: the reason it fails, if it does. *)
Definition openForWrite (fs : FS) (name : string) : option errno :=
  let p := resolve name in
  if String.eqb name "" then Some ENOENT
  else if strings.HasSuffix name "/" then
    Some (if isFile fs p && negb (isDir fs p) then ENOTDIR else EISDIR)
  else if isDir fs p then Some EISDIR
  else createErrno fs p.

Definition putFile (fs : FS) (name data : string) : FS :=
  {| dirs := dirs fs; files := <[ resolve name := data ]> (files fs); journal := journal fs |}.

(** [os.WriteFile]. *)
Definition os_WriteFile (fs : FS) (name data : string) : FS + errno :=
  match openForWrite fs name with
  | Some e => inr e
  | None => inl (putFile fs name data)
  end.

(** ** The monad of the program: state, [log.Fatal] and panics *)

Inductive Outcome (A : Type) :=
| Return (a : A) (fs : FS)   (* the call returned [a] *)
| Exit (fs : FS)             (* [log.Fatal]/[log.Fatalf]: the process exited *)
| Panic (fs : FS).           (* a run-time panic *)
Arguments Return {A} a fs.
Arguments Exit {A} fs.
Arguments Panic {A} fs.

Definition M (A : Type) := FS -> Outcome A.

Definition ret {A} (a : A) : M A := fun fs => Return a fs.

Definition bind {A B} (m : M A) (k : A -> M B) : M B :=
  fun fs =>
    match m fs with
    | Return a fs' => k a fs'
    | Exit fs' => Exit fs'
    | Panic fs' => Panic fs'
    end.

Notation "'let*' x ':=' m 'in' k" := (bind m (fun x => k))
  (at level 10, x pattern, m at level 100, k at level 200).

(** [log.Fatal], [log.Fatalf]. *)
Definition log_Fatalf {A} : M A := fun fs => Exit fs.

(** The state in which a run ended. *)
Definition finalFS {A} (o : Outcome A) : FS :=
  match o with
  | Return _ fs => fs
  | Exit fs => fs
  | Panic fs => fs
  end.

(** What a run returned, if it returned. *)
Definition result {A} (o : Outcome A) : option A :=
  match o with
  | Return a _ => Some a
  | Exit _ => None
  | Panic _ => None
  end.

(** How a run ended. *)
Inductive Ending := Returned | Exited | Panicked.

Definition ending {A} (o : Outcome A) : Ending :=
  match o with
  | Return _ _ => Returned
  | Exit _ => Exited
  | Panic _ => Panicked
  end.

(** [l[i]]: panics when [i] is out of range. *)
Definition index {A} (l : list A) (i : nat) : M A :=
  fun fs => match l !! i with
            | Some x => Return x fs
            | None => Panic fs
            end.

(** [err.Error()]: panics on the [nil] interface value. *)
Definition Error (err : error) : M string :=
  fun fs => match err with
            | Some msg => Return msg fs
            | None => Panic fs
            end.

(** ** [bufio.Scanner] with [bufio.ScanLines]

    Each line without its end-of-line marker (a newline, with one optional
    carriage return before it); a last line that has no newline is returned
    when it is not empty.  Lines are taken to fit the scanner's buffer
    ([bufio.MaxScanTokenSize]). *)

Definition LF : ascii := "010"%char.
Definition CR : ascii := "013"%char.

Fixpoint dropCR (line : string) : string :=
  match line with
  | EmptyString => EmptyString
  | String c EmptyString => if Ascii.eqb c CR then EmptyString else line
  | String c rest => String c (dropCR rest)
  end.

Fixpoint ScanLines (cur data : string) : list string :=
  match data with
  | EmptyString => if String.eqb cur "" then [] else [dropCR cur]
  | String c rest =>
      if Ascii.eqb c LF then dropCR cur :: ScanLines "" rest
      else ScanLines (cur +:+ String c "") rest
  end.

(** What [readFile] returns in state [fs]: the lines of the file, or the
    error of [os.Open].  Scanning an opened directory fails at the first
    read, which leaves no lines and, as the scanner's error is not looked at,
    no error. *)
Definition readLines (fs : FS) (filePath : string) : list string * error :=
  match os_Open fs filePath with
  | inr e => ([], Some (PathError "open" filePath e))
  | inl OpenedDir => ([], None)
  | inl (OpenedFile data) => (ScanLines "" data, None)
  end.

(** ** The network and the JSON codec

    [http.Client.Get] answers with a transport error or with a response;
    [io.ReadAll] on the body of a response yields its bytes or fails.
    [encoding/json] is a parameter of the development: [MarshalIndent] at
    the three struct types the program serialises (it cannot fail there), and
    [Unmarshal] at the two it parses. *)

Inductive Body := ReadAllOk (data : string) | ReadAllErr (msg : string).

Inductive Response :=
| GetErr (msg : string)                 (* [err != nil] *)
| GetResp (StatusCode : Z) (body : Body). (* [err == nil] *)

Definition StatusOK : Z := 200.

Class Json := {
  MarshalIndent_Versions : Versions -> string;
  MarshalIndent_WellKnown : WellKnown -> string;
  MarshalIndent_Architecture : Architecture -> string;
  Unmarshal_WellKnown : string -> WellKnown + string;
  Unmarshal_Versions : string -> Versions + string }.

(** ** The program *)

Section Program.

Context `{json : Json}.

(** [httpClient.Get]: what the network answers for each URL. *)
Variable httpGet : string -> Response.

Definition writeFile (fileName fileContents : string) : M error :=
  fun fs =>
    match os_WriteFile fs fileName fileContents with
    | inl fs' =>
        Return None {| dirs := dirs fs'; files := files fs';
                       journal := journal fs' ++ [(fileName, fileContents)] |}
    | inr e => Return (Some (PathError "open" fileName e)) fs
    end.

Definition readFile (filePath : string) : M (list string * error) :=
  fun fs => Return (readLines fs filePath) fs.

Definition createDir (path : string) : M error :=
  fun fs =>
    match os_Stat fs path with
    | inr ENOENT =>
        match os_Mkdir fs path with
        | inl fs' => Return None fs'
        | inr e => Return (Some (PathError "mkdir" path e)) fs
        end
    | _ => Return None fs
    end.

Definition createDirRecursive (path : string) : M error :=
  fun fs =>
    match os_MkdirAll fs path with
    | inl fs' => Return None fs'
    | inr e => Return (Some (PathError "mkdir" path e)) fs
    end.

Definition copyFile (src dst : string) : M error :=
  fun fs =>
    match os_Stat fs src with
    | inr e => Return (Some (PathError "stat" src e)) fs
    | inl IsDirectory => Return (Some (src +:+ " is not a regular file")) fs
    | inl IsRegular =>
        match os_Open fs src with
        | inr e => Return (Some (PathError "open" src e)) fs
        | inl _ =>
            match openForWrite fs dst with
            | Some e => Return (Some (PathError "open" dst e)) fs
            | None =>
                let fs1 := putFile fs dst "" in
                let data := default "" (files fs1 !! resolve src) in
                Return None (putFile fs1 dst data)
            end
        end
    end.

(** *** [getShaSumContents] *)

Fixpoint shaSumRows (shaSumLine : list string) (buildsAndShaSums : list (list string))
  : M (list (list string)) :=
  match shaSumLine with
  | [] => ret buildsAndShaSums
  | line :: rest =>
      let lineSplit := strings.Split line "  " in
      let* checksum := index lineSplit 0 in
      let* name := index lineSplit 1 in
      let row := [checksum; name] in
      shaSumRows rest (buildsAndShaSums ++ [row])
  end.

Definition getShaSumContents (distPath repoName version : string)
  : M (list (list string) * error) :=
  let shaSumFileName := repoName +:+ "_" +:+ version +:+ "_SHA256SUMS" in
  let shaSumPath := distPath +:+ "/" +:+ shaSumFileName in
  let* (shaSumLine, err) := readFile shaSumPath in
  if err is Some _ then ret ([], err)
  else
    let* buildsAndShaSums := shaSumRows shaSumLine [] in
    ret (buildsAndShaSums, None).

(** *** [downloadVersionsFile] *)

(** The block run when the well-known document cannot be fetched (lines
    242 to 259).  [err] is the error of the request.  The [err] that the block
    declares together with [wellKnownFile] shadows it, so the [err.Error()]
    of the final [return] reads the result of [writeFile]. *)
Definition wellKnownFallback (err : error) : M (Versions * WellKnown * error) :=
  let* _ := Error err in
  let wellKnownFile := MarshalIndent_WellKnown defaultWellKnownData in
  let* err := createDirRecursive "release/.well-known/" in
  if err is Some _ then log_Fatalf
  else
    let* err := writeFile ("release/" +:+ ".well-known/terraform.json") wellKnownFile in
    if err is Some _ then log_Fatalf
    else
      let* msg := Error err in
      ret (mkVersions [], defaultWellKnownData,
           Some ("error downloading well-known file: " +:+ msg +:+ " or status code not 200")).

(** The second request, for the published version list (lines 276 to 297). *)
Definition fetchVersions (namespace provider domain : string) (wellKnownData : WellKnown)
  : M (Versions * WellKnown * error) :=
  let versionsUrl :=
    "https://" +:+ domain +:+ WellKnown_ProvidersV1 wellKnownData +:+ namespace
      +:+ "/" +:+ provider +:+ "/versions" in
  let failed (err : error) : M (Versions * WellKnown * error) :=
    ret (mkVersions [], wellKnownData,
         Some ("error downloading versions file: " +:+ fmt_s err +:+ " or status code not 200")) in
  match httpGet versionsUrl with
  | GetErr msg => failed (Some msg)
  | GetResp code body =>
      if negb (code =? StatusOK)%Z then failed None
      else match body with
           | ReadAllErr msg => ret (mkVersions [], wellKnownData, Some msg)
           | ReadAllOk bodyResp =>
               match Unmarshal_Versions bodyResp with
               | inr msg => ret (mkVersions [], wellKnownData, Some msg)
               | inl versionsData => ret (versionsData, wellKnownData, None)
               end
           end
  end.

Definition downloadVersionsFile (namespace provider domain : string)
  : M (Versions * WellKnown * error) :=
  let wellKnownUrl := "https://" +:+ domain +:+ "/.well-known/terraform.json" in
  match httpGet wellKnownUrl with
  | GetErr msg => wellKnownFallback (Some msg)
  | GetResp code body =>
      if negb (code =? StatusOK)%Z then wellKnownFallback None
      else match body with
           | ReadAllErr msg => ret (mkVersions [], defaultWellKnownData, Some msg)
           | ReadAllOk bodyResp =>
               match Unmarshal_WellKnown bodyResp with
               | inr msg => ret (mkVersions [], defaultWellKnownData, Some msg)
               | inl wellKnownData => fetchVersions namespace provider domain wellKnownData
               end
           end
  end.

(** *** [createVersionsFile] *)

(** The loop over the manifest rows (lines 179 to 198). *)
Fixpoint versionPlatforms (shaSumContents : list (list string)) (platforms : list Platform)
  : M (list Platform) :=
  match shaSumContents with
  | [] => ret platforms
  | line :: rest =>
      let* fileName := index line 1 in
      let removeFileExtension := strings.Split fileName ".zip" in
      let* stem := index removeFileExtension 0 in
      let fileNameSplit := strings.Split stem "_" in
      if (length fileNameSplit <? 4)%nat then versionPlatforms rest platforms
      else
        let* target := index fileNameSplit 2 in
        let* arch := index fileNameSplit 3 in
        let plat := {| Platform_Os := target; Platform_Arch := arch |} in
        versionPlatforms rest (platforms ++ [plat])
  end.

(** The inner loop of the merge (lines 202 to 207). *)
Fixpoint versionExists (existing : list Version) (v : Version) : bool :=
  match existing with
  | [] => false
  | existingVersion :: rest =>
      if String.eqb (Version_Version existingVersion) (Version_Version v) then true
      else versionExists rest v
  end.

(** The outer loop of the merge (lines 200 to 211). *)
Fixpoint mergeLoop (registry : list Version) (vers : list Version) : list Version :=
  match registry with
  | [] => vers
  | v :: rest =>
      if versionExists vers v then mergeLoop rest vers
      else mergeLoop rest (vers ++ [v])
  end.

(** Lines 176 to 177 and 200 to 213: the merged history. *)
Definition mergeVersions (registryVersionFile : Versions) (ver : Version) : Versions :=
  {| Versions_Versions := mergeLoop (Versions_Versions registryVersionFile) [] ++ [ver] |}.

Definition createVersionsFile (namespace provider distPath repoName version domain : string)
  : M (WellKnown * error) :=
  let* (registryVersionFile, wellKnownData, _) :=
    downloadVersionsFile namespace provider domain in
  let versionPath :=
    "release" +:+ WellKnown_ProvidersV1 wellKnownData +:+ namespace +:+ "/" +:+ provider
      +:+ "/versions" in
  let* (shaSumContents, err) := getShaSumContents distPath repoName version in
  if err is Some _ then ret (wellKnownData, err)
  else
    let* platforms := versionPlatforms shaSumContents [] in
    let ver := {| Version_Version := version;
                  Version_Protocols := ["4.0"; "5.1"];
                  Version_Platforms := platforms |} in
    let vers := mergeVersions registryVersionFile ver in
    let versionsFile := MarshalIndent_Versions vers in
    let versionPathDir := strings.Split versionPath "/" in
    let* err := createDirRecursive
                  (strings.Join (take (length versionPathDir - 1) versionPathDir) "/") in
    if err is Some _ then log_Fatalf
    else
      let* err := writeFile versionPath versionsFile in
      if err is Some _ then log_Fatalf
      else ret (wellKnownData, None).

(** *** The directory layout and the copies *)

Fixpoint providerDirsLoop (providerPathArr : list string) (currentPath : string) : M string :=
  match providerPathArr with
  | [] => ret currentPath
  | v :: rest =>
      let currentPath := currentPath +:+ v +:+ "/" in
      let* err := createDir currentPath in
      if err is Some _ then log_Fatalf
      else providerDirsLoop rest currentPath
  end.

Definition providerDirs (namespace repoName version : string) (wewellKnownData : WellKnown)
  : M string :=
  let providerPathArr :=
    ["release"; WellKnown_ProvidersV1 wewellKnownData; namespace; repoName; version] in
  providerDirsLoop providerPathArr "".

Definition copyShaFiles (destPath srcPath repoName version : string) : M unit :=
  let shaSum := repoName +:+ "_" +:+ version +:+ "_SHA256SUMS" in
  let shaSumPath := srcPath +:+ "/" +:+ shaSum in
  let* err := copyFile shaSumPath (destPath +:+ shaSum) in
  if err is Some _ then log_Fatalf
  else
    let* err := copyFile (shaSumPath +:+ ".sig") (destPath +:+ shaSum +:+ ".sig") in
    if err is Some _ then log_Fatalf else ret tt.

(** Returns the path in place of the pointer ([""] stands for [nil]). *)
Definition createDownloadsDir (destPath : string) : M (string * error) :=
  let downloadPath := destPath +:+ "download/" in
  let* err := createDir downloadPath in
  if err is Some _ then ret ("", err) else ret (downloadPath, None).

Fixpoint createTargetDirsLoop (destPath : string) (targets : list string) : M error :=
  match targets with
  | [] => ret None
  | v :: rest =>
      let* err := createDir (destPath +:+ v) in
      if err is Some _ then ret err else createTargetDirsLoop destPath rest
  end.

Definition createTargetDirs (destPath : string) : M error :=
  let targets := ["darwin"; "freebsd"; "linux"; "windows"] in
  createTargetDirsLoop destPath targets.

Fixpoint copyBuildZipsLoop (destPath distPath : string) (shaSumContents : list (list string))
  : M error :=
  match shaSumContents with
  | [] => ret None
  | v :: rest =>
      let* zipName := index v 1 in
      if negb (strings.HasSuffix zipName ".zip") then copyBuildZipsLoop destPath distPath rest
      else
        let zipSrcPath := distPath +:+ zipName in
        let zipDestPath := destPath +:+ zipName in
        let* err := copyFile zipSrcPath zipDestPath in
        if err is Some _ then ret err else copyBuildZipsLoop destPath distPath rest
  end.

Definition copyBuildZips (destPath distPath repoName version : string) : M error :=
  let* (shaSumContents, err) := getShaSumContents distPath repoName version in
  if err is Some _ then ret err
  else copyBuildZipsLoop destPath distPath shaSumContents.

(** *** [createArchitectureFiles] *)

(** The loop that joins the lines of the key file (lines 420 to 423). *)
Fixpoint gpgAscii (gpgFile : list string) (gpgAsciiPub : string) : string :=
  match gpgFile with
  | [] => gpgAsciiPub
  | line :: rest => gpgAscii rest (gpgAsciiPub +:+ line +:+ String LF "")
  end.

(** The loop over the manifest rows (lines 425 to 479). *)
Fixpoint architectureFiles
    (downloadUrlPrefix downloadPathPrefix shasumsUrl shasumsSigUrl : string)
    (gpgFingerprint gpgAsciiPub : string)
    (shaSumContents : list (list string)) : M error :=
  match shaSumContents with
  | [] => ret None
  | line :: rest =>
      let* shasum := index line 0 in
      let* fileName := index line 1 in
      let downloadUrl := downloadUrlPrefix +:+ fileName in
      let removeFileExtension := strings.Split fileName ".zip" in
      let* stem := index removeFileExtension 0 in
      let fileNameSplit := strings.Split stem "_" in
      if (length fileNameSplit <? 4)%nat then
        architectureFiles downloadUrlPrefix downloadPathPrefix shasumsUrl shasumsSigUrl
          gpgFingerprint gpgAsciiPub rest
      else
        let* target := index fileNameSplit 2 in
        let* arch := index fileNameSplit 3 in
        let archFileName := downloadPathPrefix +:+ target +:+ "/" +:+ arch in
        let architecture :=
          {| Architecture_Protocols := ["4.0"; "5.1"];
             Architecture_Os := target;
             Architecture_Arch := arch;
             Architecture_Filename := fileName;
             Architecture_DownloadUrl := downloadUrl;
             Architecture_ShasumsUrl := shasumsUrl;
             Architecture_ShasumsSignatureUrl := shasumsSigUrl;
             Architecture_Shasum := shasum;
             Architecture_SigningKeys_GpgPublicKeys :=
               [ {| KeyId := gpgFingerprint;
                    AsciiArmor := gpgAsciiPub;
                    TrustSignature := "";
                    Source := "";
                    SourceUrl := "" |} ] |} in
        let architectureTemplate := MarshalIndent_Architecture architecture in
        let* err := writeFile archFileName architectureTemplate in
        if err is Some _ then ret err
        else
          architectureFiles downloadUrlPrefix downloadPathPrefix shasumsUrl shasumsSigUrl
            gpgFingerprint gpgAsciiPub rest
  end.

Definition createArchitectureFiles
    (namespace provider distPath repoName version gpgFingerprint gpgPubKeyFile domain : string)
    (wellKnownData : WellKnown) : M error :=
  let prefix :=
    WellKnown_ProvidersV1 wellKnownData +:+ namespace +:+ "/" +:+ provider +:+ "/"
      +:+ version +:+ "/" in
  let pathPrefix := "release" +:+ prefix in
  let urlPrefix := "https://" +:+ domain +:+ prefix in
  let downloadUrlPrefix := urlPrefix +:+ "download/" in
  let downloadPathPrefix := pathPrefix +:+ "download/" in
  let shasumsUrl := urlPrefix +:+ (repoName +:+ "_" +:+ version +:+ "_SHA256SUMS") in
  let shasumsSigUrl := shasumsUrl +:+ ".sig" in
  let* (shaSumContents, err) := getShaSumContents distPath repoName version in
  if err is Some _ then ret err
  else
    let* (gpgFile, err) := readFile gpgPubKeyFile in
    if err is Some _ then log_Fatalf
    else
      let gpgAsciiPub := gpgAscii gpgFile "" in
      architectureFiles downloadUrlPrefix downloadPathPrefix shasumsUrl shasumsSigUrl
        gpgFingerprint gpgAsciiPub shaSumContents.

(** *** [provider] *)

Definition provider
    (namespace provider distPath repoName version gpgFingerprint gpgPubKeyFile domain : string)
  : M error :=
  let* (wellKnownData, err) :=
    createVersionsFile namespace provider distPath repoName version domain in
  if err is Some _ then log_Fatalf
  else
    let* versionPath := providerDirs namespace provider version wellKnownData in
    let* _ := copyShaFiles versionPath distPath repoName version in
    let* (downloadPath, err) := createDownloadsDir versionPath in
    if err is Some _ then ret err
    else
      let* err := createTargetDirs downloadPath in
      if err is Some _ then log_Fatalf
      else
        let* err := copyBuildZips downloadPath distPath repoName version in
        if err is Some _ then log_Fatalf
        else
          let* err :=
            createArchitectureFiles namespace provider distPath repoName version
              gpgFingerprint gpgPubKeyFile domain wellKnownData in
          if err is Some _ then log_Fatalf else ret None.

End Program.

(** ** A sample world, used to run the program on concrete inputs *)

Module Sample.

(** A stand-in for [encoding/json] that keeps only a few fields. *)
Definition renderPlatform (p : Platform) : string :=
  Platform_Os p +:+ "/" +:+ Platform_Arch p.

Definition renderVersion (v : Version) : string :=
  Version_Version v +:+ "[" +:+ strings.Join (map renderPlatform (Version_Platforms v)) ","
    +:+ "]".

#[local] Instance json : Json := {|
  MarshalIndent_Versions v := strings.Join (map renderVersion (Versions_Versions v)) ";";
  MarshalIndent_WellKnown w := WellKnown_ProvidersV1 w +:+ "|" +:+ WellKnown_ModulesV1 w;
  MarshalIndent_Architecture a :=
    Architecture_Shasum a +:+ " " +:+ Architecture_Filename a +:+ " "
      +:+ Architecture_DownloadUrl a;
  Unmarshal_WellKnown body :=
    match strings.Cut body "|" with
    | Some (p, m) => inl {| WellKnown_ProvidersV1 := p; WellKnown_ModulesV1 := m |}
    | None => inr "unexpected end of JSON input"
    end;
  Unmarshal_Versions body :=
    if String.eqb body "" then inr "unexpected end of JSON input"
    else inl {| Versions_Versions :=
                  map (fun v => {| Version_Version := v; Version_Protocols := ["4.0"; "5.1"];
                                     Version_Platforms := [] |})
                      (strings.Split body ";") |}
|}.

Definition emptyFS : FS := {| dirs := ∅; files := ∅; journal := [] |}.

Definition addFile (name data : string) (fs : FS) : FS := putFile fs name data.
Definition addDir (name : string) (fs : FS) : FS :=
  {| dirs := {[ resolve name ]} ∪ dirs fs; files := files fs; journal := journal fs |}.

Definition nl : string := String LF "".

Definition registry : string := "registry.example.com".

(** A registry that serves the well-known document but no version list. *)
Definition registryOnline (url : string) : Response :=
  if String.eqb url "https://registry.example.com/.well-known/terraform.json"
  then GetResp 200 (ReadAllOk "/v1/providers/|/v1/modules/")
  else GetResp 404 (ReadAllOk "").

(** A registry that also lists the versions 1.0.0, 1.2.0 and 1.0.0 again. *)
Definition registryPublished (url : string) : Response :=
  if String.eqb url "https://registry.example.com/.well-known/terraform.json"
  then GetResp 200 (ReadAllOk "/v1/providers/|/v1/modules/")
  else if String.eqb url "https://registry.example.com/v1/providers/exampleorg/acme/versions"
  then GetResp 200 (ReadAllOk "1.0.0;1.2.0;1.0.0")
  else GetResp 404 (ReadAllOk "").

(** A host that answers 404 to every request. *)
Definition registryMissing (url : string) : Response := GetResp 404 (ReadAllOk "").

(** A host that cannot be reached. *)
Definition registryDown (url : string) : Response := GetErr "dial tcp: connection refused".

(** A host whose well-known document is not a discovery document. *)
Definition registryGarbled (url : string) : Response := GetResp 200 (ReadAllOk "<html>").

Definition dist (manifest : string) : FS :=
  addFile "pubkey.txt" ("-----BEGIN PGP PUBLIC KEY BLOCK-----" +:+ nl +:+ "mQENBF" +:+ nl)
  (addFile "dist/acme_1.2.0_SHA256SUMS" manifest
  (addFile "dist/acme_1.2.0_SHA256SUMS.sig" "sig"
  (addFile "dist/acme_1.2.0_linux_amd64.zip" "zip1"
  (addFile "dist/acme_1.2.0_darwin_arm64.zip" "zip2"
  (addFile "dist/acme_1.2.0_solaris_amd64.zip" "zip3"
  (addDir "dist" (addDir "release" emptyFS))))))).

(** The same with the download directories of version 1.2.0 in place. *)
Definition staged (manifest : string) : FS :=
  addDir "release/v1/providers/exampleorg/acme/1.2.0/download/linux"
  (addDir "release/v1/providers/exampleorg/acme/1.2.0/download/darwin"
  (addDir "release/v1/providers/exampleorg/acme/1.2.0/download"
  (addDir "release/v1/providers/exampleorg/acme/1.2.0"
  (addDir "release/v1/providers/exampleorg/acme"
  (addDir "release/v1/providers/exampleorg"
  (addDir "release/v1/providers"
  (addDir "release/v1" (dist manifest)))))))).

Definition twoPlatforms : string :=
  "aaa  acme_1.2.0_linux_amd64.zip" +:+ nl +:+ "bbb  acme_1.2.0_darwin_arm64.zip" +:+ nl.

Definition withReadme : string :=
  "aaa  acme_1.2.0_linux_amd64.zip" +:+ nl +:+ "fff  README.txt" +:+ nl
    +:+ "bbb  acme_1.2.0_darwin_arm64.zip" +:+ nl.

Definition withSolaris : string :=
  "aaa  acme_1.2.0_linux_amd64.zip" +:+ nl +:+ "ccc  acme_1.2.0_solaris_amd64.zip" +:+ nl
    +:+ "bbb  acme_1.2.0_darwin_arm64.zip" +:+ nl.

Definition duplicated : string :=
  "aaa  acme_1.2.0_linux_amd64.zip" +:+ nl +:+ "ddd  acme_1.2.0_linux_amd64.zip" +:+ nl
    +:+ "bbb  acme_1.2.0_darwin_arm64.zip" +:+ nl.

Definition interrupted : string :=
  "aaa  acme_1.2.0_linux_amd64.zip" +:+ nl +:+ "ccc  acme_1.2.0_solaris_amd64.zip" +:+ nl
    +:+ "ddd  acme_1.2.0_linux_amd64.zip" +:+ nl.

Definition unseparated : string :=
  "aaa  acme_1.2.0_linux_amd64.zip" +:+ nl +:+ "README" +:+ nl.

Definition run (manifest : string) : Outcome error :=
  provider registryOnline "exampleorg" "acme" "dist/" "acme" "1.2.0" "ABCDEF" "pubkey.txt"
    registry (dist manifest).

End Sample.


(** ** The merge as the specification words it

    First-seen deduplication: going through the remote records in order, a
    record is kept when its version string has not been seen before. *)

Fixpoint dedupFirstSeen (seen : list string) (remote : list Version) : list Version :=
  match remote with
  | [] => []
  | v :: rest =>
      if bool_decide (Version_Version v ∈ seen) then dedupFirstSeen seen rest
      else v :: dedupFirstSeen (seen ++ [Version_Version v]) rest
  end.

Definition firstSeen (remote : list Version) : list Version := dedupFirstSeen [] remote.

(** How many records of [l] carry the version string [x]. *)
Definition versionCount (x : string) (l : list Version) : nat :=
  length (filter (fun u => Version_Version u = x) l).

(** ** The manifest and the platforms, as the specification words them *)

(** [strings.Contains]. *)
Definition Contains (s substr : string) : bool :=
  if strings.Cut s substr is Some _ then true else false.

(** A manifest entry: checksum and file name. *)
Definition ManifestEntry : Type := string * string.

Definition rowOf (e : ManifestEntry) : list string := [e.1; e.2].

(** The two fields that [getShaSumContents] takes from a line, when the
    line has them. *)
Definition parseLine (line : string) : option ManifestEntry :=
  let lineSplit := strings.Split line "  " in
  match lineSplit !! 0, lineSplit !! 1 with
  | Some checksum, Some name => Some (checksum, name)
  | _, _ => None
  end.

Fixpoint parseLines (lines : list string) : option (list ManifestEntry) :=
  match lines with
  | [] => Some []
  | line :: rest =>
      match parseLine line, parseLines rest with
      | Some e, Some es => Some (e :: es)
      | _, _ => None
      end
  end.

(** The file name up to its first [".zip"]. *)
Definition stripZip (fileName : string) : string :=
  match strings.Cut fileName ".zip" with
  | Some (stem, _) => stem
  | None => fileName
  end.

(** Platform extraction: the third and fourth token of the stem, when the
    stem has at least four tokens. *)
Definition platformOf (fileName : string) : option Platform :=
  let tokens := strings.Split (stripZip fileName) "_" in
  if (length tokens <? 4)%nat then None
  else match tokens !! 2, tokens !! 3 with
       | Some os, Some arch => Some {| Platform_Os := os; Platform_Arch := arch |}
       | _, _ => None
       end.

(** The platforms of a manifest, in manifest order. *)
Definition manifestPlatforms (entries : list ManifestEntry) : list Platform :=
  omap (fun e => platformOf e.2) entries.

(** A sequence of [writeFile] calls that stops at the first error. *)
Fixpoint writeAll (writes : list (string * string)) : M error :=
  match writes with
  | [] => ret None
  | (name, data) :: rest =>
      let* err := writeFile name data in
      if err is Some _ then ret err else writeAll rest
  end.

(** The key text: every line of the key file followed by a newline. *)
Fixpoint armorText (gpgFile : list string) : string :=
  match gpgFile with
  | [] => ""
  | line :: rest => line +:+ String LF "" +:+ armorText rest
  end.

Section ArchitectureDocuments.

Context `{json : Json}.
Variables (namespace provider repoName version gpgFingerprint domain : string).
Variable wellKnownData : WellKnown.
Variable gpgFile : list string.

(** The path of the architecture file of a platform. *)
Definition archFileName (p : Platform) : string :=
  "release" +:+ WellKnown_ProvidersV1 wellKnownData +:+ namespace +:+ "/" +:+ provider
    +:+ "/" +:+ version +:+ "/download/" +:+ Platform_Os p +:+ "/" +:+ Platform_Arch p.

Definition shasumsUrlOf : string :=
  "https://" +:+ domain +:+ WellKnown_ProvidersV1 wellKnownData +:+ namespace +:+ "/"
    +:+ provider +:+ "/" +:+ version +:+ "/" +:+ repoName +:+ "_" +:+ version
    +:+ "_SHA256SUMS".

(** The architecture document of a manifest entry recognised as platform
    [p]. *)
Definition architectureOf (e : ManifestEntry) (p : Platform) : Architecture :=
  {| Architecture_Protocols := ["4.0"; "5.1"];
     Architecture_Os := Platform_Os p;
     Architecture_Arch := Platform_Arch p;
     Architecture_Filename := e.2;
     Architecture_DownloadUrl :=
       "https://" +:+ domain +:+ WellKnown_ProvidersV1 wellKnownData +:+ namespace +:+ "/"
         +:+ provider +:+ "/" +:+ version +:+ "/download/" +:+ e.2;
     Architecture_ShasumsUrl := shasumsUrlOf;
     Architecture_ShasumsSignatureUrl := shasumsUrlOf +:+ ".sig";
     Architecture_Shasum := e.1;
     Architecture_SigningKeys_GpgPublicKeys :=
       [ {| KeyId := gpgFingerprint;
            AsciiArmor := armorText gpgFile;
            TrustSignature := "";
            Source := "";
            SourceUrl := "" |} ] |}.

(** The write that [createArchitectureFiles] issues for an entry: none for
    an entry that is not recognised as a platform. *)
Definition archWrite (e : ManifestEntry) : option (string * string) :=
  match platformOf e.2 with
  | Some p => Some (archFileName p, MarshalIndent_Architecture (architectureOf e p))
  | None => None
  end.

Definition archWrites (entries : list ManifestEntry) : list (string * string) :=
  omap archWrite entries.

End ArchitectureDocuments.

(** The files after a sequence of successful writes. *)
Definition applyWrites (m : gmap (list string) string) (writes : list (string * string))
  : gmap (list string) string :=
  foldl (fun m w => <[ resolve w.1 := w.2 ]> m) m writes.

(** The manifest that [getShaSumContents] reads in state [fs]. *)
Definition shaSumPathOf (distPath repoName version : string) : string :=
  distPath +:+ "/" +:+ (repoName +:+ "_" +:+ version +:+ "_SHA256SUMS").

(** The URL of the discovery document. *)
Definition wellKnownUrlOf (domain : string) : string :=
  "https://" +:+ domain +:+ "/.well-known/terraform.json".

(** Where the fallback stores the default discovery document. *)
Definition wellKnownPath : string := "release/.well-known/terraform.json".

(** The record that [createVersionsFile] appends for a manifest. *)
Definition newVersion (version : string) (entries : list ManifestEntry) : Version :=
  {| Version_Version := version;
     Version_Protocols := ["4.0"; "5.1"];
     Version_Platforms := manifestPlatforms entries |}.

(** The path of the versions document as [createVersionsFile] builds it. *)
Definition versionPathOf (wellKnownData : WellKnown) (namespace provider : string) : string :=
  "release" +:+ WellKnown_ProvidersV1 wellKnownData +:+ namespace +:+ "/" +:+ provider
    +:+ "/versions".

(** The directory that [createVersionsFile] creates for it. *)
Definition versionDirOf (wellKnownData : WellKnown) (namespace provider : string) : string :=
  let versionPathDir := strings.Split (versionPathOf wellKnownData namespace provider) "/" in
  strings.Join (take (length versionPathDir - 1) versionPathDir) "/".

(** A state with one more entry in the journal. *)
Definition logged (fs : FS) (name data : string) : FS :=
  {| dirs := dirs fs; files := files fs; journal := journal fs ++ [(name, data)] |}.

(** The loop of [createArchitectureFiles] with the prefixes and the key text
    that the function computes before it (lines 400 to 408 and 420 to 423). *)
Definition architectureLoop `{json : Json}
    (namespace provider repoName version gpgFingerprint domain : string)
    (wellKnownData : WellKnown) (gpgFile : list string) (rows : list (list string)) : M error :=
  let prefix :=
    WellKnown_ProvidersV1 wellKnownData +:+ namespace +:+ "/" +:+ provider +:+ "/"
      +:+ version +:+ "/" in
  let pathPrefix := "release" +:+ prefix in
  let urlPrefix := "https://" +:+ domain +:+ prefix in
  let downloadUrlPrefix := urlPrefix +:+ "download/" in
  let downloadPathPrefix := pathPrefix +:+ "download/" in
  let shasumsUrl := urlPrefix +:+ (repoName +:+ "_" +:+ version +:+ "_SHA256SUMS") in
  let shasumsSigUrl := shasumsUrl +:+ ".sig" in
  architectureFiles downloadUrlPrefix downloadPathPrefix shasumsUrl shasumsSigUrl
    gpgFingerprint (gpgAscii gpgFile "") rows.

(** A token that is one path segment: not empty and without ["/"]. *)
Definition plainSegment (s : string) : bool := nonEmpty s && negb (Contains s "/").

Definition plainPlatform (p : Platform) : bool :=
  plainSegment (Platform_Os p) && plainSegment (Platform_Arch p).

(** The discovery request failed: a transport error, or a status other than
    200. *)
Definition discoveryFailed (r : Response) : bool :=
  match r with
  | GetErr _ => true
  | GetResp code _ => negb (code =? StatusOK)%Z
  end.

(** The body of a response cannot be read or is not a discovery document:
    the error that [io.ReadAll] or [json.Unmarshal] reports. *)
Definition bodyMalformed `{json : Json} (body : Body) : option string :=
  match body with
  | ReadAllErr msg => Some msg
  | ReadAllOk data =>
      match Unmarshal_WellKnown data with
      | inr msg => Some msg
      | inl _ => None
      end
  end.

(** ** [deleteDir] and [main] *)

(** The last element of the path is ["."]. *)
Definition endsWithDot (path : string) : bool :=
  String.eqb path "." || strings.HasSuffix path "/.".

(** [os.RemoveAll]: removes [name] and everything below it; a path that
    does not exist is no error, the empty name is ignored and a name whose
    last element is ["."] is refused.  The root itself cannot be removed. *)
Definition os_RemoveAll (fs : FS) (name : string) : FS * error :=
  if String.eqb name "" then (fs, None)
  else if endsWithDot name then (fs, Some ("RemoveAll " +:+ name +:+ ": invalid argument"))
  else
    let p := resolve name in
    let fs' := {| dirs := filter (fun q => ¬ p `prefix_of` q) (dirs fs);
                  files := filter (fun kv => ¬ p `prefix_of` kv.1) (files fs);
                  journal := journal fs |} in
    if bool_decide (p = ["/"])
    then (fs', Some ("unlinkat " +:+ name +:+ ": device or resource busy"))
    else (fs', None).

Definition deleteDir (path : string) : M error :=
  fun fs => let '(fs', err) := os_RemoveAll fs path in Return err fs'.

Section Main.

Context `{json : Json}.
Variable httpGet : string -> Response.

(** [main], from the values of the flags after [flag.Parse]. *)
Definition main
    (namespace domain providerName distPath repoName version : string)
    (gpgFingerprint gpgPubKeyFile : string) : M unit :=
  if String.eqb namespace "" then log_Fatalf
  else if String.eqb domain "" then log_Fatalf
  else if String.eqb providerName "" then log_Fatalf
  else if String.eqb repoName "" then log_Fatalf
  else if String.eqb version "" then log_Fatalf
  else if String.eqb gpgFingerprint "" then log_Fatalf
  else
    let distPath := distPath +:+ "/" in
    let* err := deleteDir "release" in
    if err is Some _ then log_Fatalf
    else
      let* err := createDir "release" in
      if err is Some _ then log_Fatalf
      else
        let* err := provider httpGet namespace providerName distPath repoName version
                      gpgFingerprint gpgPubKeyFile domain in
        if err is Some _ then log_Fatalf else ret tt.

End Main.

(** ** Auxiliary notions for the further properties *)

(** The segments of a path. *)
Definition segments (name : string) : list string :=
  List.filter nonEmpty (strings.Split name "/").




(** The state with one more directory. *)
Definition withDir (fs : FS) (p : list string) : FS :=
  {| dirs := {[ p ]} ∪ dirs fs; files := files fs; journal := journal fs |}.

(** Nothing lies at or below [p]. *)
Definition absent (fs : FS) (p : list string) : Prop :=
  forall q, p `prefix_of` q -> (q ∉ dirs fs) /\ files fs !! q = None.


(** The URL of the version list (line 276). *)
Definition versionsUrlOf (domain : string) (wellKnownData : WellKnown)
    (namespace provider : string) : string :=
  "https://" +:+ domain +:+ WellKnown_ProvidersV1 wellKnownData +:+ namespace +:+ "/"
    +:+ provider +:+ "/versions".

(** The answer to the second request is a version list. *)
Definition versionsAvailable `{json : Json} (r : Response) : bool :=
  match r with
  | GetResp code (ReadAllOk body) =>
      (code =? StatusOK)%Z && (if Unmarshal_Versions body is inl _ then true else false)
  | _ => false
  end.

(** The history that [downloadVersionsFile] hands on for an answer to the
    second request: the list in the answer, or none. *)
Definition publishedVersions `{json : Json} (r : Response) : Versions :=
  match r with
  | GetResp code (ReadAllOk body) =>
      if (code =? StatusOK)%Z
      then match Unmarshal_Versions body with
           | inl versionsData => versionsData
           | inr _ => mkVersions []
           end
      else mkVersions []
  | _ => mkVersions []
  end.

(** A manifest line and the row that [getShaSumContents] makes of it: the
    first two of its fields. *)
Definition firstTwoFields (line : string) (row : list string) : Prop :=
  exists checksum name rest,
    strings.Split line "  " = checksum :: name :: rest /\ row = [checksum; name].

(** A sequence of [copyFile] calls that stops at the first error. *)
Fixpoint copyAll (copies : list (string * string)) : M error :=
  match copies with
  | [] => ret None
  | (src, dst) :: rest =>
      let* err := copyFile src dst in
      if err is Some _ then ret err else copyAll rest
  end.

(** The copies that [copyBuildZips] makes for a manifest: one for each entry
    whose name ends in [".zip"]. *)
Definition zipCopies (destPath distPath : string) (entries : list ManifestEntry)
  : list (string * string) :=
  omap (fun e : ManifestEntry =>
          if strings.HasSuffix e.2 ".zip"
          then Some (distPath +:+ e.2, destPath +:+ e.2) else None) entries.

(** The operating systems that get a download directory (line 331). *)
Definition targets : list string := ["darwin"; "freebsd"; "linux"; "windows"].

(** The components of a path, each followed by a slash. *)
Fixpoint trail (components : list string) : string :=
  match components with
  | [] => ""
  | v :: rest => v +:+ "/" +:+ trail rest
  end.

(** The state [fs'] has all the directories and files of [fs], and a
    journal that continues the one of [fs]. *)
Definition extends (fs fs' : FS) : Prop :=
  dirs fs ⊆ dirs fs' /\
  (forall q, is_Some (files fs !! q) -> is_Some (files fs' !! q)) /\
  journal fs `prefix_of` journal fs'.

(** A computation that never removes a directory or a file. *)
Definition keeps {A} (m : M A) : Prop := forall fs, extends fs (finalFS (m fs)).



(** The state in which [main] calls [provider]: [release] is a directory
    with nothing in it. *)
Definition fresh (fs : FS) : Prop :=
  isDir fs ["release"] = true /\
  forall q, ["release"] `prefix_of` q ->
    files fs !! q = None /\ (q <> ["release"] -> q ∉ dirs fs).





(** * Properties *)

(** ** Outcomes *)

Lemma result_Some {A} (o : Outcome A) (a : A) :
  result o = Some a -> o = Return a (finalFS o).
Proof. destruct o; simpl; congruence. Qed.

(** ** Strings *)

Section StringFacts.

Lemma append_nil_r (s : string) : s +:+ "" = s.
Proof. induction s as [|c s IH]; simpl; congruence. Qed.

Lemma append_assoc (a b c : string) : (a +:+ b) +:+ c = a +:+ (b +:+ c).
Proof. induction a as [|x a IH]; simpl; congruence. Qed.

Lemma length_append (a b : string) :
  String.length (a +:+ b) = String.length a + String.length b.
Proof. induction a as [|x a IH]; simpl; congruence. Qed.

Lemma prefix_append (sep s : string) :
  String.prefix sep s = true -> s = sep +:+ strings.drop (String.length sep) s.
Proof.
  revert s. induction sep as [|c sep IH]; intros s H; simpl in *.
  - reflexivity.
  - destruct s as [|d s]; simpl in H; [discriminate|].
    destruct (Ascii.ascii_dec c d) as [->|]; [|discriminate].
    f_equal. now apply IH.
Qed.


Lemma Cut_unfold (s sep : string) :
  strings.Cut s sep =
    if String.prefix sep s then Some ("", strings.drop (String.length sep) s)
    else match s with
         | EmptyString => None
         | String c s' =>
             match strings.Cut s' sep with
             | Some (before, after) => Some (String c before, after)
             | None => None
             end
         end.
Proof. destruct s; reflexivity. Qed.

Lemma Cut_Some (s sep before after : string) :
  strings.Cut s sep = Some (before, after) -> s = before +:+ sep +:+ after.
Proof.
  revert before after. induction s as [|c s IH]; intros before after H.
  - destruct sep; simpl in H; [|discriminate]. now injection H as <- <-.
  - rewrite Cut_unfold in H. destruct (String.prefix sep (String c s)) eqn:E.
    + injection H as <- <-. now apply prefix_append.
    + destruct (strings.Cut s sep) as [[b a]|] eqn:E'; [|discriminate].
      injection H as <- <-. simpl. f_equal. now apply IH.
Qed.



Lemma Cut_shorter (s sep before after : string) :
  sep <> "" -> strings.Cut s sep = Some (before, after) ->
  String.length after < String.length s.
Proof.
  intros Hsep H. apply Cut_Some in H. subst s.
  rewrite !length_append. destruct sep; [congruence|]. simpl. lia.
Qed.

Lemma genSplit_fuel (sep : string) (n m : nat) (s : string) :
  sep <> "" -> String.length s <= n -> String.length s <= m ->
  strings.genSplit n s sep = strings.genSplit m s sep.
Proof.
  intros Hsep. revert m s. induction n as [|n IH]; intros m s Hn Hm.
  - destruct s; [|simpl in Hn; lia].
    destruct m; simpl; [reflexivity|].
    destruct sep; [congruence|]. reflexivity.
  - destruct m as [|m].
    + destruct s; [|simpl in Hm; lia]. simpl.
      destruct sep; [congruence|]. reflexivity.
    + simpl. destruct (strings.Cut s sep) as [[b a]|] eqn:E; [|reflexivity].
      pose proof (Cut_shorter _ _ _ _ Hsep E). f_equal. apply IH; lia.
Qed.

(** The equation of [Split]: one cut, then the rest. *)
Lemma Split_eq (s sep : string) :
  sep <> "" ->
  strings.Split s sep =
    match strings.Cut s sep with
    | None => [s]
    | Some (before, after) => before :: strings.Split after sep
    end.
Proof.
  intros Hsep. unfold strings.Split.
  destruct (String.length s) as [|n] eqn:En.
  - destruct s; [|discriminate]. simpl. destruct sep; [congruence|]. reflexivity.
  - simpl. destruct (strings.Cut s sep) as [[b a]|] eqn:E; [|reflexivity].
    pose proof (Cut_shorter _ _ _ _ Hsep E). f_equal.
    apply genSplit_fuel; [assumption | lia | lia].
Qed.

Lemma genSplit_nonempty (n : nat) (s sep : string) : strings.genSplit n s sep <> [].
Proof. destruct n; simpl; [discriminate|]. destruct (strings.Cut s sep) as [[? ?]|]; discriminate. Qed.

Lemma Split_head (s sep : string) :
  exists rest, strings.Split s sep =
    match strings.Cut s sep with
    | None => s
    | Some (before, _) => before
    end :: rest.
Proof.
  unfold strings.Split. destruct (String.length s) as [|n] eqn:En; simpl.
  - destruct s; [|discriminate]. destruct sep; simpl; eauto.
  - destruct (strings.Cut s sep) as [[b a]|]; eauto.
Qed.

End StringFacts.

(** Normal form of concatenations: nested to the right, literals unfolded. *)
Ltac string_norm := repeat (progress (cbn [String.append]; rewrite ?append_assoc)).


(** ** The version merge *)

Section Merge.

Implicit Types (l remote acc : list Version) (seen : list string) (v ver : Version).

Lemma versionExists_spec acc v :
  versionExists acc v = bool_decide (Version_Version v ∈ map Version_Version acc).
Proof.
  induction acc as [|u acc IH].
  - reflexivity.
  - cbn [versionExists map]. destruct (String.eqb_spec (Version_Version u) (Version_Version v)) as [E|E].
    + symmetry. apply bool_decide_eq_true. rewrite E, elem_of_cons. now left.
    + rewrite IH. apply bool_decide_ext. rewrite elem_of_cons. intuition congruence.
Qed.

Lemma mergeLoop_dedup remote acc :
  mergeLoop remote acc = acc ++ dedupFirstSeen (map Version_Version acc) remote.
Proof.
  revert acc. induction remote as [|v rest IH]; intros acc; simpl.
  - now rewrite app_nil_r.
  - rewrite versionExists_spec.
    destruct (bool_decide (Version_Version v ∈ map Version_Version acc)); [apply IH|].
    rewrite IH, map_app, <- app_assoc. reflexivity.
Qed.

Lemma dedup_keys seen l x :
  x ∈ map Version_Version (dedupFirstSeen seen l) <->
  x ∈ map Version_Version l /\ x ∉ seen.
Proof.
  revert seen. induction l as [|v rest IH]; intros seen; simpl.
  - split; [intros H; inversion H | intros [H _]; inversion H].
  - case_bool_decide as Hin; simpl.
    + rewrite IH, elem_of_cons. split; [intuition|].
      intros [[->|H] Hs]; [contradiction | auto].
    + rewrite !elem_of_cons, IH, elem_of_app, list_elem_of_singleton.
      split.
      * intros [->|[H Hs]]; [auto|]. split; [auto | intros ?; apply Hs; auto].
      * intros [[->|H] Hs]; [auto|].
        destruct (decide (x = Version_Version v)) as [->|Hne]; [auto|].
        right. split; [assumption|]. intros [?|?]; [contradiction | congruence].
Qed.

Lemma dedup_NoDup seen l : NoDup (map Version_Version (dedupFirstSeen seen l)).
Proof.
  revert seen. induction l as [|v rest IH]; intros seen; simpl.
  - constructor.
  - case_bool_decide as Hin; simpl; [apply IH|].
    constructor; [|apply IH].
    rewrite dedup_keys, elem_of_app, list_elem_of_singleton. intuition.
Qed.

Lemma dedup_sublist seen l : (dedupFirstSeen seen l) `sublist_of` l.
Proof.
  revert seen. induction l as [|v rest IH]; intros seen; simpl.
  - constructor.
  - case_bool_decide; [apply sublist_cons | apply sublist_skip]; apply IH.
Qed.

(** A record is kept exactly when it is the first of the list with its
    version string (and that string was not seen before the list began). *)
Lemma dedup_first seen l v :
  v ∈ dedupFirstSeen seen l <->
  exists i, l !! i = Some v /\ (Version_Version v ∉ seen) /\
            forall j u, j < i -> l !! j = Some u -> Version_Version u <> Version_Version v.
Proof.
  revert seen. induction l as [|w rest IH]; intros seen; simpl.
  - split; [intros H; inversion H | intros (i & H & _); destruct i; discriminate].
  - case_bool_decide as Hin.
    + rewrite IH. split.
      * intros (i & Hi & Hs & Hj). exists (S i). split; [exact Hi|]. split; [exact Hs|].
        intros [|j] u Hlt Hu; simpl in Hu.
        -- injection Hu as <-. congruence.
        -- apply (Hj j); [lia | exact Hu].
      * intros ([|i] & Hi & Hs & Hj); simpl in Hi.
        -- injection Hi as <-. contradiction.
        -- exists i. split; [exact Hi|]. split; [exact Hs|].
           intros j u Hlt Hu. apply (Hj (S j)); [lia | exact Hu].
    + rewrite elem_of_cons, IH. split.
      * intros [->|(i & Hi & Hs & Hj)].
        -- exists 0. split; [reflexivity|]. split; [exact Hin|]. intros j u Hlt. lia.
        -- exists (S i). split; [exact Hi|].
           rewrite elem_of_app, list_elem_of_singleton in Hs.
           split; [tauto|].
           intros [|j] u Hlt Hu; simpl in Hu.
           ++ injection Hu as <-. intros E. apply Hs. right. congruence.
           ++ apply (Hj j); [lia | exact Hu].
      * intros ([|i] & Hi & Hs & Hj); simpl in Hi.
        -- injection Hi as <-. now left.
        -- right. exists i. split; [exact Hi|]. split.
           ++ rewrite elem_of_app, list_elem_of_singleton. intros [?|E]; [contradiction|].
              apply (Hj 0 w); [lia | reflexivity | congruence].
           ++ intros j u Hlt Hu. apply (Hj (S j)); [lia | exact Hu].
Qed.

Lemma versionCount_app x l1 l2 : versionCount x (l1 ++ l2) = versionCount x l1 + versionCount x l2.
Proof. unfold versionCount. now rewrite filter_app, length_app. Qed.

Lemma versionCount_absent x l : x ∉ map Version_Version l -> versionCount x l = 0.
Proof.
  unfold versionCount. induction l as [|u l IH]; simpl; intros H; [reflexivity|].
  rewrite not_elem_of_cons in H. destruct H as [H1 H2].
  rewrite filter_cons. destruct (decide (Version_Version u = x)); [congruence | auto].
Qed.

Lemma versionCount_NoDup x l :
  NoDup (map Version_Version l) ->
  versionCount x l = if bool_decide (x ∈ map Version_Version l) then 1 else 0.
Proof.
  induction l as [|u l IH]; intros H.
  - reflexivity.
  - cbn [map] in *. apply NoDup_cons in H as [Hu Hl]. unfold versionCount in *.
    rewrite filter_cons.
    destruct (decide (Version_Version u = x)) as [<-|Hne]; simpl.
    + rewrite bool_decide_eq_true_2 by (rewrite elem_of_cons; now left).
      f_equal. now apply versionCount_absent.
    + rewrite (IH Hl).
      rewrite (bool_decide_ext (x ∈ Version_Version u :: map Version_Version l)
                 (x ∈ map Version_Version l)); [reflexivity|].
      rewrite elem_of_cons. split; [intros [?|?]; [congruence | assumption] | auto].
Qed.

End Merge.

(** ** The manifest parser *)

Section Parser.


Lemma parseLine_no_separator (line : string) :
  Contains line "  " = false -> parseLine line = None.
Proof.
  unfold Contains, parseLine. rewrite Split_eq by discriminate.
  destruct (strings.Cut line "  ") as [[b a]|]; [discriminate | reflexivity].
Qed.

Lemma parseLine_separator (line before after : string) :
  strings.Cut line "  " = Some (before, after) ->
  parseLine line =
    Some (before, match strings.Cut after "  " with
                  | Some (name, _) => name
                  | None => after
                  end).
Proof.
  intros E. unfold parseLine. rewrite Split_eq, E by discriminate.
  destruct (Split_head after "  ") as [rest ->]. reflexivity.
Qed.

Lemma shaSumRows_spec (lines : list string) (acc : list (list string)) (fs : FS) :
  shaSumRows lines acc fs =
    match parseLines lines with
    | Some es => Return (acc ++ map rowOf es) fs
    | None => Panic fs
    end.
Proof.
  revert acc. induction lines as [|line rest IH]; intros acc; simpl.
  - unfold ret. now rewrite app_nil_r.
  - unfold bind, index, parseLine.
    destruct (strings.Split line "  " !! 0) as [a|]; [|reflexivity].
    destruct (strings.Split line "  " !! 1) as [b|]; [|reflexivity].
    rewrite IH. destruct (parseLines rest) as [es|]; [|reflexivity].
    simpl. now rewrite <- app_assoc.
Qed.

Lemma getShaSumContents_spec (distPath repoName version : string) (fs : FS) :
  getShaSumContents distPath repoName version fs =
    match readLines fs (distPath +:+ "/" +:+ (repoName +:+ "_" +:+ version +:+ "_SHA256SUMS")) with
    | (_, Some e) => Return ([], Some e) fs
    | (lines, None) =>
        match parseLines lines with
        | Some es => Return (map rowOf es, None) fs
        | None => Panic fs
        end
    end.
Proof.
  unfold getShaSumContents, bind, readFile.
  destruct (readLines fs _) as [lines [e|]]; [reflexivity|].
  rewrite shaSumRows_spec. destruct (parseLines lines); reflexivity.
Qed.

End Parser.

(** ** Platform extraction and the two loops over the manifest *)

Section Loops.

Context `{json : Json}.

Lemma index_Split_0 (s sep : string) (fs : FS) :
  index (strings.Split s sep) 0 fs =
    Return (match strings.Cut s sep with Some (before, _) => before | None => s end) fs.
Proof. destruct (Split_head s sep) as [rest ->]. reflexivity. Qed.

Lemma index_rowOf_0 (e : ManifestEntry) (fs : FS) : index (rowOf e) 0 fs = Return e.1 fs.
Proof. reflexivity. Qed.

Lemma index_rowOf_1 (e : ManifestEntry) (fs : FS) : index (rowOf e) 1 fs = Return e.2 fs.
Proof. reflexivity. Qed.

Lemma index_stem (fileName : string) (fs : FS) :
  index (strings.Split fileName ".zip") 0 fs = Return (stripZip fileName) fs.
Proof. apply index_Split_0. Qed.

Lemma platformOf_tokens (fileName : string) :
  let tokens := strings.Split (stripZip fileName) "_" in
  match platformOf fileName with
  | None => (length tokens <? 4)%nat = true
  | Some p =>
      (length tokens <? 4)%nat = false /\
      tokens !! 2 = Some (Platform_Os p) /\ tokens !! 3 = Some (Platform_Arch p)
  end.
Proof.
  unfold platformOf. cbv zeta.
  destruct (length _ <? 4)%nat eqn:E; [reflexivity|].
  apply Nat.ltb_ge in E.
  destruct (strings.Split (stripZip fileName) "_") as [|a [|b [|c [|d l]]]];
    simpl in E; try lia.
  simpl. auto.
Qed.

Lemma versionPlatforms_spec (entries : list ManifestEntry) (acc : list Platform) (fs : FS) :
  versionPlatforms (map rowOf entries) acc fs = Return (acc ++ manifestPlatforms entries) fs.
Proof.
  revert acc. induction entries as [|[shasum fileName] rest IH]; intros acc.
  - simpl. unfold ret, manifestPlatforms. simpl. now rewrite app_nil_r.
  - cbn [map versionPlatforms].
    unfold bind at 1. rewrite index_rowOf_1. cbn [snd].
    unfold bind at 1. rewrite index_stem.
    pose proof (platformOf_tokens fileName) as Ht. cbv zeta in Ht.
    unfold manifestPlatforms. cbn [omap list_omap snd]. fold (manifestPlatforms rest).
    destruct (platformOf fileName) as [[os arch]|].
    + destruct Ht as (-> & H2 & H3). simpl in H2, H3.
      unfold bind, index. rewrite H2, H3. rewrite IH.
      now rewrite <- app_assoc.
    + rewrite Ht. apply IH.
Qed.

Lemma gpgAscii_armorText (gpgFile : list string) (acc : string) :
  gpgAscii gpgFile acc = acc +:+ armorText gpgFile.
Proof.
  revert acc. induction gpgFile as [|line rest IH]; intros acc; simpl.
  - now rewrite append_nil_r.
  - rewrite IH. now rewrite !append_assoc.
Qed.

Lemma architectureFiles_spec
    (namespace provider repoName version gpgFingerprint domain : string)
    (wellKnownData : WellKnown) (gpgFile : list string)
    (entries : list ManifestEntry) (fs : FS) :
  let prefix :=
    WellKnown_ProvidersV1 wellKnownData +:+ namespace +:+ "/" +:+ provider +:+ "/"
      +:+ version +:+ "/" in
  let urlPrefix := "https://" +:+ domain +:+ prefix in
  let shasumsUrl := urlPrefix +:+ (repoName +:+ "_" +:+ version +:+ "_SHA256SUMS") in
  architectureFiles (urlPrefix +:+ "download/") (("release" +:+ prefix) +:+ "download/")
    shasumsUrl (shasumsUrl +:+ ".sig") gpgFingerprint (gpgAscii gpgFile "")
    (map rowOf entries) fs
  = writeAll (archWrites namespace provider repoName version gpgFingerprint domain
                wellKnownData gpgFile entries) fs.
Proof.
  intros prefix urlPrefix shasumsUrl. revert fs.
  induction entries as [|[shasum fileName] rest IH]; intros fs.
  - reflexivity.
  - cbn [map architectureFiles].
    unfold bind at 1. rewrite index_rowOf_0. cbn [fst].
    unfold bind at 1. rewrite index_rowOf_1. cbn [snd].
    unfold bind at 1. rewrite index_stem.
    pose proof (platformOf_tokens fileName) as Ht. cbv zeta in Ht.
    unfold archWrites. cbn [omap list_omap]. unfold archWrite at 1. cbn [snd fst].
    fold (archWrites namespace provider repoName version gpgFingerprint domain
            wellKnownData gpgFile rest).
    destruct (platformOf fileName) as [[os arch]|].
    + destruct Ht as (-> & H2 & H3). simpl in H2, H3.
      unfold bind at 1. unfold index at 1. rewrite H2.
      unfold bind at 1. unfold index at 1. rewrite H3.
      cbn [writeAll].
      assert (Hname : (("release" +:+ prefix) +:+ "download/") +:+ os +:+ "/" +:+ arch
                      = archFileName namespace provider version wellKnownData
                          {| Platform_Os := os; Platform_Arch := arch |}).
      { unfold archFileName, prefix. cbn [Platform_Os Platform_Arch]. now string_norm. }
      assert (Hdoc :
        {| Architecture_Protocols := ["4.0"; "5.1"];
           Architecture_Os := os;
           Architecture_Arch := arch;
           Architecture_Filename := fileName;
           Architecture_DownloadUrl := (urlPrefix +:+ "download/") +:+ fileName;
           Architecture_ShasumsUrl := shasumsUrl;
           Architecture_ShasumsSignatureUrl := shasumsUrl +:+ ".sig";
           Architecture_Shasum := shasum;
           Architecture_SigningKeys_GpgPublicKeys :=
             [ {| KeyId := gpgFingerprint;
                  AsciiArmor := gpgAscii gpgFile "";
                  TrustSignature := "";
                  Source := "";
                  SourceUrl := "" |} ] |}
        = architectureOf namespace provider repoName version gpgFingerprint domain
            wellKnownData gpgFile (shasum, fileName)
            {| Platform_Os := os; Platform_Arch := arch |}).
      { unfold architectureOf, shasumsUrlOf, shasumsUrl, urlPrefix, prefix.
        rewrite gpgAscii_armorText. cbn [fst snd Platform_Os Platform_Arch]. f_equal; now string_norm. }
      rewrite Hname, Hdoc. unfold bind.
      destruct (writeFile _ _ fs) as [[e|] fs'| |]; try reflexivity. apply IH.
    + rewrite Ht. apply IH.
Qed.

End Loops.

(** ** Writing files *)

Section Writes.

Lemma writeFile_cases (name data : string) (fs : FS) :
  (exists e, openForWrite fs name = Some e /\
             writeFile name data fs = Return (Some (PathError "open" name e)) fs) \/
  (openForWrite fs name = None /\
   writeFile name data fs =
     Return None {| dirs := dirs fs;
                    files := <[ resolve name := data ]> (files fs);
                    journal := journal fs ++ [(name, data)] |}).
Proof.
  unfold writeFile, os_WriteFile. destruct (openForWrite fs name) as [e|]; eauto.
Qed.

(** [writeAll] performs the first [n] writes, in order, and nothing else; it
    returns [nil] exactly when it has performed them all. *)
Lemma writeAll_outcome (writes : list (string * string)) (fs : FS) :
  exists n err fs',
    writeAll writes fs = Return err fs' /\
    n <= length writes /\
    journal fs' = journal fs ++ take n writes /\
    dirs fs' = dirs fs /\
    files fs' = applyWrites (files fs) (take n writes) /\
    (err = None -> n = length writes) /\
    (err <> None -> n < length writes).
Proof.
  revert fs. induction writes as [|[name data] rest IH]; intros fs.
  - exists 0, None, fs. simpl. rewrite app_nil_r. unfold ret.
    split; [reflexivity|]. split; [lia|]. split; [reflexivity|].
    split; [reflexivity|]. split; [reflexivity|]. split; [reflexivity | congruence].
  - cbn [writeAll]. unfold bind.
    destruct (writeFile_cases name data fs) as [(e & _ & ->)|(_ & ->)].
    + exists 0, (Some (PathError "open" name e)), fs. simpl. rewrite app_nil_r.
      split; [reflexivity|]. split; [lia|]. split; [reflexivity|].
      split; [reflexivity|]. split; [reflexivity|]. split; [discriminate | lia].
    + destruct (IH {| dirs := dirs fs; files := <[ resolve name := data ]> (files fs);
                      journal := journal fs ++ [(name, data)] |})
        as (n & err & fs' & -> & Hn & Hj & Hd & Hf & Hok & Hko).
      exists (S n), err, fs'. simpl in *. rewrite Hj, <- app_assoc.
      split; [reflexivity|]. split; [lia|]. split; [reflexivity|].
      split; [assumption|]. split; [assumption|].
      split; intros H; [f_equal; auto | apply Hko in H; lia].
Qed.

Lemma applyWrites_app (m : gmap (list string) string) (ws1 ws2 : list (string * string)) :
  applyWrites m (ws1 ++ ws2) = applyWrites (applyWrites m ws1) ws2.
Proof. unfold applyWrites. apply foldl_app. Qed.

Lemma applyWrites_other (m : gmap (list string) string) (ws : list (string * string))
    (p : list string) :
  (forall w, w ∈ ws -> resolve w.1 <> p) -> applyWrites m ws !! p = m !! p.
Proof.
  revert m. induction ws as [|w ws IH]; intros m H; [reflexivity|].
  cbn [applyWrites foldl]. fold (applyWrites (<[resolve w.1 := w.2]> m) ws).
  rewrite IH.
  - apply lookup_insert_ne. apply H. rewrite elem_of_cons. now left.
  - intros w' Hw'. apply H. rewrite elem_of_cons. now right.
Qed.

(** Last writer wins. *)
Lemma applyWrites_last (m : gmap (list string) string) (ws1 ws2 : list (string * string))
    (w : string * string) :
  (forall w', w' ∈ ws2 -> resolve w'.1 <> resolve w.1) ->
  applyWrites m (ws1 ++ w :: ws2) !! resolve w.1 = Some w.2.
Proof.
  intros H. rewrite applyWrites_app. cbn [applyWrites foldl].
  fold (applyWrites (<[resolve w.1 := w.2]> (applyWrites m ws1)) ws2).
  rewrite applyWrites_other by exact H. apply lookup_insert_eq.
Qed.

End Writes.

(** ** The discovery fallback and the versions file *)

Section Download.

Context `{json : Json}.
Variable httpGet : string -> Response.

Lemma wellKnownFallback_nil (fs : FS) : wellKnownFallback None fs = Panic fs.
Proof. reflexivity. Qed.

Lemma wellKnownFallback_error (msg : string) (fs : FS) :
  wellKnownFallback (Some msg) fs =
    match os_MkdirAll fs "release/.well-known/" with
    | inr _ => Exit fs
    | inl fs1 =>
        match os_WriteFile fs1 wellKnownPath (MarshalIndent_WellKnown defaultWellKnownData) with
        | inr _ => Exit fs1
        | inl fs2 =>
            Panic (logged fs2 wellKnownPath (MarshalIndent_WellKnown defaultWellKnownData))
        end
    end.
Proof.
  unfold wellKnownFallback, bind, Error, createDirRecursive, writeFile, log_Fatalf.
  destruct (os_MkdirAll fs "release/.well-known/") as [fs1|e]; [|reflexivity].
  change ("release/" +:+ ".well-known/terraform.json") with wellKnownPath.
  destruct (os_WriteFile fs1 wellKnownPath _) as [fs2|e]; reflexivity.
Qed.

Lemma wellKnownFallback_never_returns (err : error) (fs : FS) r fs' :
  wellKnownFallback err fs <> Return r fs'.
Proof.
  destruct err as [msg|]; [|discriminate].
  rewrite wellKnownFallback_error.
  destruct (os_MkdirAll fs _); [|discriminate].
  destruct (os_WriteFile _ _ _); discriminate.
Qed.

Lemma fetchVersions_state (namespace provider domain : string) (wk : WellKnown) (fs : FS) :
  exists reg e, fetchVersions httpGet namespace provider domain wk fs = Return (reg, wk, e) fs.
Proof.
  unfold fetchVersions.
  destruct (httpGet _) as [msg|code [data|msg]]; [unfold ret; eauto| |].
  - destruct (negb (code =? StatusOK)%Z); [unfold ret; eauto|].
    destruct (Unmarshal_Versions data); unfold ret; eauto.
  - destruct (negb (code =? StatusOK)%Z); unfold ret; eauto.
Qed.

(** Whenever [downloadVersionsFile] returns, the discovery request was
    answered with status 200 and the state is untouched. *)
Lemma downloadVersionsFile_Return (namespace provider domain : string) (fs fs' : FS) r :
  downloadVersionsFile httpGet namespace provider domain fs = Return r fs' ->
  fs' = fs /\ exists body, httpGet (wellKnownUrlOf domain) = GetResp StatusOK body.
Proof.
  unfold downloadVersionsFile. fold (wellKnownUrlOf domain).
  destruct (httpGet (wellKnownUrlOf domain)) as [msg|code body].
  - intros H. now apply wellKnownFallback_never_returns in H.
  - destruct (Z.eqb_spec code StatusOK) as [->|Hne]; simpl.
    + intros H. split; [|eauto].
      destruct body as [data|msg]; [|unfold ret in H; congruence].
      destruct (Unmarshal_WellKnown data) as [wk|msg]; [|unfold ret in H; congruence].
      destruct (fetchVersions_state namespace provider domain wk fs) as (reg & e & E).
      rewrite E in H. congruence.
    + intros H. now apply wellKnownFallback_never_returns in H.
Qed.

(** [createVersionsFile] once the download has returned. *)
Lemma createVersionsFile_spec
    (namespace provider distPath repoName version domain : string) (fs : FS)
    (reg : Versions) (wk : WellKnown) (e : error) :
  downloadVersionsFile httpGet namespace provider domain fs = Return (reg, wk, e) fs ->
  createVersionsFile httpGet namespace provider distPath repoName version domain fs =
    match readLines fs (shaSumPathOf distPath repoName version) with
    | (_, Some err) => Return (wk, Some err) fs
    | (lines, None) =>
        match parseLines lines with
        | None => Panic fs
        | Some entries =>
            let data := MarshalIndent_Versions (mergeVersions reg (newVersion version entries)) in
            match os_MkdirAll fs (versionDirOf wk namespace provider) with
            | inr _ => Exit fs
            | inl fs1 =>
                match os_WriteFile fs1 (versionPathOf wk namespace provider) data with
                | inr _ => Exit fs1
                | inl fs2 =>
                    Return (wk, None) (logged fs2 (versionPathOf wk namespace provider) data)
                end
            end
        end
    end.
Proof.
  intros Hd. unfold createVersionsFile. unfold bind at 1. rewrite Hd.
  unfold bind at 1. rewrite getShaSumContents_spec. fold (shaSumPathOf distPath repoName version).
  destruct (readLines fs _) as [lines [err|]]; [reflexivity|].
  destruct (parseLines lines) as [entries|]; [|reflexivity].
  unfold bind at 1. rewrite versionPlatforms_spec. cbn [app].
  fold (newVersion version entries). fold (versionPathOf wk namespace provider).
  fold (versionDirOf wk namespace provider). cbv zeta.
  unfold bind, createDirRecursive, writeFile, log_Fatalf.
  destruct (os_MkdirAll fs _) as [fs1|?]; [|reflexivity].
  destruct (os_WriteFile fs1 _ _) as [fs2|?]; reflexivity.
Qed.

Lemma os_WriteFile_inl (fs fs2 : FS) (name data : string) :
  os_WriteFile fs name data = inl fs2 -> fs2 = putFile fs name data.
Proof. unfold os_WriteFile. destruct (openForWrite fs name); congruence. Qed.

Lemma mkdirAll_keeps (fs fs1 : FS) (pre p : list string) :
  mkdirAll fs pre p = inl fs1 -> files fs1 = files fs /\ journal fs1 = journal fs.
Proof.
  revert fs pre. induction p as [|seg rest IH]; intros fs pre H; simpl in H.
  - injection H as <-. auto.
  - destruct (isDir fs (pre ++ [seg])); [eauto|].
    destruct (isFile fs (pre ++ [seg])); [discriminate|].
    apply IH in H. exact H.
Qed.

Lemma os_MkdirAll_keeps (fs fs1 : FS) (name : string) :
  os_MkdirAll fs name = inl fs1 -> files fs1 = files fs /\ journal fs1 = journal fs.
Proof.
  unfold os_MkdirAll. destruct (String.eqb name ""); [discriminate|].
  destruct (resolve name) as [|seg p]; [apply mkdirAll_keeps|].
  destruct (String.eqb_spec seg "/") as [->|Hne].
  - apply mkdirAll_keeps.
  - intros H. eapply mkdirAll_keeps.
    destruct seg as [|c seg]; [exact H|].
    destruct c as [[] [] [] [] [] [] [] []]; try exact H.
    destruct seg; [congruence | exact H].
Qed.

Lemma createVersionsFile_inv
    (namespace provider distPath repoName version domain : string) (fs : FS)
    (wk : WellKnown) :
  result (createVersionsFile httpGet namespace provider distPath repoName version domain fs)
    = Some (wk, None) ->
  exists reg e lines entries fs1,
    downloadVersionsFile httpGet namespace provider domain fs = Return (reg, wk, e) fs /\
    readLines fs (shaSumPathOf distPath repoName version) = (lines, None) /\
    parseLines lines = Some entries /\
    os_MkdirAll fs (versionDirOf wk namespace provider) = inl fs1 /\
    let path := versionPathOf wk namespace provider in
    let data := MarshalIndent_Versions (mergeVersions reg (newVersion version entries)) in
    finalFS (createVersionsFile httpGet namespace provider distPath repoName version domain fs)
    = logged (putFile fs1 path data) path data.
Proof.
  intros H.
  destruct (downloadVersionsFile httpGet namespace provider domain fs)
    as [[[reg wk0] e] fs0| |] eqn:Hd;
    try (unfold createVersionsFile, bind in H; rewrite Hd in H; discriminate).
  destruct (downloadVersionsFile_Return _ _ _ _ _ _ Hd) as [-> _].
  rewrite (createVersionsFile_spec _ _ _ _ _ _ _ _ _ _ Hd) in H |- *.
  destruct (readLines fs _) as [lines [err|]] eqn:Hr; [discriminate|].
  destruct (parseLines lines) as [entries|] eqn:Hp; [|discriminate].
  cbv zeta in H |- *.
  destruct (os_MkdirAll fs _) as [fs1|] eqn:E1; [|discriminate].
  destruct (os_WriteFile fs1 _ _) as [fs2|] eqn:E2; [|discriminate].
  injection H as <-. apply os_WriteFile_inl in E2. subst fs2.
  exists reg, e, lines, entries, fs1. auto.
Qed.

End Download.

(** ** [createArchitectureFiles] *)

Section ArchitectureFiles.

Context `{json : Json}.

Lemma architectureLoop_spec
    (namespace provider repoName version gpgFingerprint domain : string)
    (wellKnownData : WellKnown) (gpgFile : list string)
    (entries : list ManifestEntry) (fs : FS) :
  architectureLoop namespace provider repoName version gpgFingerprint domain wellKnownData
    gpgFile (map rowOf entries) fs
  = writeAll (archWrites namespace provider repoName version gpgFingerprint domain
                wellKnownData gpgFile entries) fs.
Proof. apply architectureFiles_spec. Qed.

Lemma createArchitectureFiles_spec
    (namespace provider distPath repoName version gpgFingerprint gpgPubKeyFile domain : string)
    (wellKnownData : WellKnown) (fs : FS) :
  createArchitectureFiles namespace provider distPath repoName version gpgFingerprint
    gpgPubKeyFile domain wellKnownData fs =
    match readLines fs (shaSumPathOf distPath repoName version) with
    | (_, Some err) => Return (Some err) fs
    | (lines, None) =>
        match parseLines lines with
        | None => Panic fs
        | Some entries =>
            match readLines fs gpgPubKeyFile with
            | (_, Some _) => Exit fs
            | (gpgFile, None) =>
                architectureLoop namespace provider repoName version gpgFingerprint domain
                  wellKnownData gpgFile (map rowOf entries) fs
            end
        end
    end.
Proof.
  unfold createArchitectureFiles. unfold bind at 1. rewrite getShaSumContents_spec.
  fold (shaSumPathOf distPath repoName version).
  destruct (readLines fs (shaSumPathOf _ _ _)) as [lines [err|]]; [reflexivity|].
  destruct (parseLines lines) as [entries|]; [|reflexivity].
  unfold bind, readFile. destruct (readLines fs gpgPubKeyFile) as [gpgFile [err|]]; reflexivity.
Qed.

Lemma archWrites_app
    (namespace provider repoName version gpgFingerprint domain : string)
    (wellKnownData : WellKnown) (gpgFile : list string) (l1 l2 : list ManifestEntry) :
  archWrites namespace provider repoName version gpgFingerprint domain wellKnownData gpgFile
    (l1 ++ l2)
  = archWrites namespace provider repoName version gpgFingerprint domain wellKnownData gpgFile l1
    ++ archWrites namespace provider repoName version gpgFingerprint domain wellKnownData gpgFile l2.
Proof. unfold archWrites. apply omap_app. Qed.

Lemma manifestPlatforms_app (l1 l2 : list ManifestEntry) :
  manifestPlatforms (l1 ++ l2) = manifestPlatforms l1 ++ manifestPlatforms l2.
Proof. unfold manifestPlatforms. apply omap_app. Qed.

(** The k-th write goes to the file of the k-th platform. *)
Lemma archWrites_names
    (namespace provider repoName version gpgFingerprint domain : string)
    (wellKnownData : WellKnown) (gpgFile : list string) (entries : list ManifestEntry) :
  map fst (archWrites namespace provider repoName version gpgFingerprint domain wellKnownData
             gpgFile entries)
  = map (archFileName namespace provider version wellKnownData) (manifestPlatforms entries).
Proof.
  unfold archWrites, manifestPlatforms.
  induction entries as [|e rest IH]; [reflexivity|].
  cbn [omap list_omap]. unfold archWrite at 1.
  destruct (platformOf e.2) as [p|]; simpl; [f_equal|]; exact IH.
Qed.

Lemma archWrites_elem
    (namespace provider repoName version gpgFingerprint domain : string)
    (wellKnownData : WellKnown) (gpgFile : list string) (entries : list ManifestEntry)
    (w : string * string) :
  w ∈ archWrites namespace provider repoName version gpgFingerprint domain wellKnownData
        gpgFile entries <->
  exists e p, e ∈ entries /\ platformOf e.2 = Some p /\
    w = (archFileName namespace provider version wellKnownData p,
         MarshalIndent_Architecture
           (architectureOf namespace provider repoName version gpgFingerprint domain
              wellKnownData gpgFile e p)).
Proof.
  unfold archWrites. rewrite list_elem_of_omap. unfold archWrite. split.
  - intros (e & He & H). destruct (platformOf e.2) as [p|] eqn:E; [|discriminate].
    injection H as <-. eauto.
  - intros (e & p & He & E & ->). exists e. split; [exact He|]. now rewrite E.
Qed.

End ArchitectureFiles.

(** ** Paths of architecture files *)

Section Paths.

Lemma Cut_char (c x : ascii) (s : string) :
  strings.Cut (String x s) (String c "") =
    if Ascii.eqb x c then Some ("", s)
    else match strings.Cut s (String c "") with
         | Some (before, after) => Some (String x before, after)
         | None => None
         end.
Proof.
  rewrite Cut_unfold. cbn [String.prefix].
  destruct (Ascii.eqb_spec x c) as [->|Hne].
  - destruct (Ascii.ascii_dec c c); [|congruence]. now destruct s.
  - destruct (Ascii.ascii_dec c x); [congruence | reflexivity].
Qed.

Lemma Split_cons_char (c x : ascii) (s : string) :
  strings.Split (String x s) (String c "") =
    if Ascii.eqb x c then "" :: strings.Split s (String c "")
    else match strings.Split s (String c "") with
         | h :: t => String x h :: t
         | [] => []
         end.
Proof.
  rewrite (Split_eq (String x s)) by discriminate. rewrite Cut_char.
  destruct (Ascii.eqb x c); [reflexivity|].
  rewrite (Split_eq s) by discriminate.
  destruct (strings.Cut s (String c "")) as [[b a]|]; reflexivity.
Qed.

Lemma Split_app_char (c : ascii) (a b : string) :
  strings.Split (a +:+ String c b) (String c "") =
  strings.Split a (String c "") ++ strings.Split b (String c "").
Proof.
  induction a as [|x a IH].
  - cbn [String.append]. rewrite Split_cons_char, Ascii.eqb_refl. reflexivity.
  - cbn [String.append]. rewrite !Split_cons_char, IH.
    destruct (Ascii.eqb x c); [reflexivity|].
    destruct (Split_head a (String c "")) as [rest ->]. reflexivity.
Qed.

Lemma Split_absent (s sep : string) :
  sep <> "" -> Contains s sep = false -> strings.Split s sep = [s].
Proof.
  intros Hsep H. rewrite Split_eq by exact Hsep. unfold Contains in H.
  destruct (strings.Cut s sep) as [[? ?]|]; [discriminate | reflexivity].
Qed.

Lemma prefix_slash_app (a b : string) :
  String.prefix "/" ((a +:+ "/") +:+ b) = String.prefix "/" (a +:+ "/").
Proof.
  destruct a as [|x a]; [now destruct b|].
  cbn [String.append String.prefix].
  destruct (Ascii.ascii_dec "/" x); [|reflexivity]. now destruct a.
Qed.

Lemma resolve_platform (dir os arch : string) :
  plainSegment os = true -> plainSegment arch = true ->
  resolve (dir +:+ "/" +:+ os +:+ "/" +:+ arch) = resolve (dir +:+ "/") ++ [os; arch].
Proof.
  unfold plainSegment. intros [Hos1 Hos2]%andb_true_iff [Har1 Har2]%andb_true_iff.
  apply negb_true_iff in Hos2, Har2.
  unfold resolve.
  assert (Hp : String.prefix "/" (dir +:+ "/" +:+ os +:+ "/" +:+ arch)
               = String.prefix "/" (dir +:+ "/")).
  { rewrite <- (prefix_slash_app dir (os +:+ "/" +:+ arch)). now rewrite append_assoc. }
  rewrite Hp, <- app_assoc. f_equal.
  change (dir +:+ "/" +:+ os +:+ "/" +:+ arch) with (dir +:+ String "/" (os +:+ String "/" arch)).
  change (dir +:+ "/") with (dir +:+ String "/" "").
  rewrite !Split_app_char, !List.filter_app.
  rewrite (Split_absent os), (Split_absent arch) by (assumption || discriminate).
  change (strings.Split "" "/") with [""].
  cbn [List.filter]. rewrite Hos1, Har1.
  change (nonEmpty "") with false. now rewrite app_nil_r.
Qed.

End Paths.

(** * The claims *)

(** ** C1 *)

(** C1.  The merge of [createVersionsFile] keeps, in remote order, the first
    record of each version string of the remote history (a record is kept
    exactly when no earlier remote record has its version string, so the kept
    records have pairwise different version strings), and then appends the
    new record without looking at its version string: the result is the
    first-seen deduplication of the remote history followed by the new
    record, whose version string therefore occurs twice when the remote
    history already has it and once otherwise. *)
Theorem merge_is_first_seen_then_new (remote : Versions) (ver : Version) :
  let kept := firstSeen (Versions_Versions remote) in
  Versions_Versions (mergeVersions remote ver) = kept ++ [ver]
  /\ NoDup (map Version_Version kept)
  /\ kept `sublist_of` (Versions_Versions remote)
  /\ (forall v, v ∈ kept <->
        exists i, Versions_Versions remote !! i = Some v /\
          forall j u, j < i -> Versions_Versions remote !! j = Some u ->
                      Version_Version u <> Version_Version v)
  /\ versionCount (Version_Version ver) (Versions_Versions (mergeVersions remote ver)) =
       if bool_decide (Version_Version ver ∈ map Version_Version (Versions_Versions remote))
       then 2 else 1.
Proof.
  intros kept. unfold kept, firstSeen, mergeVersions. cbn [Versions_Versions].
  rewrite mergeLoop_dedup. cbn [map app].
  split; [reflexivity|]. split; [apply dedup_NoDup|]. split; [apply dedup_sublist|].
  split.
  - intros v. rewrite dedup_first. split.
    + intros (i & Hi & _ & Hj). eauto.
    + intros (i & Hi & Hj). exists i. split; [exact Hi|]. split; [apply not_elem_of_nil | exact Hj].
  - rewrite versionCount_app, (versionCount_NoDup _ _ (dedup_NoDup [] _)).
    assert (Hnew : versionCount (Version_Version ver) [ver] = 1).
    { unfold versionCount. rewrite filter_cons.
      destruct (decide (Version_Version ver = Version_Version ver)); [reflexivity | congruence]. }
    rewrite Hnew.
    rewrite (bool_decide_ext _ (Version_Version ver ∈ map Version_Version (Versions_Versions remote))).
    + now destruct (bool_decide _).
    + rewrite dedup_keys. split; [tauto|]. intros H. split; [exact H | apply not_elem_of_nil].
Qed.

(** ** C2 *)

Lemma parseLines_bad_line (lines : list string) (line : string) :
  line ∈ lines -> parseLine line = None -> parseLines lines = None.
Proof.
  induction lines as [|l rest IH]; intros Hin Hbad.
  - now apply elem_of_nil in Hin.
  - apply elem_of_cons in Hin as [<-|Hin]; simpl.
    + now rewrite Hbad.
    + rewrite (IH Hin Hbad). now destruct (parseLine l).
Qed.

(** C2 (the code departs from the claim).  When the manifest has a line
    without the two-space separator, [getShaSumContents] does not return an
    error: indexing the second field of the split line panics. *)
Theorem getShaSumContents_panics_without_separator
    (distPath repoName version : string) (fs : FS) (lines : list string) (line : string) :
  readLines fs (shaSumPathOf distPath repoName version) = (lines, None) ->
  line ∈ lines ->
  Contains line "  " = false ->
  getShaSumContents distPath repoName version fs = Panic fs.
Proof.
  intros Hread Hin Hsep. rewrite getShaSumContents_spec.
  fold (shaSumPathOf distPath repoName version). rewrite Hread.
  rewrite (parseLines_bad_line lines line Hin); [reflexivity|].
  now apply parseLine_no_separator.
Qed.

Lemma getShaSumContents_panics_without_separator_witness :
  getShaSumContents "dist/" "acme" "1.2.0" (Sample.dist Sample.unseparated)
  = Panic (Sample.dist Sample.unseparated).
Proof.
  apply (getShaSumContents_panics_without_separator "dist/" "acme" "1.2.0"
           (Sample.dist Sample.unseparated)
           ["aaa  acme_1.2.0_linux_amd64.zip"; "README"] "README").
  - vm_compute. reflexivity.
  - apply list_elem_of_In. simpl. auto.
  - vm_compute. reflexivity.
Defined.

(** An empty line in the manifest has the same effect. *)
Example getShaSumContents_panics_on_empty_line :
  ending (getShaSumContents "dist/" "acme" "1.2.0"
            (Sample.dist ("aaa  acme_1.2.0_linux_amd64.zip" +:+ Sample.nl +:+ Sample.nl)))
  = Panicked.
Proof. vm_compute. reflexivity. Qed.

(** A line with two separators: the file name is cut at the second one. *)
Example parseLine_splits_at_every_separator :
  parseLine "aaa  my  file.zip" = Some ("aaa", "my").
Proof. reflexivity. Qed.

(** ** C3 *)

Section Fallback.

Context `{json : Json}.
Variable httpGet : string -> Response.

(** C3 (the code departs from the claim).  When the discovery request fails,
    by a transport error or by a status other than 200, [downloadVersionsFile]
    never returns: it yields neither the default discovery document nor an
    empty history.  It ends in a panic on [err.Error()] of a [nil] error, or
    in [log.Fatalf] when the fallback file cannot be written. *)
Theorem discovery_fallback_never_returns (namespace provider domain : string) (fs : FS) :
  discoveryFailed (httpGet (wellKnownUrlOf domain)) = true ->
  result (downloadVersionsFile httpGet namespace provider domain fs) = None
  /\ ending (downloadVersionsFile httpGet namespace provider domain fs) <> Returned.
Proof.
  intros Hfail.
  destruct (downloadVersionsFile httpGet namespace provider domain fs) as [r fs'| |] eqn:H;
    [|split; [reflexivity | discriminate] ..].
  apply downloadVersionsFile_Return in H as [_ [body Hb]].
  rewrite Hb in Hfail. discriminate.
Qed.

(** ** C4 *)

(** C4, amended.  When the discovery request is answered with status 200
    but the body cannot be read or parsed, [downloadVersionsFile] returns the
    empty history and the default discovery document and leaves the file
    system as it was: no fallback copy is written.  [createVersionsFile] goes
    on with them: when it completes, its only write is the versions document
    under the default providers path, holding the new record alone. *)
Theorem malformed_discovery_body_falls_back_without_write
    (namespace provider distPath repoName version domain : string) (fs : FS)
    (body : Body) (msg : string) :
  httpGet (wellKnownUrlOf domain) = GetResp StatusOK body ->
  bodyMalformed body = Some msg ->
  downloadVersionsFile httpGet namespace provider domain fs
    = Return (mkVersions [], defaultWellKnownData, Some msg) fs
  /\ forall wk,
       result (createVersionsFile httpGet namespace provider distPath repoName version
                 domain fs) = Some (wk, None) ->
       wk = defaultWellKnownData /\
       exists lines entries,
         readLines fs (shaSumPathOf distPath repoName version) = (lines, None) /\
         parseLines lines = Some entries /\
         journal (finalFS (createVersionsFile httpGet namespace provider distPath repoName
                             version domain fs)) = journal fs ++
           [("release/v1/providers/" +:+ namespace +:+ "/" +:+ provider +:+ "/versions",
             MarshalIndent_Versions {| Versions_Versions := [newVersion version entries] |})].
Proof.
  intros Hget Hbad.
  assert (Hd : downloadVersionsFile httpGet namespace provider domain fs
               = Return (mkVersions [], defaultWellKnownData, Some msg) fs).
  { unfold downloadVersionsFile. fold (wellKnownUrlOf domain). rewrite Hget. simpl.
    unfold bodyMalformed in Hbad. destruct body as [data|m].
    - destruct (Unmarshal_WellKnown data); [discriminate|]. now injection Hbad as ->.
    - now injection Hbad as ->. }
  split; [exact Hd|]. intros wk H.
  destruct (createVersionsFile_inv _ _ _ _ _ _ _ _ _ H)
    as (reg & e & lines & entries & fs1 & Hd' & Hr & Hp & Hm & Hfs).
  rewrite Hd in Hd'. injection Hd' as <- <- _.
  split; [reflexivity|]. exists lines, entries. split; [exact Hr|]. split; [exact Hp|].
  cbv zeta in Hfs. rewrite Hfs. apply os_MkdirAll_keeps in Hm as [_ Hj].
  cbn [logged journal putFile]. rewrite Hj. reflexivity.
Qed.

End Fallback.

Lemma discovery_fallback_never_returns_witness :
  result (downloadVersionsFile (json := Sample.json) Sample.registryMissing "exampleorg"
            "acme" Sample.registry (Sample.dist Sample.twoPlatforms)) = None.
Proof.
  refine (proj1 (discovery_fallback_never_returns (json := Sample.json)
                   Sample.registryMissing "exampleorg" "acme" Sample.registry
                   (Sample.dist Sample.twoPlatforms) _)).
  vm_compute. reflexivity.
Defined.

(** The discovery request is answered with 200 and a body that is not a
    discovery document: the defaults are returned and nothing is written. *)
Lemma malformed_body_writes_no_fallback_file :
  let out := downloadVersionsFile (json := Sample.json) Sample.registryGarbled "exampleorg"
               "acme" Sample.registry (Sample.dist Sample.twoPlatforms) in
  result out
    = Some (mkVersions [], defaultWellKnownData, Some "unexpected end of JSON input")
  /\ journal (finalFS out) = []
  /\ files (finalFS out) !! resolve wellKnownPath = None.
Proof. vm_compute. auto. Qed.

Lemma malformed_discovery_body_falls_back_without_write_witness :
  downloadVersionsFile (json := Sample.json) Sample.registryGarbled "exampleorg" "acme" Sample.registry
    (Sample.dist Sample.twoPlatforms)
  = Return (mkVersions [], defaultWellKnownData, Some "unexpected end of JSON input")
      (Sample.dist Sample.twoPlatforms).
Proof.
  refine (proj1 (malformed_discovery_body_falls_back_without_write (json := Sample.json)
                   Sample.registryGarbled
                   "exampleorg" "acme" "dist/" "acme" "1.2.0" Sample.registry
                   (Sample.dist Sample.twoPlatforms) (ReadAllOk "<html>")
                   "unexpected end of JSON input" _ _)).
  - vm_compute. reflexivity.
  - vm_compute. reflexivity.
Defined.

(** ** C5 *)

Section Extraction.

Context `{json : Json}.



End Extraction.

(** ** C6 *)

Section Documents.

Context `{json : Json}.


End Documents.


(** ** C7 *)

Section VersionsFile.

Context `{json : Json}.
Variable httpGet : string -> Response.

(** C7, amended.  When [createVersionsFile] completes, it has written the
    merged version history to release + providersPath + namespace + "/" +
    providerName + "/versions": the path has no version segment.  That write
    is the only one of the call, and the file at the path holds the merged
    history. *)
Theorem versions_document_path
    (namespace provider distPath repoName version domain : string) (fs : FS)
    (wk : WellKnown) :
  let out := createVersionsFile httpGet namespace provider distPath repoName version domain
               fs in
  result out = Some (wk, None) ->
  exists reg e lines entries,
    downloadVersionsFile httpGet namespace provider domain fs = Return (reg, wk, e) fs /\
    readLines fs (shaSumPathOf distPath repoName version) = (lines, None) /\
    parseLines lines = Some entries /\
    let path := "release" +:+ WellKnown_ProvidersV1 wk +:+ namespace +:+ "/" +:+ provider
                  +:+ "/versions" in
    let data := MarshalIndent_Versions (mergeVersions reg (newVersion version entries)) in
    journal (finalFS out) = journal fs ++ [(path, data)] /\
    files (finalFS out) !! resolve path = Some data.
Proof.
  intros out H. unfold out.
  destruct (createVersionsFile_inv _ _ _ _ _ _ _ _ _ H)
    as (reg & e & lines & entries & fs1 & Hd & Hr & Hp & Hm & Hfs).
  exists reg, e, lines, entries. split; [exact Hd|]. split; [exact Hr|]. split; [exact Hp|].
  cbv zeta in *. rewrite Hfs. apply os_MkdirAll_keeps in Hm as [_ Hj].
  cbn [logged putFile journal files]. rewrite Hj. split; [reflexivity|].
  apply lookup_insert_eq.
Qed.

End VersionsFile.

Lemma versions_document_path_witness :
  exists reg e lines entries,
    downloadVersionsFile (json := Sample.json) Sample.registryPublished "exampleorg" "acme"
      Sample.registry (Sample.dist Sample.twoPlatforms)
    = Return (reg, defaultWellKnownData, e) (Sample.dist Sample.twoPlatforms) /\
    readLines (Sample.dist Sample.twoPlatforms) (shaSumPathOf "dist/" "acme" "1.2.0")
    = (lines, None) /\
    parseLines lines = Some entries.
Proof.
  destruct (versions_document_path (json := Sample.json) Sample.registryPublished
              "exampleorg" "acme" "dist/" "acme" "1.2.0" Sample.registry
              (Sample.dist Sample.twoPlatforms)
              defaultWellKnownData ltac:(vm_compute; reflexivity))
    as (reg & e & lines & entries & Hd & Hr & Hp & _).
  exists reg, e, lines, entries. auto.
Defined.

(** The versions document of version 1.2.0 goes to
    [release/v1/providers/exampleorg/acme/versions]; nothing is written below
    the directory of the version. *)
Lemma versions_document_has_no_version_segment :
  let out := createVersionsFile (json := Sample.json) Sample.registryPublished "exampleorg"
               "acme" "dist/" "acme" "1.2.0" Sample.registry
               (Sample.dist Sample.twoPlatforms) in
  result out = Some (defaultWellKnownData, None)
  /\ journal (finalFS out)
     = [("release/v1/providers/exampleorg/acme/versions",
         "1.0.0[];1.2.0[];1.2.0[linux/amd64,darwin/arm64]")]
  /\ files (finalFS out) !! resolve "release/v1/providers/exampleorg/acme/1.2.0/versions"
     = None.
Proof. vm_compute. auto. Qed.

(** ** C8 *)

Section Agreement.

Context `{json : Json}.
Variable httpGet : string -> Response.

(** C8, amended.  Both functions apply the same extraction and skip rule to
    the same manifest entries, so the files that [createArchitectureFiles]
    writes are, element for element and in order, those of the first [n]
    platforms of the record that [createVersionsFile] appends.  [n] is the
    number of all platforms when [createArchitectureFiles] returns [nil]; a
    write that fails ends the loop, and the later platforms are left without
    an architecture file. *)
Theorem platforms_and_architecture_writes
    (namespace provider distPath repoName version gpgFingerprint gpgPubKeyFile domain : string)
    (wk : WellKnown) (fsV fsA : FS) (lines : list string) (entries : list ManifestEntry) :
  readLines fsV (shaSumPathOf distPath repoName version) = (lines, None) ->
  readLines fsA (shaSumPathOf distPath repoName version) = (lines, None) ->
  parseLines lines = Some entries ->
  let outV := createVersionsFile httpGet namespace provider distPath repoName version domain
                fsV in
  result outV = Some (wk, None) ->
  let out := createArchitectureFiles namespace provider distPath repoName version
               gpgFingerprint gpgPubKeyFile domain wk fsA in
  let ver := newVersion version entries in
  exists reg n written,
    journal (finalFS outV) = journal fsV ++
      [(versionPathOf wk namespace provider, MarshalIndent_Versions (mergeVersions reg ver))]
    /\ journal (finalFS out) = journal fsA ++ written
    /\ n <= length (Version_Platforms ver)
    /\ map fst written
       = map (archFileName namespace provider version wk) (take n (Version_Platforms ver))
    /\ (result out = Some None -> n = length (Version_Platforms ver)).
Proof.
  intros HrV HrA Hp outV Hv out ver. unfold outV in *.
  destruct (createVersionsFile_inv _ _ _ _ _ _ _ _ _ Hv)
    as (reg & e & lines' & entries' & fs1 & Hd & Hr' & Hp' & Hm & Hfs).
  rewrite HrV in Hr'. injection Hr' as <-. rewrite Hp in Hp'. injection Hp' as <-.
  cbv zeta in Hfs. rewrite Hfs. apply os_MkdirAll_keeps in Hm as [_ Hj].
  set (gpgFile := (readLines fsA gpgPubKeyFile).1).
  set (ws := archWrites namespace provider repoName version gpgFingerprint domain wk
               gpgFile entries).
  assert (Hlen : length ws = length (manifestPlatforms entries)).
  { rewrite <- (length_map fst ws), <- (length_map (archFileName namespace provider version wk)).
    unfold ws. now rewrite archWrites_names. }
  assert (Hout : exists n,
             n <= length ws /\ journal (finalFS out) = journal fsA ++ take n ws /\
             (result out = Some None -> n = length ws)).
  { unfold out. rewrite createArchitectureFiles_spec, HrA, Hp.
    destruct (readLines fsA gpgPubKeyFile) as [gpg [err|]] eqn:Hk.
    - exists 0. cbn [finalFS take]. rewrite app_nil_r.
      split; [lia|]. split; [reflexivity | discriminate].
    - rewrite architectureLoop_spec. subst gpgFile ws. cbn [fst].
      destruct (writeAll_outcome
                  (archWrites namespace provider repoName version gpgFingerprint domain wk
                     gpg entries) fsA)
        as (n & err & fs2 & -> & Hn & Hj2 & _ & _ & Hok & _).
      exists n. cbn [finalFS]. split; [exact Hn|]. split; [exact Hj2|].
      cbn [result]. intros H. injection H as ->. now apply Hok. }
  destruct Hout as (n & Hn & Hj2 & Hok).
  exists reg, n, (take n ws). cbn [logged putFile journal]. rewrite Hj.
  split; [reflexivity|]. split; [exact Hj2|].
  unfold ver. cbn [newVersion Version_Platforms]. rewrite <- Hlen.
  split; [exact Hn|]. split.
  - rewrite <- !firstn_map. f_equal. apply archWrites_names.
  - exact Hok.
Qed.

End Agreement.

Lemma platforms_and_architecture_writes_witness :
  exists written,
    journal (finalFS (createArchitectureFiles (json := Sample.json) "exampleorg" "acme" "dist/"
                        "acme" "1.2.0" "ABCDEF" "pubkey.txt" Sample.registry
                        defaultWellKnownData (Sample.staged Sample.twoPlatforms)))
    = journal (Sample.staged Sample.twoPlatforms) ++ written.
Proof.
  destruct (platforms_and_architecture_writes (json := Sample.json) Sample.registryOnline
              "exampleorg" "acme" "dist/" "acme" "1.2.0" "ABCDEF" "pubkey.txt" Sample.registry
              defaultWellKnownData
              (Sample.dist Sample.twoPlatforms)
              (Sample.staged Sample.twoPlatforms)
              ["aaa  acme_1.2.0_linux_amd64.zip"; "bbb  acme_1.2.0_darwin_arm64.zip"]
              [("aaa", "acme_1.2.0_linux_amd64.zip"); ("bbb", "acme_1.2.0_darwin_arm64.zip")]
              ltac:(vm_compute; reflexivity) ltac:(vm_compute; reflexivity)
              ltac:(vm_compute; reflexivity) ltac:(vm_compute; reflexivity))
    as (reg & n & written & _ & Hj & _).
  exists written. exact Hj.
Defined.

(** A manifest with a solaris build, run through [provider] from an empty
    release directory: the versions document lists three platforms, the
    architecture file of the first is written, the write for solaris fails
    because [createTargetDirs] made no directory for it, and the run ends in
    [log.Fatalf] with no file for solaris nor for the platform after it. *)
Lemma platform_without_architecture_file :
  let out := Sample.run Sample.withSolaris in
  ending out = Exited
  /\ journal (finalFS out)
     = [("release/v1/providers/exampleorg/acme/versions",
         "1.2.0[linux/amd64,solaris/amd64,darwin/arm64]");
        ("release/v1/providers/exampleorg/acme/1.2.0/download/linux/amd64",
         "aaa acme_1.2.0_linux_amd64.zip https://registry.example.com/v1/providers/exampleorg/acme/1.2.0/download/acme_1.2.0_linux_amd64.zip")]
  /\ files (finalFS out)
       !! resolve "release/v1/providers/exampleorg/acme/1.2.0/download/solaris/amd64" = None
  /\ files (finalFS out)
       !! resolve "release/v1/providers/exampleorg/acme/1.2.0/download/darwin/arm64" = None.
Proof. vm_compute. auto. Qed.

(** ** C9 *)

Section NilError.

Context `{json : Json}.
Variable httpGet : string -> Response.

(** C9.  A discovery response with a status other than 200 comes with a
    [nil] error, and the fallback block starts by calling [err.Error()] on it:
    [downloadVersionsFile] panics there, before it has written or returned
    anything.  So the fallback gets past that call, and to its write of the
    default document, only when the request failed with a transport error.
    (The block then ends in the same way on the [err] it has shadowed.) *)
Theorem fallback_dereferences_nil_error (namespace provider domain : string) (fs : FS) :
  let out := downloadVersionsFile httpGet namespace provider domain fs in
  (forall code body,
      httpGet (wellKnownUrlOf domain) = GetResp code body -> code <> StatusOK ->
      out = Panic fs)
  /\ (journal (finalFS out) <> journal fs ->
      exists msg, httpGet (wellKnownUrlOf domain) = GetErr msg)
  /\ (forall msg,
        httpGet (wellKnownUrlOf domain) = GetErr msg ->
        match os_MkdirAll fs "release/.well-known/" with
        | inr _ => out = Exit fs
        | inl fs1 =>
            let data := MarshalIndent_WellKnown defaultWellKnownData in
            match os_WriteFile fs1 wellKnownPath data with
            | inr _ => out = Exit fs1
            | inl fs2 => out = Panic (logged fs2 wellKnownPath data)
            end
        end).
Proof.
  intros out. unfold out, downloadVersionsFile. fold (wellKnownUrlOf domain).
  split; [|split].
  - intros code body -> Hne. apply Z.eqb_neq in Hne. rewrite Hne. reflexivity.
  - destruct (httpGet (wellKnownUrlOf domain)) as [msg|code body]; [eauto|].
    intros H. exfalso. apply H. clear H.
    destruct (code =? StatusOK)%Z; [|reflexivity]. cbn [negb].
    destruct body as [data|m]; [|reflexivity].
    destruct (Unmarshal_WellKnown data) as [wk|m]; [|reflexivity].
    destruct (fetchVersions_state httpGet namespace provider domain wk fs) as (reg & e & ->).
    reflexivity.
  - intros msg ->. rewrite wellKnownFallback_error.
    destruct (os_MkdirAll fs _) as [fs1|]; [|reflexivity]. cbv zeta.
    destruct (os_WriteFile fs1 _ _); reflexivity.
Qed.

End NilError.

Lemma fallback_dereferences_nil_error_witness :
  downloadVersionsFile (json := Sample.json) Sample.registryMissing "exampleorg" "acme"
    Sample.registry (Sample.dist Sample.twoPlatforms)
  = Panic (Sample.dist Sample.twoPlatforms).
Proof.
  apply (proj1 (fallback_dereferences_nil_error (json := Sample.json) Sample.registryMissing
                  "exampleorg" "acme" Sample.registry (Sample.dist Sample.twoPlatforms))
           404%Z (ReadAllOk "")).
  - vm_compute. reflexivity.
  - vm_compute. discriminate.
Defined.

(** The same request against a host that cannot be reached: the fallback
    writes the default document and then panics on the shadowed [err]. *)
Example fallback_on_transport_error :
  let out := downloadVersionsFile (json := Sample.json) Sample.registryDown "exampleorg"
               "acme" Sample.registry (Sample.dist Sample.twoPlatforms) in
  ending out = Panicked
  /\ journal (finalFS out) = [(wellKnownPath, "/v1/providers/|/v1/modules/")].
Proof. vm_compute. auto. Qed.

(** ** C10 *)

Section LastWriter.

Context `{json : Json}.

Lemma archFileName_resolve (namespace provider version : string) (wk : WellKnown)
    (p : Platform) :
  plainPlatform p = true ->
  resolve (archFileName namespace provider version wk p)
  = resolve (("release" +:+ WellKnown_ProvidersV1 wk +:+ namespace +:+ "/" +:+ provider
                +:+ "/" +:+ version +:+ "/download") +:+ "/")
    ++ [Platform_Os p; Platform_Arch p].
Proof.
  unfold plainPlatform. intros [Hos Har]%andb_true_iff.
  rewrite <- (resolve_platform _ _ _ Hos Har). f_equal.
  unfold archFileName. now string_norm.
Qed.

Lemma archFileName_resolve_inj (namespace provider version : string) (wk : WellKnown)
    (p q : Platform) :
  plainPlatform p = true -> plainPlatform q = true ->
  resolve (archFileName namespace provider version wk p)
  = resolve (archFileName namespace provider version wk q) ->
  p = q.
Proof.
  intros Hp Hq H. rewrite !archFileName_resolve in H by assumption.
  apply app_inv_head in H. destruct p, q. cbn in H. congruence.
Qed.

(** C10, amended.  Two manifest entries with the same platform both appear
    in the platform list of the new record, and their documents are addressed
    to the same path release + providersPath + namespace + "/" + providerName
    + "/" + version + "/download/" + os + "/" + arch.  When
    [createArchitectureFiles] returns [nil], both have been written there and
    the file holds the document of the last entry of that platform: its
    shasum, its file name and its download URL.  (Platform tokens are taken
    to be single path segments, so that different platforms have different
    files.) *)
Theorem duplicate_platform_last_writer_wins
    (namespace provider distPath repoName version gpgFingerprint gpgPubKeyFile domain : string)
    (wk : WellKnown) (fs : FS) (lines gpgFile : list string)
    (l1 l2 l3 : list ManifestEntry) (e1 e2 : ManifestEntry) (p : Platform) :
  readLines fs (shaSumPathOf distPath repoName version) = (lines, None) ->
  parseLines lines = Some (l1 ++ e1 :: l2 ++ e2 :: l3) ->
  readLines fs gpgPubKeyFile = (gpgFile, None) ->
  platformOf e1.2 = Some p ->
  platformOf e2.2 = Some p ->
  (forall e, e ∈ l3 -> platformOf e.2 <> Some p) ->
  plainPlatform p = true ->
  (forall e q, e ∈ l3 -> platformOf e.2 = Some q -> plainPlatform q = true) ->
  let out := createArchitectureFiles namespace provider distPath repoName version
               gpgFingerprint gpgPubKeyFile domain wk fs in
  result out = Some None ->
  let fs' := finalFS out in
  let path := "release" +:+ WellKnown_ProvidersV1 wk +:+ namespace +:+ "/" +:+ provider
                +:+ "/" +:+ version +:+ "/download/" +:+ Platform_Os p +:+ "/"
                +:+ Platform_Arch p in
  let doc (e : ManifestEntry) :=
    architectureOf namespace provider repoName version gpgFingerprint domain wk gpgFile e p in
  versionPlatforms (map rowOf (l1 ++ e1 :: l2 ++ e2 :: l3)) [] fs
    = Return (manifestPlatforms l1 ++ p :: manifestPlatforms l2 ++ p :: manifestPlatforms l3) fs
  /\ (path, MarshalIndent_Architecture (doc e1)) ∈ journal fs'
  /\ (path, MarshalIndent_Architecture (doc e2)) ∈ journal fs'
  /\ files fs' !! resolve path = Some (MarshalIndent_Architecture (doc e2))
  /\ Architecture_Shasum (doc e2) = e2.1
  /\ Architecture_Filename (doc e2) = e2.2
  /\ Architecture_DownloadUrl (doc e2)
     = "https://" +:+ domain +:+ WellKnown_ProvidersV1 wk +:+ namespace +:+ "/" +:+ provider
         +:+ "/" +:+ version +:+ "/download/" +:+ e2.2.
Proof.
  intros Hread Hparse Hkey H1 H2 Hlast Hplain Hplain3 out Hrun fs' path doc.
  change path with (archFileName namespace provider version wk p).
  unfold fs', out in *. clear fs' out.
  rewrite createArchitectureFiles_spec, Hread, Hparse, Hkey, architectureLoop_spec in Hrun |- *.
  set (W := archWrites namespace provider repoName version gpgFingerprint domain wk gpgFile)
    in *.
  assert (HW : W (l1 ++ e1 :: l2 ++ e2 :: l3)
               = (W l1 ++ (archFileName namespace provider version wk p,
                           MarshalIndent_Architecture (doc e1)) :: W l2)
                 ++ (archFileName namespace provider version wk p,
                     MarshalIndent_Architecture (doc e2)) :: W l3).
  { unfold W. rewrite archWrites_app. unfold archWrites at 2. cbn [omap list_omap].
    unfold archWrite at 1. rewrite H1.
    fold (archWrites namespace provider repoName version gpgFingerprint domain wk gpgFile
            (l2 ++ e2 :: l3)).
    rewrite archWrites_app. unfold archWrites at 3. cbn [omap list_omap].
    unfold archWrite at 1. rewrite H2.
    fold (archWrites namespace provider repoName version gpgFingerprint domain wk gpgFile l3).
    now rewrite <- !app_assoc. }
  destruct (writeAll_outcome (W (l1 ++ e1 :: l2 ++ e2 :: l3)) fs)
    as (n & err & fs1 & Hw & _ & Hj & _ & Hf & Hok & _).
  rewrite Hw in Hrun |- *. injection Hrun as ->. cbn [finalFS].
  rewrite (Hok eq_refl), firstn_all in Hj, Hf. rewrite HW in Hj, Hf.
  split; [|split; [|split; [|split; [|split; [|split]]]]]; try reflexivity.
  - rewrite versionPlatforms_spec. cbn [app]. f_equal.
    rewrite manifestPlatforms_app. unfold manifestPlatforms at 2. cbn [omap list_omap].
    rewrite H1. fold (manifestPlatforms (l2 ++ e2 :: l3)).
    rewrite manifestPlatforms_app. unfold manifestPlatforms at 3. cbn [omap list_omap].
    now rewrite H2.
  - rewrite Hj, !elem_of_app, elem_of_cons. auto.
  - rewrite Hj, !elem_of_app, !elem_of_cons. auto.
  - rewrite Hf.
    apply (applyWrites_last (files fs) _ (W l3)
             (archFileName namespace provider version wk p,
              MarshalIndent_Architecture (doc e2))).
    intros w Hin. apply archWrites_elem in Hin as (e & q & He & Hq & ->). cbn [fst].
    intros Heq. apply archFileName_resolve_inj in Heq; eauto.
    subst q. now apply (Hlast e He).
Qed.

End LastWriter.

Lemma duplicate_platform_last_writer_wins_witness :
  files (finalFS (createArchitectureFiles (json := Sample.json) "exampleorg" "acme" "dist/"
                    "acme" "1.2.0" "ABCDEF" "pubkey.txt" Sample.registry defaultWellKnownData
                    (Sample.staged Sample.duplicated)))
    !! resolve "release/v1/providers/exampleorg/acme/1.2.0/download/linux/amd64"
  = Some "ddd acme_1.2.0_linux_amd64.zip https://registry.example.com/v1/providers/exampleorg/acme/1.2.0/download/acme_1.2.0_linux_amd64.zip".
Proof.
  refine (proj1 (proj2 (proj2 (proj2
    (duplicate_platform_last_writer_wins (json := Sample.json) "exampleorg" "acme" "dist/"
       "acme" "1.2.0" "ABCDEF" "pubkey.txt" Sample.registry defaultWellKnownData
       (Sample.staged Sample.duplicated)
       ["aaa  acme_1.2.0_linux_amd64.zip"; "ddd  acme_1.2.0_linux_amd64.zip";
        "bbb  acme_1.2.0_darwin_arm64.zip"]
       ["-----BEGIN PGP PUBLIC KEY BLOCK-----"; "mQENBF"]
       [] [] [("bbb", "acme_1.2.0_darwin_arm64.zip")]
       ("aaa", "acme_1.2.0_linux_amd64.zip") ("ddd", "acme_1.2.0_linux_amd64.zip")
       {| Platform_Os := "linux"; Platform_Arch := "amd64" |}
       _ _ _ _ _ _ _ _ _))))).
  - vm_compute. reflexivity.
  - vm_compute. reflexivity.
  - vm_compute. reflexivity.
  - vm_compute. reflexivity.
  - vm_compute. reflexivity.
  - intros e He. apply list_elem_of_singleton in He. subst e. vm_compute. discriminate.
  - vm_compute. reflexivity.
  - intros e q He. apply list_elem_of_singleton in He. subst e. vm_compute.
    intros H. injection H as <-. reflexivity.
  - vm_compute. reflexivity.
Defined.

(** Two entries for linux/amd64 with a solaris entry between them, run
    through [provider]: the new record lists linux/amd64 twice, the write for
    solaris fails and ends the loop, and the file left for linux/amd64 is the
    one of the first entry, not of the last. *)
Lemma first_writer_left_after_failed_write :
  let out := Sample.run Sample.interrupted in
  ending out = Exited
  /\ journal (finalFS out)
     = [("release/v1/providers/exampleorg/acme/versions",
         "1.2.0[linux/amd64,solaris/amd64,linux/amd64]");
        ("release/v1/providers/exampleorg/acme/1.2.0/download/linux/amd64",
         "aaa acme_1.2.0_linux_amd64.zip https://registry.example.com/v1/providers/exampleorg/acme/1.2.0/download/acme_1.2.0_linux_amd64.zip")]
  /\ files (finalFS out)
       !! resolve "release/v1/providers/exampleorg/acme/1.2.0/download/linux/amd64"
     = Some "aaa acme_1.2.0_linux_amd64.zip https://registry.example.com/v1/providers/exampleorg/acme/1.2.0/download/acme_1.2.0_linux_amd64.zip".
Proof. vm_compute. auto. Qed.

(** ** Runs of the whole program *)

(** Two archives, a registry that serves the discovery document but no
    version list: one record with both platforms, two architecture files. *)
Example run_two_platforms :
  let out := Sample.run Sample.twoPlatforms in
  result out = Some None
  /\ map fst (journal (finalFS out))
     = ["release/v1/providers/exampleorg/acme/versions";
        "release/v1/providers/exampleorg/acme/1.2.0/download/linux/amd64";
        "release/v1/providers/exampleorg/acme/1.2.0/download/darwin/arm64"].
Proof. vm_compute. auto. Qed.

(** A manifest that also lists [README.txt]: the line is skipped and the
    lines after it are processed. *)
Example run_with_readme :
  let out := Sample.run Sample.withReadme in
  result out = Some None
  /\ journal (finalFS out) = journal (finalFS (Sample.run Sample.twoPlatforms)).
Proof. vm_compute. auto. Qed.

(** A registry that cannot be reached: the run ends in a panic after the
    fallback has written the default discovery document, and no versions
    document is produced. *)
Example run_without_registry :
  let out := provider (json := Sample.json) Sample.registryDown "exampleorg" "acme" "dist/"
               "acme" "1.2.0" "ABCDEF" "pubkey.txt" Sample.registry
               (Sample.dist Sample.twoPlatforms) in
  ending out = Panicked
  /\ map fst (journal (finalFS out)) = [wellKnownPath].
Proof. vm_compute. auto. Qed.

(** * Further properties of the program *)

(** ** The directory of the versions document *)

Section VersionsDirectory.

Lemma Split_nonempty (s sep : string) : strings.Split s sep <> [].
Proof. apply genSplit_nonempty. Qed.

Lemma Join_cons (x : string) (rest : list string) (sep : string) :
  rest <> [] -> strings.Join (x :: rest) sep = x +:+ sep +:+ strings.Join rest sep.
Proof. destruct rest; [congruence | reflexivity]. Qed.

(** Joining the fields of a split gives the string back. *)
Lemma Join_Split (s sep : string) :
  sep <> "" -> strings.Join (strings.Split s sep) sep = s.
Proof.
  intros Hsep.
  remember (String.length s) as n eqn:Hn.
  revert s Hn. induction n as [n IH] using lt_wf_ind. intros s Hn.
  rewrite Split_eq by exact Hsep.
  destruct (strings.Cut s sep) as [[before after]|] eqn:E; [|reflexivity].
  rewrite Join_cons by apply Split_nonempty.
  rewrite (IH (String.length after)); [| |reflexivity].
  - symmetry. now apply Cut_Some.
  - subst n. now apply (Cut_shorter s sep before after).
Qed.

Lemma versionDirOf_eq (wk : WellKnown) (namespace provider : string) :
  versionDirOf wk namespace provider
  = "release" +:+ WellKnown_ProvidersV1 wk +:+ namespace +:+ "/" +:+ provider.
Proof.
  unfold versionDirOf, versionPathOf. cbv zeta.
  set (X := "release" +:+ WellKnown_ProvidersV1 wk +:+ namespace +:+ "/" +:+ provider).
  assert (HX : "release" +:+ WellKnown_ProvidersV1 wk +:+ namespace +:+ "/" +:+ provider
                 +:+ "/versions" = X +:+ String "/" "versions").
  { unfold X. now string_norm. }
  rewrite HX, Split_app_char.
  change (strings.Split "versions" "/") with ["versions"].
  rewrite length_app. cbn [length].
  replace (length (strings.Split X "/") + 1 - 1) with (length (strings.Split X "/")) by lia.
  rewrite take_app_length. now apply Join_Split.
Qed.

End VersionsDirectory.

(** ** The text of the signing key *)

Section KeyText.










End KeyText.


(** ** Directories *)

Section Directories.

Lemma isDir_withDir (fs : FS) (p q : list string) :
  isDir (withDir fs p) q = isDir fs q || bool_decide (q = p).
Proof.
  unfold isDir, withDir. cbn [dirs].
  destruct (bool_decide (q = [])); [reflexivity|].
  destruct (bool_decide (q = ["/"])); [reflexivity|]. cbn [orb].
  apply eq_true_iff_eq.
  rewrite orb_true_iff, !bool_decide_eq_true, elem_of_union, elem_of_singleton. tauto.
Qed.

Lemma isFile_withDir (fs : FS) (p q : list string) : isFile (withDir fs p) q = isFile fs q.
Proof. reflexivity. Qed.

Lemma createDir_cases (path : string) (fs : FS) :
  (os_Stat fs path <> inr ENOENT /\ createDir path fs = Return None fs)
  \/ (os_Stat fs path = inr ENOENT /\ String.eqb path "" = false /\
      isDir fs (resolve path) = false /\ isFile fs (resolve path) = false /\
      ((isDir fs (parent (resolve path)) = true /\
        createDir path fs = Return None (withDir fs (resolve path)))
       \/ (isDir fs (parent (resolve path)) = false /\
           exists e, createDir path fs = Return (Some e) fs)))
  \/ (String.eqb path "" = true /\ exists e, createDir path fs = Return (Some e) fs).
Proof.
  unfold createDir, os_Stat, os_Mkdir, createErrno.
  destruct (String.eqb path "") eqn:Ee; [right; right; eauto|].
  destruct (isDir fs (resolve path)) eqn:Ed; [left; split; [discriminate | reflexivity]|].
  destruct (isFile fs (resolve path)) eqn:Ef.
  { left. destruct (strings.HasSuffix path "/"); split; (discriminate || reflexivity). }
  destruct (fileAbove fs [] (resolve path)) eqn:Ea;
    [left; split; [discriminate | reflexivity]|].
  right; left. split; [reflexivity|]. split; [reflexivity|]. split; [reflexivity|].
  split; [reflexivity|]. cbn [orb].
  destruct (isDir fs (parent (resolve path))); [left | right]; eauto.
Qed.

End Directories.

Section CreateDir.

(** X3.  [createDir] is idempotent: after a call that returned [nil], a
    second call with the same path returns [nil] and changes nothing. *)
Theorem createDir_idempotent (path : string) (fs : FS) :
  result (createDir path fs) = Some None ->
  createDir path (finalFS (createDir path fs)) = Return None (finalFS (createDir path fs)).
Proof.
  intros H.
  destruct (createDir_cases path fs)
    as [[Hs Hc]|[(Hs & He & Hd & Hf & [[Hp Hc]|[Hp [e Hc]]])|[_ [e Hc]]]];
    rewrite Hc in H |- *; try discriminate; cbn [finalFS].
  - exact Hc.
  - unfold createDir, os_Stat. rewrite He, isDir_withDir.
    rewrite (bool_decide_eq_true_2 _ eq_refl), orb_true_r. reflexivity.
Qed.

(** X4.  When [createDir] returns [nil], it has created at most the one
    directory named by the path and touched no file; the path is then a
    directory unless a regular file lies at the path or above it, which
    [createDir] does not report.  When it returns an error, nothing has
    changed: in particular it does not create missing parents. *)
Theorem createDir_outcome (path : string) (fs : FS) :
  let out := createDir path fs in
  let p := resolve path in
  (result out = Some None ->
     files (finalFS out) = files fs /\ journal (finalFS out) = journal fs /\
     (finalFS out = fs \/ finalFS out = withDir fs p) /\
     (isDir (finalFS out) p = true \/ isFile fs p = true \/ fileAbove fs [] p = true))
  /\ (forall e, result out = Some (Some e) ->
        finalFS out = fs /\ (path = "" \/ isDir fs (parent p) = false))
  /\ ending out = Returned.
Proof.
  intros out p. unfold out, p.
  destruct (createDir_cases path fs)
    as [[Hs Hc]|[(Hs & He & Hd & Hf & [[Hp Hc]|[Hp [e Hc]]])|[He [e Hc]]]];
    rewrite Hc; cbn [result finalFS ending].
  - split; [|split; [discriminate | reflexivity]]. intros _.
    split; [reflexivity|]. split; [reflexivity|]. split; [now left|].
    unfold os_Stat in Hs.
    destruct (String.eqb path ""); [congruence|].
    destruct (isDir fs (resolve path)); [now left|].
    destruct (isFile fs (resolve path)); [right; now left|].
    destruct (fileAbove fs [] (resolve path)); [right; now right | congruence].
  - split; [|split; [discriminate | reflexivity]]. intros _.
    split; [reflexivity|]. split; [reflexivity|]. split; [now right|]. left.
    rewrite isDir_withDir, (bool_decide_eq_true_2 _ eq_refl). apply orb_true_r.
  - split; [discriminate|]. split; [|reflexivity]. intros e' _. auto.
  - split; [discriminate|]. split; [|reflexivity]. intros e' _.
    split; [reflexivity|]. left. now apply String.eqb_eq.
Qed.

End CreateDir.

Lemma createDir_idempotent_witness :
  createDir "release/v1" (finalFS (createDir "release/v1" (Sample.dist Sample.twoPlatforms)))
  = Return None (finalFS (createDir "release/v1" (Sample.dist Sample.twoPlatforms))).
Proof.
  apply (createDir_idempotent "release/v1" (Sample.dist Sample.twoPlatforms)).
  vm_compute. reflexivity.
Defined.

(** ** [createDirRecursive] *)

Section CreateDirRecursive.



Lemma resolve_root (name : string) (p : list string) :
  resolve name = "/" :: p -> forall k, take (S k) (resolve name) = ["/"] ++ take k p.
Proof. intros -> k. reflexivity. Qed.

Lemma os_MkdirAll_mkdirAll (fs : FS) (name : string) :
  String.eqb name "" = false ->
  exists pre p, resolve name = pre ++ p /\ (pre = [] \/ pre = ["/"]) /\
                os_MkdirAll fs name = mkdirAll fs pre p.
Proof.
  intros He. unfold os_MkdirAll. rewrite He.
  destruct (resolve name) as [|seg p] eqn:E.
  - exists [], []. auto.
  - destruct (String.eqb_spec seg "/") as [->|Hne].
    + exists ["/"], p. auto.
    + exists [], (seg :: p). split; [reflexivity|]. split; [now left|].
      destruct seg as [|c seg]; [reflexivity|].
      destruct c as [[] [] [] [] [] [] [] []]; try reflexivity.
      destruct seg; [congruence | reflexivity].
Qed.



End CreateDirRecursive.


(** ** Files *)

Section Files.



Lemma copyFile_cases (src dst : string) (fs : FS) :
  let out := copyFile src dst fs in
  ending out = Returned
  /\ (result out = Some None ->
        exists data,
          files fs !! resolve src = Some data /\
          files (finalFS out) !! resolve dst
            = Some (if bool_decide (resolve src = resolve dst) then "" else data) /\
          (forall q, q <> resolve dst -> files (finalFS out) !! q = files fs !! q) /\
          dirs (finalFS out) = dirs fs /\ journal (finalFS out) = journal fs)
  /\ (result out <> Some None -> finalFS out = fs).
Proof.
  intros out. unfold out, copyFile.
  destruct (os_Stat fs src) as [[|]|e] eqn:Hstat; cbn [ending result finalFS];
    try (split; [reflexivity|]; split; [discriminate | reflexivity]).
  destruct (os_Open fs src) as [o|e] eqn:Hopen; cbn [ending result finalFS];
    try (split; [reflexivity|]; split; [discriminate | reflexivity]).
  destruct (openForWrite fs dst) as [e|] eqn:Hw; cbn [ending result finalFS];
    try (split; [reflexivity|]; split; [discriminate | reflexivity]).
  split; [reflexivity|]. split; [|intros H; now contradiction H]. intros _.
  assert (Hsrc : exists data, files fs !! resolve src = Some data).
  { unfold os_Stat in Hstat.
    destruct (String.eqb src ""); [discriminate|].
    destruct (isDir fs (resolve src)); [discriminate|].
    destruct (isFile fs (resolve src)) eqn:Ef.
    - unfold isFile in Ef. apply bool_decide_eq_true in Ef as [data Hd]. eauto.
    - destruct (fileAbove fs [] (resolve src)); discriminate. }
  destruct Hsrc as [data Hdata]. exists data. split; [exact Hdata|].
  unfold putFile. cbn [files dirs journal].
  split; [|split; [|split; reflexivity]].
  - rewrite lookup_insert_eq. f_equal.
    case_bool_decide as E.
    + now rewrite E, lookup_insert_eq.
    + rewrite lookup_insert_ne by congruence. now rewrite Hdata.
  - intros q Hq. now rewrite !lookup_insert_ne by congruence.
Qed.

(** X7.  A [copyFile] that returns [nil] leaves at the destination the
    bytes of the source, except that copying a file onto itself empties it
    (the destination is truncated before the source is read); no other file,
    no directory and no journal entry changes.  A [copyFile] that returns an
    error has changed nothing. *)
Theorem copyFile_outcome (src dst : string) (fs : FS) :
  let out := copyFile src dst fs in
  ending out = Returned
  /\ (result out = Some None ->
        exists data,
          files fs !! resolve src = Some data /\
          files (finalFS out) !! resolve dst
            = Some (if bool_decide (resolve src = resolve dst) then "" else data) /\
          (forall q, q <> resolve dst -> files (finalFS out) !! q = files fs !! q) /\
          dirs (finalFS out) = dirs fs /\ journal (finalFS out) = journal fs)
  /\ (result out <> Some None -> finalFS out = fs).
Proof. apply copyFile_cases. Qed.

(** What every [copyFile] leaves alone. *)
Lemma copyFile_frame (src dst : string) (fs : FS) :
  exists err fs',
    copyFile src dst fs = Return err fs' /\
    dirs fs' = dirs fs /\ journal fs' = journal fs /\
    (forall q, q <> resolve dst -> files fs' !! q = files fs !! q) /\
    (forall q, is_Some (files fs !! q) -> is_Some (files fs' !! q)) /\
    (err = None -> is_Some (files fs' !! resolve dst)) /\
    (err <> None -> fs' = fs).
Proof.
  destruct (copyFile_cases src dst fs) as (Hend & Hok & Hfail).
  destruct (copyFile src dst fs) as [err fs'| |] eqn:E; try discriminate.
  cbn [result finalFS] in *. exists err, fs'. split; [reflexivity|].
  destruct err as [e|].
  - rewrite Hfail by discriminate.
    split; [reflexivity|]. split; [reflexivity|]. split; [reflexivity|].
    split; [auto|]. split; [discriminate | reflexivity].
  - destruct (Hok eq_refl) as (data & Hsrc & Hdst & Hother & Hd & Hj).
    split; [exact Hd|]. split; [exact Hj|]. split; [exact Hother|].
    split; [|split; [intros _; rewrite Hdst; eauto | congruence]].
    intros q Hq. destruct (decide (q = resolve dst)) as [->|Hne].
    + rewrite Hdst. eauto.
    + now rewrite Hother.
Qed.

End Files.


(** ** [deleteDir] and the start of [main] *)

Section DeleteDir.

Lemma os_RemoveAll_cases (fs : FS) (name : string) :
  name <> "" -> endsWithDot name = false -> resolve name <> ["/"] ->
  os_RemoveAll fs name =
    ({| dirs := filter (fun q => ¬ resolve name `prefix_of` q) (dirs fs);
        files := filter (fun kv => ¬ resolve name `prefix_of` kv.1) (files fs);
        journal := journal fs |}, None).
Proof.
  intros Hne Hdot Hroot. unfold os_RemoveAll.
  apply String.eqb_neq in Hne. rewrite Hne, Hdot. cbv zeta.
  now rewrite bool_decide_eq_false_2.
Qed.

Lemma os_RemoveAll_spec (path : string) (fs : FS) :
  path <> "" -> endsWithDot path = false -> resolve path <> ["/"] ->
  let fs' := (os_RemoveAll fs path).1 in
  (os_RemoveAll fs path).2 = None
  /\ absent fs' (resolve path)
  /\ (forall q, ¬ resolve path `prefix_of` q ->
        (q ∈ dirs fs' <-> q ∈ dirs fs) /\ files fs' !! q = files fs !! q)
  /\ journal fs' = journal fs
  /\ (absent fs (resolve path) -> fs' = fs).
Proof.
  intros Hne Hdot Hroot fs'. unfold fs'.
  rewrite (os_RemoveAll_cases fs path Hne Hdot Hroot). cbn [fst snd dirs files journal].
  split; [reflexivity|]. split; [|split; [|split]].
  - intros q Hq. cbn [dirs files]. split.
    + rewrite elem_of_filter. tauto.
    + apply map_lookup_filter_None. right. intros x _. cbn [fst]. tauto.
  - intros q Hq. cbn [dirs files]. split.
    + rewrite elem_of_filter. tauto.
    + destruct (files fs !! q) as [x|] eqn:E.
      * apply map_lookup_filter_Some. auto.
      * apply map_lookup_filter_None. now left.
  - reflexivity.
  - intros Habs. destruct fs as [d f j]. cbn [dirs files journal] in *. f_equal.
    + apply set_eq. intros q. rewrite elem_of_filter. split; [tauto|].
      intros Hq. split; [|exact Hq]. intros Hp. now apply (Habs q Hp).
    + apply map_eq. intros q. destruct (f !! q) as [x|] eqn:E.
      * apply map_lookup_filter_Some. split; [exact E|]. cbn [fst]. intros Hp.
        destruct (Habs q Hp) as [_ Hnone]. cbn [files] in Hnone. congruence.
      * apply map_lookup_filter_None. now left.
Qed.


End DeleteDir.


Section MainProperties.

Context `{json : Json}.
Variable httpGet : string -> Response.

(** X9.  [main] stops with [log.Fatal] before touching the file system or
    the network when one of the six required flags (namespace, domain,
    provider name, repository name, version, GPG fingerprint) is empty. *)
Theorem main_requires_flags
    (namespace domain providerName distPath repoName version : string)
    (gpgFingerprint gpgPubKeyFile : string) (fs : FS) :
  namespace = "" \/ domain = "" \/ providerName = "" \/ repoName = "" \/ version = ""
    \/ gpgFingerprint = "" ->
  main httpGet namespace domain providerName distPath repoName version gpgFingerprint
    gpgPubKeyFile fs = Exit fs.
Proof.
  intros H. unfold main.
  destruct (String.eqb_spec namespace ""); [reflexivity|].
  destruct (String.eqb_spec domain ""); [reflexivity|].
  destruct (String.eqb_spec providerName ""); [reflexivity|].
  destruct (String.eqb_spec repoName ""); [reflexivity|].
  destruct (String.eqb_spec version ""); [reflexivity|].
  destruct (String.eqb_spec gpgFingerprint ""); [reflexivity|].
  tauto.
Qed.

(** X10.  With the required flags given, [main] always gets to [provider],
    and runs it with a slash appended to the dist path in a state where
    [release] is a directory with nothing in it: whatever an earlier run left
    below [release] is gone, everything outside it is untouched. *)
Theorem main_starts_from_empty_release
    (namespace domain providerName distPath repoName version : string)
    (gpgFingerprint gpgPubKeyFile : string) (fs : FS) :
  namespace <> "" -> domain <> "" -> providerName <> "" -> repoName <> "" ->
  version <> "" -> gpgFingerprint <> "" ->
  exists fs0,
    isDir fs0 ["release"] = true
    /\ (forall q, ["release"] `prefix_of` q -> q <> ["release"] ->
          (q ∉ dirs fs0) /\ files fs0 !! q = None)
    /\ files fs0 !! ["release"] = None
    /\ (forall q, ¬ ["release"] `prefix_of` q ->
          (q ∈ dirs fs0 <-> q ∈ dirs fs) /\ files fs0 !! q = files fs !! q)
    /\ journal fs0 = journal fs
    /\ main httpGet namespace domain providerName distPath repoName version gpgFingerprint
         gpgPubKeyFile fs
       = (let* err := provider httpGet namespace providerName (distPath +:+ "/") repoName
                        version gpgFingerprint gpgPubKeyFile domain in
          if err is Some _ then log_Fatalf else ret tt) fs0.
Proof.
  intros H1 H2 H3 H4 H5 H6.
  assert (Hrel : resolve "release" = ["release"]) by reflexivity.
  destruct (os_RemoveAll_spec "release" fs ltac:(discriminate) eq_refl ltac:(discriminate))
    as (Hres & Habs & Hout & Hj & _).
  rewrite Hrel in Habs, Hout.
  set (fsd := (os_RemoveAll fs "release").1) in *.
  assert (Hdel : deleteDir "release" fs = Return None fsd).
  { unfold deleteDir, fsd. destruct (os_RemoveAll fs "release") as [fs' err].
    cbn [fst snd] in *. now rewrite Hres. }
  assert (Hnd : isDir fsd ["release"] = false).
  { unfold isDir. cbn. apply bool_decide_eq_false. now apply (Habs ["release"]). }
  assert (Hnf : isFile fsd ["release"] = false).
  { unfold isFile. apply bool_decide_eq_false. intros [x Hx].
    destruct (Habs ["release"] ltac:(reflexivity)) as [_ Hn]. congruence. }
  assert (Hmk : createDir "release" fsd = Return None (withDir fsd ["release"])).
  { assert (Hroot : forall fs', isDir fs' [] = true) by reflexivity.
    unfold createDir, os_Stat, os_Mkdir, createErrno. rewrite Hrel.
    change (String.eqb "release" "") with false. cbv zeta iota.
    rewrite Hnd, Hnf. cbn [fileAbove parent removelast orb andb].
    rewrite Hroot. cbn [negb andb orb]. rewrite andb_false_r. reflexivity. }
  exists (withDir fsd ["release"]).
  split; [rewrite isDir_withDir, (bool_decide_eq_true_2 _ eq_refl); apply orb_true_r|].
  split; [|split; [|split; [|split]]].
  - intros q Hq Hne. destruct (Habs q Hq) as [Hd Hf]. split; [|exact Hf].
    cbn [withDir dirs]. rewrite elem_of_union, elem_of_singleton. tauto.
  - now apply (Habs ["release"]).
  - intros q Hq. destruct (Hout q Hq) as [Hd Hf]. split; [|exact Hf].
    cbn [withDir dirs]. rewrite elem_of_union, elem_of_singleton, Hd.
    split; [intros [->|H]; [|exact H] | auto]. exfalso. now apply Hq.
  - exact Hj.
  - unfold main.
    apply String.eqb_neq in H1, H2, H3, H4, H5, H6. rewrite H1, H2, H3, H4, H5, H6.
    cbv zeta. unfold bind at 1. rewrite Hdel. unfold bind at 1. rewrite Hmk. reflexivity.
Qed.

End MainProperties.

Lemma main_requires_flags_witness :
  main (json := Sample.json) Sample.registryOnline "exampleorg" "" "acme" "dist" "acme"
    "1.2.0" "ABCDEF" "pubkey.txt" (Sample.dist Sample.twoPlatforms)
  = Exit (Sample.dist Sample.twoPlatforms).
Proof.
  apply (main_requires_flags (json := Sample.json)). right. left. reflexivity.
Defined.

Lemma main_starts_from_empty_release_witness :
  exists fs0,
    isDir fs0 ["release"] = true /\
    journal fs0 = journal (Sample.staged Sample.twoPlatforms).
Proof.
  destruct (main_starts_from_empty_release (json := Sample.json) Sample.registryOnline
              "exampleorg" Sample.registry "acme" "dist" "acme" "1.2.0" "ABCDEF" "pubkey.txt"
              (Sample.staged Sample.twoPlatforms)
              ltac:(discriminate) ltac:(discriminate) ltac:(discriminate)
              ltac:(discriminate) ltac:(discriminate) ltac:(discriminate))
    as (fs0 & Hd & _ & _ & _ & Hj & _).
  exists fs0. auto.
Defined.

(** ** The versions document *)

Section Paths.

Lemma segments_slash (a b : string) : segments (a +:+ "/" +:+ b) = segments a ++ segments b.
Proof.
  unfold segments. rewrite <- List.filter_app. f_equal.
  exact (Split_app_char "/" a b).
Qed.

Lemma resolve_relative (a : string) : String.prefix "/" a = false -> resolve a = segments a.
Proof. intros H. unfold resolve, segments. now rewrite H. Qed.


End Paths.

Section MkdirAll.


End MkdirAll.

Section VersionsDocument.

Context `{json : Json}.
Variable httpGet : string -> Response.

Lemma downloadVersionsFile_discovered
    (namespace provider domain body : string) (wk : WellKnown) (fs : FS) :
  httpGet (wellKnownUrlOf domain) = GetResp StatusOK (ReadAllOk body) ->
  Unmarshal_WellKnown body = inl wk ->
  let r := httpGet (versionsUrlOf domain wk namespace provider) in
  exists e,
    downloadVersionsFile httpGet namespace provider domain fs
      = Return (publishedVersions r, wk, e) fs
    /\ (e = None <-> versionsAvailable r = true).
Proof.
  intros Hget Hwk r. unfold downloadVersionsFile, fetchVersions. unfold wellKnownUrlOf in Hget.
  rewrite Hget. cbn [negb Z.eqb StatusOK Pos.eqb]. rewrite Hwk.
  unfold r, versionsUrlOf, publishedVersions, versionsAvailable. clear Hget r.
  destruct (httpGet _) as [msg|code [vbody|msg]]; cbn [ret].
  - eexists. split; [reflexivity|]. split; discriminate.
  - destruct (code =? StatusOK)%Z; cbn [negb andb].
    + destruct (Unmarshal_Versions vbody); eexists; (split; [reflexivity|]);
        split; (reflexivity || discriminate).
    + eexists. split; [reflexivity|]. split; discriminate.
  - destruct (code =? StatusOK)%Z; cbn [negb andb];
      eexists; (split; [reflexivity|]); split; discriminate.
Qed.

(** X11.  Once the discovery document has been fetched and decoded,
    [downloadVersionsFile] never fails fatally and writes nothing: it returns
    the fetched document together with the version list of the second answer
    when that answer is a 200 with a decodable body, and with an empty history
    and an error otherwise. *)
Theorem versions_request_failure_is_not_fatal
    (namespace provider domain body : string) (wk : WellKnown) (fs : FS) :
  httpGet (wellKnownUrlOf domain) = GetResp StatusOK (ReadAllOk body) ->
  Unmarshal_WellKnown body = inl wk ->
  let r := httpGet (versionsUrlOf domain wk namespace provider) in
  exists e,
    downloadVersionsFile httpGet namespace provider domain fs
      = Return (publishedVersions r, wk, e) fs
    /\ (e = None <-> versionsAvailable r = true)
    /\ (versionsAvailable r = false -> publishedVersions r = mkVersions []).
Proof.
  intros Hget Hwk r.
  destruct (downloadVersionsFile_discovered namespace provider domain body wk fs Hget Hwk)
    as (e & Hd & He).
  exists e. split; [exact Hd|]. split; [exact He|].
  unfold r, versionsAvailable, publishedVersions. clear.
  destruct (httpGet _) as [msg|code [vbody|msg]]; try reflexivity.
  destruct (code =? StatusOK)%Z; [|reflexivity].
  destruct (Unmarshal_Versions vbody); [discriminate | reflexivity].
Qed.

Lemma resolve_versionPath (wk : WellKnown) (namespace provider : string) :
  resolve (versionPathOf wk namespace provider)
  = resolve (versionDirOf wk namespace provider) ++ ["versions"].
Proof.
  rewrite versionDirOf_eq. unfold versionPathOf.
  set (X := "release" +:+ WellKnown_ProvidersV1 wk +:+ namespace +:+ "/" +:+ provider).
  assert (HX : "release" +:+ WellKnown_ProvidersV1 wk +:+ namespace +:+ "/" +:+ provider
                 +:+ "/versions" = X +:+ "/" +:+ "versions").
  { unfold X. now string_norm. }
  rewrite HX, !resolve_relative by reflexivity.
  now rewrite segments_slash.
Qed.

(** X1.  The directory that [createVersionsFile] creates before it writes
    (the versions path split on ["/"], without its last field, joined again)
    is release + providersPath + namespace + "/" + provider, whatever slashes
    these strings contain; the versions document is the entry [versions] of
    that directory. *)
Theorem versions_directory_is_path_without_last_segment
    (wk : WellKnown) (namespace provider : string) :
  versionDirOf wk namespace provider
  = "release" +:+ WellKnown_ProvidersV1 wk +:+ namespace +:+ "/" +:+ provider
  /\ resolve (versionPathOf wk namespace provider)
     = resolve (versionDirOf wk namespace provider) ++ ["versions"].
Proof.
  split; [apply versionDirOf_eq | apply resolve_versionPath].
Qed.



End VersionsDocument.

Lemma versions_request_failure_is_not_fatal_witness :
  exists e,
    downloadVersionsFile (json := Sample.json) Sample.registryOnline "exampleorg" "acme"
      Sample.registry (Sample.dist Sample.twoPlatforms)
    = Return (mkVersions [],
              {| WellKnown_ProvidersV1 := "/v1/providers/"; WellKnown_ModulesV1 := "/v1/modules/" |},
              e) (Sample.dist Sample.twoPlatforms).
Proof.
  destruct (versions_request_failure_is_not_fatal (json := Sample.json) Sample.registryOnline
              "exampleorg" "acme" Sample.registry "/v1/providers/|/v1/modules/"
              {| WellKnown_ProvidersV1 := "/v1/providers/"; WellKnown_ModulesV1 := "/v1/modules/" |}
              (Sample.dist Sample.twoPlatforms) eq_refl eq_refl) as (e & H & _).
  exists e. exact H.
Defined.


(** ** The manifest rows *)

Section ManifestRows.

Lemma parseLines_rows (lines : list string) :
  forall entries, parseLines lines = Some entries ->
    Forall2 firstTwoFields lines (map rowOf entries).
Proof.
  induction lines as [|line lines IH]; intros entries H; cbn [parseLines] in H.
  - injection H as <-. constructor.
  - destruct (parseLine line) as [e|] eqn:El; [|discriminate].
    destruct (parseLines lines) as [es|]; [|discriminate].
    injection H as <-. cbn [map]. constructor; [|now apply IH].
    unfold parseLine in El. cbv zeta in El.
    destruct (strings.Split line "  ") as [|c [|n rest]] eqn:Es; cbn in El; try discriminate.
    injection El as <-. now exists c, n, rest.
Qed.

(** X13.  [getShaSumContents] only reads.  When it returns rows without
    error, there is one row for each line of the manifest, in order, holding
    the first two of the fields that two spaces separate on the line (further
    fields are dropped); when it returns an error, that is the error of the
    read and there are no rows.  It never ends in [log.Fatal]. *)
Theorem getShaSumContents_rows (distPath repoName version : string) (fs : FS) :
  let out := getShaSumContents distPath repoName version fs in
  let manifest := readLines fs (shaSumPathOf distPath repoName version) in
  finalFS out = fs
  /\ ending out <> Exited
  /\ forall rows err, result out = Some (rows, err) ->
       err = manifest.2 /\
       match err with
       | Some _ => rows = []
       | None => Forall2 firstTwoFields manifest.1 rows
       end.
Proof.
  intros out manifest. unfold out, manifest, shaSumPathOf.
  rewrite getShaSumContents_spec.
  destruct (readLines fs _) as [lines [e|]]; cbn [finalFS ending result fst snd].
  - split; [reflexivity|]. split; [discriminate|].
    intros rows err [= <- <-]. split; reflexivity.
  - destruct (parseLines lines) as [es|] eqn:Ep; cbn [finalFS ending result].
    + split; [reflexivity|]. split; [discriminate|].
      intros rows err [= <- <-]. split; [reflexivity|]. now apply parseLines_rows.
    + split; [reflexivity|]. split; [discriminate|]. discriminate.
Qed.

End ManifestRows.

(** ** The copies of the archives *)

Section Copies.

Lemma zipCopies_cons (destPath distPath : string) (e : ManifestEntry)
    (entries : list ManifestEntry) :
  zipCopies destPath distPath (e :: entries)
  = if strings.HasSuffix e.2 ".zip"
    then (distPath +:+ e.2, destPath +:+ e.2) :: zipCopies destPath distPath entries
    else zipCopies destPath distPath entries.
Proof. unfold zipCopies. cbn [omap list_omap]. now destruct (strings.HasSuffix e.2 ".zip"). Qed.

Lemma copyBuildZipsLoop_spec (destPath distPath : string) (entries : list ManifestEntry) :
  forall fs,
    copyBuildZipsLoop destPath distPath (map rowOf entries) fs
    = copyAll (zipCopies destPath distPath entries) fs.
Proof.
  induction entries as [|e entries IH]; intros fs; [reflexivity|].
  cbn [map copyBuildZipsLoop]. unfold bind at 1. rewrite index_rowOf_1, zipCopies_cons.
  destruct (strings.HasSuffix e.2 ".zip"); cbn [negb]; [|apply IH].
  cbn [copyAll]. unfold bind.
  destruct (copyFile _ _ fs) as [[err|] fs1| |]; try reflexivity. apply IH.
Qed.

Lemma copyAll_frame (copies : list (string * string)) :
  forall fs, exists err fs',
    copyAll copies fs = Return err fs' /\
    dirs fs' = dirs fs /\ journal fs' = journal fs /\
    (forall q, (forall c, c ∈ copies -> q <> resolve c.2) -> files fs' !! q = files fs !! q) /\
    (forall q, is_Some (files fs !! q) -> is_Some (files fs' !! q)) /\
    (err = None -> forall c, c ∈ copies -> is_Some (files fs' !! resolve c.2)).
Proof.
  induction copies as [|[src dst] copies IH]; intros fs.
  - exists None, fs. split; [reflexivity|]. split; [reflexivity|]. split; [reflexivity|].
    split; [reflexivity|]. split; [auto|]. intros _ c Hc. now apply elem_of_nil in Hc.
  - cbn [copyAll]. unfold bind.
    destruct (copyFile_frame src dst fs) as (err & fs1 & -> & Hd & Hj & Hother & Hkeep & Hok & Hfail).
    destruct err as [e|].
    + rewrite (Hfail ltac:(discriminate)). exists (Some e), fs.
      split; [reflexivity|]. split; [reflexivity|]. split; [reflexivity|].
      split; [reflexivity|]. split; [auto | discriminate].
    + destruct (IH fs1) as (err & fs' & -> & Hd' & Hj' & Hother' & Hkeep' & Hok').
      exists err, fs'. split; [reflexivity|].
      split; [congruence|]. split; [congruence|]. split; [|split].
      * intros q Hq. rewrite Hother'.
        -- apply Hother. apply (Hq (src, dst)). left.
        -- intros c Hc. apply Hq. now right.
      * intros q Hq. auto.
      * intros He c Hc. apply elem_of_cons in Hc as [->|Hc].
        -- apply Hkeep'. now apply Hok.
        -- now apply Hok'.
Qed.

Lemma zipCopies_elem (destPath distPath : string) (entries : list ManifestEntry)
    (c : string * string) :
  c ∈ zipCopies destPath distPath entries <->
  exists e, e ∈ entries /\ strings.HasSuffix e.2 ".zip" = true /\
            c = (distPath +:+ e.2, destPath +:+ e.2).
Proof.
  unfold zipCopies. rewrite list_elem_of_omap. split.
  - intros (e & He & Hc). exists e. destruct (strings.HasSuffix e.2 ".zip"); [|discriminate].
    injection Hc as <-. auto.
  - intros (e & He & Hz & ->). exists e. now rewrite Hz.
Qed.

(** X14.  [copyBuildZips] copies the entries of the manifest whose name
    ends in [".zip"], in manifest order, and skips the others.  It creates no
    directory, makes no journal entry, removes no file and changes no file
    other than the destinations, returns the first error of a copy instead of
    ending the program, and after a run without error every destination
    exists. *)
Theorem copyBuildZips_outcome
    (destPath distPath repoName version : string)
    (lines : list string) (entries : list ManifestEntry) (fs : FS) :
  readLines fs (shaSumPathOf distPath repoName version) = (lines, None) ->
  parseLines lines = Some entries ->
  let out := copyBuildZips destPath distPath repoName version fs in
  out = copyAll (zipCopies destPath distPath entries) fs
  /\ ending out = Returned
  /\ dirs (finalFS out) = dirs fs
  /\ journal (finalFS out) = journal fs
  /\ (forall q, (forall e, e ∈ entries -> strings.HasSuffix e.2 ".zip" = true ->
                           q <> resolve (destPath +:+ e.2)) ->
                files (finalFS out) !! q = files fs !! q)
  /\ (forall q, is_Some (files fs !! q) -> is_Some (files (finalFS out) !! q))
  /\ (result out = Some None ->
      forall e, e ∈ entries -> strings.HasSuffix e.2 ".zip" = true ->
                is_Some (files (finalFS out) !! resolve (destPath +:+ e.2))).
Proof.
  intros Hlines Hparse out.
  assert (Hout : out = copyAll (zipCopies destPath distPath entries) fs).
  { unfold out, copyBuildZips. unfold bind at 1. rewrite getShaSumContents_spec.
    unfold shaSumPathOf in Hlines. rewrite Hlines, Hparse.
    apply copyBuildZipsLoop_spec. }
  split; [exact Hout|]. rewrite Hout.
  destruct (copyAll_frame (zipCopies destPath distPath entries) fs)
    as (err & fs' & -> & Hd & Hj & Hother & Hkeep & Hok).
  cbn [ending finalFS result].
  split; [reflexivity|]. split; [exact Hd|]. split; [exact Hj|]. split; [|split].
  - intros q Hq. apply Hother. intros c Hc.
    apply zipCopies_elem in Hc as (e & He & Hz & ->). now apply Hq.
  - exact Hkeep.
  - intros [= ->] e He Hz.
    apply (Hok eq_refl (distPath +:+ e.2, destPath +:+ e.2)).
    apply zipCopies_elem. now exists e.
Qed.

End Copies.

Lemma copyBuildZips_outcome_witness :
  ending (copyBuildZips "release/" "dist/" "acme" "1.2.0" (Sample.dist Sample.withReadme))
  = Returned.
Proof.
  refine (proj1 (proj2 (copyBuildZips_outcome "release/" "dist/" "acme" "1.2.0"
            ["aaa  acme_1.2.0_linux_amd64.zip"; "fff  README.txt";
             "bbb  acme_1.2.0_darwin_arm64.zip"]
            [("aaa", "acme_1.2.0_linux_amd64.zip"); ("fff", "README.txt");
             ("bbb", "acme_1.2.0_darwin_arm64.zip")]
            (Sample.dist Sample.withReadme) _ eq_refl))).
  vm_compute. reflexivity.
Defined.

(** ** The directories of a version *)

Section VersionDirectories.

Lemma resolve_child (d t : string) :
  resolve ((d +:+ "/") +:+ t) = resolve (d +:+ "/") ++ segments t.
Proof.
  unfold resolve. rewrite prefix_slash_app, <- app_assoc. f_equal.
  fold (segments ((d +:+ "/") +:+ t)). fold (segments (d +:+ "/")).
  rewrite append_assoc, segments_slash.
  replace (d +:+ "/") with (d +:+ "/" +:+ "") by reflexivity.
  rewrite segments_slash. cbn [segments]. now rewrite app_nil_r.
Qed.

Lemma fileAbove_withDir (fs : FS) (p q : list string) :
  forall pre, fileAbove (withDir fs p) pre q = true -> fileAbove fs pre q = true.
Proof.
  induction q as [|seg rest IH]; intros pre H; [discriminate|].
  cbn [fileAbove] in *. rewrite isDir_withDir, isFile_withDir in H.
  apply orb_true_iff in H as [H|H]; apply orb_true_iff; [left | right; now apply IH].
  apply andb_true_iff in H as [H1 H2]. rewrite H1.
  destruct (isDir fs pre); [discriminate H2 | reflexivity].
Qed.

Lemma createTargetDirsLoop_spec (destPath : string) (ts : list string) :
  forall fs, exists err fs',
    createTargetDirsLoop destPath ts fs = Return err fs' /\
    files fs' = files fs /\ journal fs' = journal fs /\
    (forall q, isDir fs q = true -> isDir fs' q = true) /\
    (forall q, q ∈ dirs fs' -> q ∈ dirs fs \/ exists t, t ∈ ts /\ q = resolve (destPath +:+ t)) /\
    ((forall t, t ∈ ts -> isDir fs (parent (resolve (destPath +:+ t))) = true) ->
     destPath <> "" ->
     err = None /\
     forall t, t ∈ ts ->
       isDir fs' (resolve (destPath +:+ t)) = true \/
       isFile fs (resolve (destPath +:+ t)) = true \/
       fileAbove fs [] (resolve (destPath +:+ t)) = true).
Proof.
  induction ts as [|t ts IH]; intros fs.
  - exists None, fs. split; [reflexivity|]. split; [reflexivity|]. split; [reflexivity|].
    split; [auto|]. split; [auto|]. intros _ _. split; [reflexivity|].
    intros t Ht. now apply elem_of_nil in Ht.
  - cbn [createTargetDirsLoop]. unfold bind.
    destruct (createDir_cases (destPath +:+ t) fs)
      as [(Hstat & ->)|[(Hstat & Hne & Hnd & Hnf & [(Hpar & ->)|(Hpar & e & ->)])|(He & e & ->)]].
    + destruct (IH fs) as (err & fs' & -> & Hf & Hj & Hmono & Hnew & Hok).
      exists err, fs'. split; [reflexivity|]. split; [exact Hf|]. split; [exact Hj|].
      split; [exact Hmono|]. split.
      * intros q Hq. destruct (Hnew q Hq) as [H|(t' & Ht' & ->)]; [now left|].
        right. exists t'. split; [now right | reflexivity].
      * intros Hpar Hdest. destruct (Hok (fun t' Ht' => Hpar t' ltac:(now right)) Hdest)
          as (-> & Hall).
        split; [reflexivity|]. intros t' Ht'. apply elem_of_cons in Ht' as [->|Ht'].
        -- unfold os_Stat in Hstat.
           destruct (String.eqb (destPath +:+ t) "") eqn:E.
           { apply String.eqb_eq in E. destruct destPath; [congruence | discriminate]. }
           destruct (isDir fs (resolve (destPath +:+ t))) eqn:Ed; [left; now apply Hmono|].
           destruct (isFile fs (resolve (destPath +:+ t))) eqn:Ef; [right; now left|].
           destruct (fileAbove fs [] (resolve (destPath +:+ t))) eqn:Ea; [right; now right|].
           congruence.
        -- now apply Hall.
    + destruct (IH (withDir fs (resolve (destPath +:+ t))))
        as (err & fs' & -> & Hf & Hj & Hmono & Hnew & Hok).
      exists err, fs'. split; [reflexivity|]. split; [exact Hf|]. split; [exact Hj|].
      split; [|split].
      * intros q Hq. apply Hmono. rewrite isDir_withDir, Hq. reflexivity.
      * intros q Hq. destruct (Hnew q Hq) as [H|(t' & Ht' & ->)].
        -- cbn [withDir dirs] in H. apply elem_of_union in H as [H|H]; [|now left].
           apply elem_of_singleton in H as ->. right. exists t. split; [left | reflexivity].
        -- right. exists t'. split; [now right | reflexivity].
      * intros Hpar' Hdest.
        assert (Hp : forall t', t' ∈ ts ->
                  isDir (withDir fs (resolve (destPath +:+ t)))
                    (parent (resolve (destPath +:+ t'))) = true).
        { intros t' Ht'. rewrite isDir_withDir, (Hpar' t' ltac:(now right)). reflexivity. }
        destruct (Hok Hp Hdest) as (-> & Hall). split; [reflexivity|].
        intros t' Ht'. apply elem_of_cons in Ht' as [->|Ht'].
        -- left. apply Hmono. rewrite isDir_withDir, (bool_decide_eq_true_2 _ eq_refl).
           apply orb_true_r.
        -- destruct (Hall t' Ht') as [H|[H|H]]; [now left| |].
           ++ rewrite isFile_withDir in H. right. now left.
           ++ right. right. now apply (fileAbove_withDir fs (resolve (destPath +:+ t))).
    + exists (Some e), fs. split; [reflexivity|]. split; [reflexivity|]. split; [reflexivity|].
      split; [auto|]. split; [auto|]. intros Hpar' _.
      rewrite (Hpar' t ltac:(left)) in Hpar. discriminate.
    + exists (Some e), fs. split; [reflexivity|]. split; [reflexivity|]. split; [reflexivity|].
      split; [auto|]. split; [auto|]. intros _ Hdest.
      apply String.eqb_eq in He. destruct destPath; [congruence | discriminate].
Qed.

Lemma segments_target (t : string) : t ∈ targets -> segments t = [t].
Proof.
  unfold targets. rewrite !elem_of_cons, elem_of_nil.
  intros [->|[->|[->|[->|[]]]]]; reflexivity.
Qed.

(** X15.  [createTargetDirs] always returns; it touches no file and makes
    no journal entry, removes no directory, and the only directories it can
    add are the four of darwin, freebsd, linux and windows below the given
    path.  When the given path is a directory it returns [nil], and each of
    the four is then a directory unless a regular file lay at or above its
    path, which [createDir] does not report. *)
Theorem createTargetDirs_outcome (d : string) (fs : FS) :
  let destPath := d +:+ "/" in
  let out := createTargetDirs destPath fs in
  let dir t := resolve destPath ++ [t] in
  ending out = Returned
  /\ files (finalFS out) = files fs
  /\ journal (finalFS out) = journal fs
  /\ (forall q, isDir fs q = true -> isDir (finalFS out) q = true)
  /\ (forall q, q ∈ dirs (finalFS out) -> q ∈ dirs fs \/ exists t, t ∈ targets /\ q = dir t)
  /\ (isDir fs (resolve destPath) = true ->
      result out = Some None /\
      forall t, t ∈ targets ->
        isDir (finalFS out) (dir t) = true \/ isFile fs (dir t) = true \/
        fileAbove fs [] (dir t) = true).
Proof.
  intros destPath out dir. unfold out, createTargetDirs. cbv zeta. fold targets.
  assert (Hdir : forall t, t ∈ targets -> resolve (destPath +:+ t) = dir t).
  { intros t Ht. unfold destPath, dir. now rewrite resolve_child, segments_target. }
  destruct (createTargetDirsLoop_spec destPath targets fs)
    as (err & fs' & -> & Hf & Hj & Hmono & Hnew & Hok).
  cbn [ending finalFS result].
  split; [reflexivity|]. split; [exact Hf|]. split; [exact Hj|]. split; [exact Hmono|].
  split.
  - intros q Hq. destruct (Hnew q Hq) as [H|(t & Ht & ->)]; [now left|].
    right. exists t. split; [exact Ht | now apply Hdir].
  - intros Hd. destruct Hok as (-> & Hall).
    + intros t Ht. rewrite (Hdir t Ht). unfold dir, parent. now rewrite removelast_last.
    + unfold destPath. now destruct d.
    + split; [reflexivity|]. intros t Ht. rewrite <- (Hdir t Ht). now apply Hall.
Qed.

Lemma providerDirsLoop_spec (arr : list string) :
  forall (cur : string) (fs : FS),
    let out := providerDirsLoop arr cur fs in
    ending out <> Panicked
    /\ files (finalFS out) = files fs
    /\ journal (finalFS out) = journal fs
    /\ (forall q, isDir fs q = true -> isDir (finalFS out) q = true)
    /\ (forall path, result out = Some path -> path = cur +:+ trail arr).
Proof.
  induction arr as [|v arr IH]; intros cur fs; cbv zeta.
  - cbn [providerDirsLoop ret ending finalFS result trail].
    split; [discriminate|]. split; [reflexivity|]. split; [reflexivity|]. split; [auto|].
    intros path [= <-]. now rewrite append_nil_r.
  - cbn [providerDirsLoop trail]. unfold bind.
    assert (Hcat : forall rest, (cur +:+ v +:+ "/") +:+ rest = cur +:+ v +:+ "/" +:+ rest)
      by (intros rest; now rewrite !append_assoc).
    destruct (createDir_cases (cur +:+ v +:+ "/") fs)
      as [(_ & ->)|[(_ & _ & _ & _ & [(_ & ->)|(_ & e & ->)])|(_ & e & ->)]].
    + destruct (IH (cur +:+ v +:+ "/") fs) as (H1 & H2 & H3 & H4 & H5).
      split; [exact H1|]. split; [exact H2|]. split; [exact H3|]. split; [exact H4|].
      intros path Hp. rewrite (H5 path Hp). apply Hcat.
    + destruct (IH (cur +:+ v +:+ "/") (withDir fs (resolve (cur +:+ v +:+ "/"))))
        as (H1 & H2 & H3 & H4 & H5).
      split; [exact H1|]. split; [exact H2|]. split; [exact H3|]. split.
      * intros q Hq. apply H4. rewrite isDir_withDir, Hq. reflexivity.
      * intros path Hp. rewrite (H5 path Hp). apply Hcat.
    + cbn [log_Fatalf ending finalFS result].
      split; [discriminate|]. split; [reflexivity|]. split; [reflexivity|]. split; [auto|].
      discriminate.
    + cbn [log_Fatalf ending finalFS result].
      split; [discriminate|]. split; [reflexivity|]. split; [reflexivity|]. split; [auto|].
      discriminate.
Qed.

Lemma segments_release (R : string) : segments ("release" +:+ "/" +:+ R) = "release" :: segments R.
Proof. apply (segments_slash "release" R). Qed.

Lemma segments_slash_slash (a R : string) :
  segments (a +:+ "/" +:+ "/" +:+ R) = segments a ++ segments R.
Proof. rewrite segments_slash. f_equal. apply (segments_slash "" R). Qed.

(** Where the two ways of building the version directory agree. *)
Lemma version_directory_agrees (pv1 R : string) :
  (exists x, pv1 = "/" +:+ x) -> (exists y, pv1 = y +:+ "/") ->
  resolve ("release/" +:+ pv1 +:+ "/" +:+ R) = resolve ("release" +:+ pv1 +:+ R).
Proof.
  intros [x Hx] [y Hy].
  assert (Hform : pv1 = "/" \/ exists y', pv1 = "/" +:+ y' +:+ "/").
  { destruct y as [|c y']; [left; exact Hy | right].
    rewrite Hy in Hx. cbn [String.append] in Hx. injection Hx as -> _.
    exists y'. exact Hy. }
  clear x Hx y Hy.
  rewrite !resolve_relative by reflexivity.
  change ("release/" +:+ pv1 +:+ "/" +:+ R) with ("release" +:+ "/" +:+ pv1 +:+ "/" +:+ R).
  rewrite segments_release.
  destruct Hform as [->|[y' ->]].
  - change ("/" +:+ "/" +:+ R) with ("" +:+ "/" +:+ "/" +:+ R).
    rewrite segments_slash_slash. cbn [app].
    change ("release" +:+ "/" +:+ R) with ("release" +:+ "/" +:+ R).
    now rewrite segments_release.
  - rewrite !append_assoc.
    change ("/" +:+ y' +:+ "/" +:+ "/" +:+ R) with ("" +:+ "/" +:+ y' +:+ "/" +:+ "/" +:+ R).
    rewrite (segments_slash "" (y' +:+ "/" +:+ "/" +:+ R)), segments_slash_slash.
    change ("release" +:+ "/" +:+ y' +:+ "/" +:+ R)
      with ("release" +:+ "/" +:+ (y' +:+ "/" +:+ R)).
    now rewrite segments_release, segments_slash.
Qed.

(** X16.  The path that [providerDirs] returns is release, the providers
    path, the namespace, the provider name and the version, each followed by
    a slash.  When the providers path begins and ends with a slash, any path
    below it is the same file as the path that [createVersionsFile] and
    [createArchitectureFiles] build by plain concatenation of release, the
    providers path, namespace, "/", name, "/", version, "/". *)
Theorem providerDirs_layout (namespace repoName version : string) (wk : WellKnown)
    (fs : FS) (path : string) :
  result (providerDirs namespace repoName version wk fs) = Some path ->
  path = "release/" +:+ WellKnown_ProvidersV1 wk +:+ "/" +:+ namespace +:+ "/" +:+ repoName
           +:+ "/" +:+ version +:+ "/"
  /\ ((exists x, WellKnown_ProvidersV1 wk = "/" +:+ x) ->
      (exists y, WellKnown_ProvidersV1 wk = y +:+ "/") ->
      forall suffix,
        resolve (path +:+ suffix)
        = resolve ("release" +:+ WellKnown_ProvidersV1 wk +:+ namespace +:+ "/" +:+ repoName
                     +:+ "/" +:+ version +:+ "/" +:+ suffix)).
Proof.
  intros Hres. unfold providerDirs in Hres. cbv zeta in Hres.
  destruct (providerDirsLoop_spec
              ["release"; WellKnown_ProvidersV1 wk; namespace; repoName; version] "" fs)
    as (_ & _ & _ & _ & Hpath).
  apply Hpath in Hres. cbn [trail String.append] in Hres.
  rewrite ?append_nil_r in Hres; change (?a +:+ "/" +:+ "") with (a +:+ "/") in Hres.
  assert (E : path = "release/" +:+ WellKnown_ProvidersV1 wk +:+ "/" +:+ namespace +:+ "/"
                       +:+ repoName +:+ "/" +:+ version +:+ "/") by exact Hres.
  split; [exact E|]. intros Hx Hy suffix. rewrite E.
  rewrite <- (version_directory_agrees _ _ Hx Hy).
  apply (f_equal resolve). rewrite !append_assoc. reflexivity.
Qed.

End VersionDirectories.

Lemma providerDirs_layout_witness :
  "release//v1/providers//exampleorg/acme/1.2.0/"
  = "release/" +:+ "/v1/providers/" +:+ "/" +:+ "exampleorg" +:+ "/" +:+ "acme" +:+ "/"
      +:+ "1.2.0" +:+ "/".
Proof.
  refine (proj1 (providerDirs_layout "exampleorg" "acme" "1.2.0"
            {| WellKnown_ProvidersV1 := "/v1/providers/"; WellKnown_ModulesV1 := "/v1/modules/" |}
            (Sample.staged Sample.twoPlatforms) "release//v1/providers//exampleorg/acme/1.2.0/" _)).
  vm_compute. reflexivity.
Defined.

(** ** What the program never removes *)

Section Keeps.

Context `{json : Json}.
Variable httpGet : string -> Response.

Lemma extends_refl (fs : FS) : extends fs fs.
Proof. split; [reflexivity|]. split; [auto | reflexivity]. Qed.

Lemma extends_trans (fs1 fs2 fs3 : FS) : extends fs1 fs2 -> extends fs2 fs3 -> extends fs1 fs3.
Proof.
  intros (Hd & Hf & Hj) (Hd' & Hf' & Hj').
  split; [now transitivity (dirs fs2)|]. split; [auto|]. now transitivity (journal fs2).
Qed.

Lemma extends_withDir (fs : FS) (p : list string) : extends fs (withDir fs p).
Proof.
  split; [cbn [withDir dirs]; apply union_subseteq_r|]. split; [auto | reflexivity].
Qed.

Lemma keeps_ret {A} (a : A) : keeps (ret a).
Proof. intros fs. apply extends_refl. Qed.

Lemma keeps_Fatalf {A} : keeps (@log_Fatalf A).
Proof. intros fs. apply extends_refl. Qed.

Lemma keeps_index {A} (l : list A) (i : nat) : keeps (index l i).
Proof. intros fs. unfold index. destruct (l !! i); apply extends_refl. Qed.

Lemma keeps_Error (err : error) : keeps (Error err).
Proof. intros fs. unfold Error. destruct err; apply extends_refl. Qed.

Lemma keeps_bind {A B} (m : M A) (k : A -> M B) :
  keeps m -> (forall a, keeps (k a)) -> keeps (bind m k).
Proof.
  intros Hm Hk fs. unfold bind. specialize (Hm fs).
  destruct (m fs) as [a fs'| |]; cbn [finalFS] in *; [|exact Hm..].
  exact (extends_trans _ _ _ Hm (Hk a fs')).
Qed.

Lemma keeps_writeFile (name data : string) : keeps (writeFile name data).
Proof.
  intros fs. destruct (writeFile_cases name data fs) as [(e & _ & ->)|(_ & ->)];
    [apply extends_refl|].
  cbn [finalFS]. split; [reflexivity|]. split; cbn [files journal].
  - intros q Hq. destruct (decide (q = resolve name)) as [->|Hne].
    + rewrite lookup_insert_eq. eauto.
    + now rewrite lookup_insert_ne.
  - now apply prefix_app_r.
Qed.

Lemma keeps_readFile (filePath : string) : keeps (readFile filePath).
Proof. intros fs. apply extends_refl. Qed.

Lemma keeps_createDir (path : string) : keeps (createDir path).
Proof.
  intros fs.
  destruct (createDir_cases path fs)
    as [(_ & ->)|[(_ & _ & _ & _ & [(_ & ->)|(_ & e & ->)])|(_ & e & ->)]];
    cbn [finalFS]; (apply extends_refl || apply extends_withDir).
Qed.

Lemma mkdirAll_dirs (p : list string) :
  forall (fs fs1 : FS) (pre : list string), mkdirAll fs pre p = inl fs1 -> dirs fs ⊆ dirs fs1.
Proof.
  induction p as [|seg rest IH]; intros fs fs1 pre H; cbn [mkdirAll] in H.
  - now injection H as <-.
  - cbv zeta in H. destruct (isDir fs (pre ++ [seg])); [now apply (IH _ _ _ H)|].
    destruct (isFile fs (pre ++ [seg])); [discriminate|].
    apply IH in H. cbn [dirs] in H. etransitivity; [|exact H]. apply union_subseteq_r.
Qed.

Lemma keeps_createDirRecursive (path : string) : keeps (createDirRecursive path).
Proof.
  intros fs. unfold createDirRecursive.
  destruct (os_MkdirAll fs path) as [fs1|e] eqn:E; cbn [finalFS]; [|apply extends_refl].
  destruct (os_MkdirAll_keeps _ _ _ E) as [Hf Hj].
  split; [|split; [now rewrite Hf | now rewrite Hj]].
  destruct (String.eqb path "") eqn:Hne; [unfold os_MkdirAll in E; now rewrite Hne in E|].
  destruct (os_MkdirAll_mkdirAll fs path Hne) as (pre & p & _ & _ & Hm).
  rewrite Hm in E. now apply mkdirAll_dirs in E.
Qed.

Lemma keeps_copyFile (src dst : string) : keeps (copyFile src dst).
Proof.
  intros fs. destruct (copyFile_frame src dst fs) as (err & fs' & -> & Hd & Hj & _ & Hk & _).
  cbn [finalFS]. split; [now rewrite Hd|]. split; [exact Hk | now rewrite Hj].
Qed.

Ltac keeps_step :=
  match goal with
  | |- keeps (bind _ _) => apply keeps_bind; [|intros ?]
  | |- keeps (ret _) => apply keeps_ret
  | |- keeps log_Fatalf => apply keeps_Fatalf
  | |- keeps (index _ _) => apply keeps_index
  | |- keeps (Error _) => apply keeps_Error
  | |- keeps (match ?x with _ => _ end) => destruct x
  end.

Lemma keeps_shaSumRows (lines : list string) :
  forall acc, keeps (shaSumRows lines acc).
Proof.
  induction lines as [|line lines IH]; intros acc; cbn [shaSumRows]; repeat keeps_step.
  apply IH.
Qed.

Lemma keeps_getShaSumContents (distPath repoName version : string) :
  keeps (getShaSumContents distPath repoName version).
Proof.
  unfold getShaSumContents. cbv zeta. apply keeps_bind; [apply keeps_readFile|].
  intros [lines [e|]]; repeat keeps_step. apply keeps_shaSumRows.
Qed.

Lemma keeps_wellKnownFallback (err : error) : keeps (wellKnownFallback err).
Proof.
  unfold wellKnownFallback.
  apply keeps_bind; [apply keeps_Error|]. intros _. cbv zeta.
  apply keeps_bind; [apply keeps_createDirRecursive|]. intros [e|]; [apply keeps_Fatalf|].
  apply keeps_bind; [apply keeps_writeFile|]. intros [e|]; repeat keeps_step.
Qed.

Lemma keeps_downloadVersionsFile (namespace provider domain : string) :
  keeps (downloadVersionsFile httpGet namespace provider domain).
Proof.
  intros fs.
  destruct (downloadVersionsFile httpGet namespace provider domain fs) as [r fs'| |] eqn:E.
  - apply downloadVersionsFile_Return in E as [-> _]. apply extends_refl.
  - unfold downloadVersionsFile in E. cbv zeta in E.
    destruct (httpGet _) as [msg|code body].
    + rewrite <- E. apply keeps_wellKnownFallback.
    + destruct (negb (code =? StatusOK)%Z); [rewrite <- E; apply keeps_wellKnownFallback|].
      destruct body as [data|msg]; [|discriminate].
      destruct (Unmarshal_WellKnown data) as [wk|msg]; [|discriminate].
      destruct (fetchVersions_state httpGet namespace provider domain wk fs) as (reg & e & H).
      congruence.
  - unfold downloadVersionsFile in E. cbv zeta in E.
    destruct (httpGet _) as [msg|code body].
    + rewrite <- E. apply keeps_wellKnownFallback.
    + destruct (negb (code =? StatusOK)%Z); [rewrite <- E; apply keeps_wellKnownFallback|].
      destruct body as [data|msg]; [|discriminate].
      destruct (Unmarshal_WellKnown data) as [wk|msg]; [|discriminate].
      destruct (fetchVersions_state httpGet namespace provider domain wk fs) as (reg & e & H).
      congruence.
Qed.

Lemma keeps_versionPlatforms (rows : list (list string)) :
  forall acc, keeps (versionPlatforms rows acc).
Proof.
  induction rows as [|row rows IH]; intros acc; cbn [versionPlatforms]; repeat keeps_step.
  - apply IH.
  - apply IH.
Qed.

Lemma keeps_createVersionsFile
    (namespace provider distPath repoName version domain : string) :
  keeps (createVersionsFile httpGet namespace provider distPath repoName version domain).
Proof.
  unfold createVersionsFile.
  apply keeps_bind; [apply keeps_downloadVersionsFile|]. intros [[reg wk] e0]. cbv zeta.
  apply keeps_bind; [apply keeps_getShaSumContents|]. intros [rows [e|]]; [apply keeps_ret|].
  apply keeps_bind; [apply keeps_versionPlatforms|]. intros platforms.
  apply keeps_bind; [apply keeps_createDirRecursive|]. intros [e|]; [apply keeps_Fatalf|].
  apply keeps_bind; [apply keeps_writeFile|]. intros [e|]; repeat keeps_step.
Qed.

Lemma keeps_providerDirsLoop (arr : list string) :
  forall cur, keeps (providerDirsLoop arr cur).
Proof.
  induction arr as [|v arr IH]; intros cur; cbn [providerDirsLoop]; [apply keeps_ret|].
  apply keeps_bind; [apply keeps_createDir|]. intros [e|]; [apply keeps_Fatalf | apply IH].
Qed.

Lemma keeps_copyShaFiles (destPath srcPath repoName version : string) :
  keeps (copyShaFiles destPath srcPath repoName version).
Proof.
  unfold copyShaFiles. cbv zeta.
  apply keeps_bind; [apply keeps_copyFile|]. intros [e|]; [apply keeps_Fatalf|].
  apply keeps_bind; [apply keeps_copyFile|]. intros [e|]; repeat keeps_step.
Qed.

Lemma keeps_createDownloadsDir (destPath : string) : keeps (createDownloadsDir destPath).
Proof.
  unfold createDownloadsDir. cbv zeta.
  apply keeps_bind; [apply keeps_createDir|]. intros [e|]; apply keeps_ret.
Qed.

Lemma keeps_createTargetDirsLoop (destPath : string) (ts : list string) :
  keeps (createTargetDirsLoop destPath ts).
Proof.
  induction ts as [|t ts IH]; cbn [createTargetDirsLoop]; [apply keeps_ret|].
  apply keeps_bind; [apply keeps_createDir|]. intros [e|]; [apply keeps_ret | apply IH].
Qed.

Lemma keeps_copyBuildZipsLoop (destPath distPath : string) (rows : list (list string)) :
  keeps (copyBuildZipsLoop destPath distPath rows).
Proof.
  induction rows as [|row rows IH]; cbn [copyBuildZipsLoop]; [apply keeps_ret|].
  apply keeps_bind; [apply keeps_index|]. intros zipName.
  destruct (negb (strings.HasSuffix zipName ".zip")); [apply IH|]. cbv zeta.
  apply keeps_bind; [apply keeps_copyFile|]. intros [e|]; [apply keeps_ret | apply IH].
Qed.

Lemma keeps_copyBuildZips (destPath distPath repoName version : string) :
  keeps (copyBuildZips destPath distPath repoName version).
Proof.
  unfold copyBuildZips.
  apply keeps_bind; [apply keeps_getShaSumContents|].
  intros [rows [e|]]; [apply keeps_ret | apply keeps_copyBuildZipsLoop].
Qed.

Lemma keeps_architectureFiles (a b c d e f : string) (rows : list (list string)) :
  keeps (architectureFiles a b c d e f rows).
Proof.
  induction rows as [|row rows IH]; cbn [architectureFiles]; [apply keeps_ret|].
  apply keeps_bind; [apply keeps_index|]. intros shasum.
  apply keeps_bind; [apply keeps_index|]. intros fileName. cbv zeta.
  apply keeps_bind; [apply keeps_index|]. intros stem.
  destruct (length (strings.Split stem "_") <? 4)%nat; [apply IH|].
  apply keeps_bind; [apply keeps_index|]. intros target.
  apply keeps_bind; [apply keeps_index|]. intros arch.
  apply keeps_bind; [apply keeps_writeFile|]. intros [err|]; [apply keeps_ret | apply IH].
Qed.

Lemma keeps_createArchitectureFiles
    (namespace provider distPath repoName version gpgFingerprint gpgPubKeyFile domain : string)
    (wellKnownData : WellKnown) :
  keeps (createArchitectureFiles namespace provider distPath repoName version gpgFingerprint
           gpgPubKeyFile domain wellKnownData).
Proof.
  unfold createArchitectureFiles. cbv zeta.
  apply keeps_bind; [apply keeps_getShaSumContents|]. intros [rows [e|]]; [apply keeps_ret|].
  apply keeps_bind; [apply keeps_readFile|]. intros [gpgFile [e|]]; [apply keeps_Fatalf|].
  apply keeps_architectureFiles.
Qed.

(** X17.  However it ends (return, [log.Fatal] or panic), [provider] has
    removed nothing: every directory is still a directory, every file is still
    a file (its content may have been replaced), and the journal of writes has
    only grown.  Only the [deleteDir] of [main] removes anything. *)
Theorem provider_never_removes
    (namespace provider' distPath repoName version gpgFingerprint gpgPubKeyFile domain : string)
    (fs : FS) :
  let fs' := finalFS (provider httpGet namespace provider' distPath repoName version
                        gpgFingerprint gpgPubKeyFile domain fs) in
  dirs fs ⊆ dirs fs'
  /\ (forall q, is_Some (files fs !! q) -> is_Some (files fs' !! q))
  /\ journal fs `prefix_of` journal fs'.
Proof.
  revert fs.
  change (keeps (provider httpGet namespace provider' distPath repoName version gpgFingerprint
                   gpgPubKeyFile domain)).
  unfold provider.
  apply keeps_bind; [apply keeps_createVersionsFile|]. intros [wk [e|]]; [apply keeps_Fatalf|].
  apply keeps_bind; [apply keeps_providerDirsLoop|]. intros versionPath.
  apply keeps_bind; [apply keeps_copyShaFiles|]. intros _.
  apply keeps_bind; [apply keeps_createDownloadsDir|].
  intros [downloadPath [e|]]; [apply keeps_ret|].
  apply keeps_bind; [apply keeps_createTargetDirsLoop|]. intros [e|]; [apply keeps_Fatalf|].
  apply keeps_bind; [apply keeps_copyBuildZips|]. intros [e|]; [apply keeps_Fatalf|].
  apply keeps_bind; [apply keeps_createArchitectureFiles|].
  intros [e|]; [apply keeps_Fatalf | apply keeps_ret].
Qed.

(** X18.  Without a readable manifest [provider] never returns, whatever
    the registry answers; when the discovery request was answered with status
    200 it ends in [log.Fatalf] before anything is created or written. *)
Theorem provider_needs_manifest
    (namespace provider' distPath repoName version gpgFingerprint gpgPubKeyFile domain : string)
    (fs : FS) :
  (readLines fs (shaSumPathOf distPath repoName version)).2 <> None ->
  let out := provider httpGet namespace provider' distPath repoName version gpgFingerprint
               gpgPubKeyFile domain fs in
  ending out <> Returned
  /\ (discoveryFailed (httpGet (wellKnownUrlOf domain)) = false -> out = Exit fs).
Proof.
  intros Hman out.
  assert (Hret : forall r fs',
            downloadVersionsFile httpGet namespace provider' domain fs = Return r fs' ->
            out = Exit fs).
  { intros [[reg wk] e] fs' E.
    destruct (downloadVersionsFile_Return httpGet _ _ _ _ _ _ E) as [-> _].
    unfold out, provider. unfold bind at 1.
    rewrite (createVersionsFile_spec httpGet _ _ _ _ _ _ _ _ _ _ E).
    destruct (readLines fs _) as [lines [err|]]; [reflexivity | now contradiction Hman]. }
  split.
  - destruct (downloadVersionsFile httpGet namespace provider' domain fs) as [r fs'| |] eqn:E.
    + rewrite (Hret r fs' eq_refl). discriminate.
    + unfold out, provider, createVersionsFile. unfold bind. rewrite E. discriminate.
    + unfold out, provider, createVersionsFile. unfold bind. rewrite E. discriminate.
  - intros Hdisc. unfold wellKnownUrlOf in Hdisc.
    destruct (downloadVersionsFile httpGet namespace provider' domain fs) as [r fs'| |] eqn:E;
      [now apply (Hret r fs')| |];
      exfalso; unfold downloadVersionsFile in E; cbv zeta in E;
      destruct (httpGet _) as [msg|code body]; cbn [discoveryFailed] in Hdisc;
      try discriminate; rewrite Hdisc in E;
      destruct body as [data|msg]; try discriminate;
      destruct (Unmarshal_WellKnown data) as [wk|msg]; try discriminate;
      destruct (fetchVersions_state httpGet namespace provider' domain wk fs) as (reg & e & H);
      congruence.
Qed.

End Keeps.

Lemma provider_needs_manifest_witness :
  provider (json := Sample.json) Sample.registryOnline "exampleorg" "acme" "dist/" "acme" "1.2.0"
    "ABCDEF" "pubkey.txt" Sample.registry (Sample.addDir "release" Sample.emptyFS)
  = Exit (Sample.addDir "release" Sample.emptyFS).
Proof.
  refine (proj2 (provider_needs_manifest (json := Sample.json) Sample.registryOnline
                   "exampleorg" "acme" "dist/" "acme" "1.2.0" "ABCDEF" "pubkey.txt"
                   Sample.registry (Sample.addDir "release" Sample.emptyFS) _) _).
  - vm_compute. discriminate.
  - vm_compute. reflexivity.
Defined.

(** ** Silent failures of the reads and the copies of the checksum files *)

Section Reads.

(** X19.  [readFile] never looks at the error of the scanner: for a path
    that is a directory it returns no lines and [nil].  A manifest path that
    is a directory therefore reads as an empty manifest, without error. *)
Theorem directory_reads_as_empty_manifest (distPath repoName version : string) (fs : FS) :
  isDir fs (resolve (shaSumPathOf distPath repoName version)) = true ->
  readFile (shaSumPathOf distPath repoName version) fs = Return ([], None) fs
  /\ getShaSumContents distPath repoName version fs = Return ([], None) fs.
Proof.
  intros Hd.
  assert (Hne : String.eqb (shaSumPathOf distPath repoName version) "" = false).
  { unfold shaSumPathOf. destruct distPath; reflexivity. }
  assert (Hread : readLines fs (shaSumPathOf distPath repoName version) = ([], None)).
  { unfold readLines, os_Open. now rewrite Hne, Hd. }
  split.
  - unfold readFile. now rewrite Hread.
  - rewrite getShaSumContents_spec. unfold shaSumPathOf in Hread. now rewrite Hread.
Qed.

(** X20.  [copyShaFiles] returns only after both the manifest and its
    signature have been copied; it ends the program when a copy fails, never
    panics, creates no directory, makes no journal entry, removes no file and
    changes no file other than the two destinations. *)
Theorem copyShaFiles_outcome (destPath srcPath repoName version : string) (fs : FS) :
  let out := copyShaFiles destPath srcPath repoName version fs in
  let shaSum := repoName +:+ "_" +:+ version +:+ "_SHA256SUMS" in
  ending out <> Panicked
  /\ dirs (finalFS out) = dirs fs
  /\ journal (finalFS out) = journal fs
  /\ (forall q, q <> resolve (destPath +:+ shaSum) ->
                q <> resolve (destPath +:+ shaSum +:+ ".sig") ->
                files (finalFS out) !! q = files fs !! q)
  /\ (forall q, is_Some (files fs !! q) -> is_Some (files (finalFS out) !! q))
  /\ (ending out = Returned ->
      is_Some (files fs !! resolve (srcPath +:+ "/" +:+ shaSum)) /\
      is_Some (files (finalFS out) !! resolve (destPath +:+ shaSum)) /\
      is_Some (files (finalFS out) !! resolve (destPath +:+ shaSum +:+ ".sig"))).
Proof.
  intros out shaSum. unfold out, copyShaFiles. cbv zeta. fold shaSum. unfold bind.
  destruct (copyFile_cases (srcPath +:+ "/" +:+ shaSum) (destPath +:+ shaSum) fs)
    as (_ & Hsrc & _).
  destruct (copyFile_frame (srcPath +:+ "/" +:+ shaSum) (destPath +:+ shaSum) fs)
    as (err & fs1 & E1 & Hd & Hj & Hother & Hkeep & Hok & Hfail).
  rewrite E1 in Hsrc |- *. cbn [result] in Hsrc.
  destruct err as [e|].
  { rewrite (Hfail ltac:(discriminate)). cbn [log_Fatalf ending finalFS].
    split; [discriminate|]. split; [reflexivity|]. split; [reflexivity|].
    split; [reflexivity|]. split; [auto | discriminate]. }
  destruct (copyFile_frame ((srcPath +:+ "/" +:+ shaSum) +:+ ".sig")
              (destPath +:+ shaSum +:+ ".sig") fs1)
    as (err & fs2 & -> & Hd2 & Hj2 & Hother2 & Hkeep2 & Hok2 & Hfail2).
  assert (Hframe : forall q, q <> resolve (destPath +:+ shaSum) ->
                     q <> resolve (destPath +:+ shaSum +:+ ".sig") ->
                     files fs2 !! q = files fs !! q).
  { intros q H1 H2. rewrite Hother2 by exact H2. now apply Hother. }
  destruct err as [e|]; cbn [log_Fatalf ret ending finalFS].
  - rewrite (Hfail2 ltac:(discriminate)) in *.
    split; [discriminate|]. split; [exact Hd|]. split; [exact Hj|].
    split; [exact Hframe|]. split; [exact Hkeep | discriminate].
  - split; [discriminate|]. split; [congruence|]. split; [congruence|].
    split; [exact Hframe|]. split; [auto|]. intros _.
    destruct (Hsrc eq_refl) as (data & Hdata & _).
    split; [rewrite Hdata; eauto|]. split; [apply Hkeep2; now apply Hok | now apply Hok2].
Qed.

End Reads.

Lemma directory_reads_as_empty_manifest_witness :
  getShaSumContents "dist" "acme" "1.2.0"
    (Sample.addDir "dist/acme_1.2.0_SHA256SUMS" (Sample.addDir "dist" Sample.emptyFS))
  = Return ([], None)
      (Sample.addDir "dist/acme_1.2.0_SHA256SUMS" (Sample.addDir "dist" Sample.emptyFS)).
Proof.
  refine (proj2 (directory_reads_as_empty_manifest "dist" "acme" "1.2.0"
            (Sample.addDir "dist/acme_1.2.0_SHA256SUMS" (Sample.addDir "dist" Sample.emptyFS))
            _)).
  vm_compute. reflexivity.
Defined.

(** ** Entries that are listed but not copied *)

Section Unzipped.

Lemma zipCopies_app (destPath distPath : string) (l1 l2 : list ManifestEntry) :
  zipCopies destPath distPath (l1 ++ l2)
  = zipCopies destPath distPath l1 ++ zipCopies destPath distPath l2.
Proof. unfold zipCopies. apply omap_app. Qed.

(** X21.  [copyBuildZips] decides by the suffix [".zip"], the platform
    extraction by the text before the first [".zip"] or, without one, by the
    whole name.  So a manifest entry whose name does not end in [".zip"] is
    passed over by the copy loop as if it were not in the manifest, and still,
    when its name has four tokens, adds its platform to the new version. *)
Theorem entry_without_zip_suffix_is_listed_not_copied
    (destPath distPath : string) (e : ManifestEntry) :
  strings.HasSuffix e.2 ".zip" = false ->
  (forall (before after : list ManifestEntry) (fs : FS),
      copyBuildZipsLoop destPath distPath (map rowOf (before ++ e :: after)) fs
      = copyBuildZipsLoop destPath distPath (map rowOf (before ++ after)) fs)
  /\ (forall p, platformOf e.2 = Some p ->
        forall (before after : list ManifestEntry) (fs : FS),
          versionPlatforms (map rowOf (before ++ e :: after)) [] fs
          = Return (manifestPlatforms before ++ p :: manifestPlatforms after) fs).
Proof.
  intros Hz. split.
  - intros before after fs. rewrite !copyBuildZipsLoop_spec, !zipCopies_app, zipCopies_cons.
    now rewrite Hz.
  - intros p Hp before after fs. rewrite versionPlatforms_spec, manifestPlatforms_app.
    cbn [app]. do 2 f_equal.
    unfold manifestPlatforms. cbn [omap list_omap]. now rewrite Hp.
Qed.

End Unzipped.

Lemma entry_without_zip_suffix_is_listed_not_copied_witness :
  versionPlatforms (map rowOf ([] ++ ("ccc", "acme_1.2.0_linux_amd64.tar.gz") :: [])) []
    (Sample.dist Sample.twoPlatforms)
  = Return (manifestPlatforms [] ++
            {| Platform_Os := "linux"; Platform_Arch := "amd64.tar.gz" |} :: manifestPlatforms [])
      (Sample.dist Sample.twoPlatforms).
Proof.
  refine (proj2 (entry_without_zip_suffix_is_listed_not_copied "release/" "dist/"
                   ("ccc", "acme_1.2.0_linux_amd64.tar.gz") _)
            {| Platform_Os := "linux"; Platform_Arch := "amd64.tar.gz" |} _ [] []
            (Sample.dist Sample.twoPlatforms)).
  - reflexivity.
  - reflexivity.
Defined.

(** ** What a complete run has written *)

Section Journal.

Context `{json : Json}.
Variable httpGet : string -> Response.





















End Journal.


(** ** When the whole run succeeds *)

Section PathAlgebra.







Lemma append_nonempty (a s : string) : plainSegment s = true -> String.eqb (a +:+ s) "" = false.
Proof.
  intros [H1 _]%andb_true_iff. destruct a; [|reflexivity].
  destruct s; [discriminate | reflexivity].
Qed.


End PathAlgebra.

Section Steps.








End Steps.

Section Loops.













End Loops.

Section Success.

Context `{json : Json}.
Variable httpGet : string -> Response.
Variables namespace provider' distPath repoName version : string.
Variables gpgFingerprint gpgPubKeyFile domain body : string.
Variable wk : WellKnown.
Variable lines : list string.
Variable entries : list ManifestEntry.
Variable fs : FS.

Hypothesis Hget : httpGet (wellKnownUrlOf domain) = GetResp StatusOK (ReadAllOk body).
Hypothesis Hwk : Unmarshal_WellKnown body = inl wk.
Hypothesis Hx : exists x, WellKnown_ProvidersV1 wk = "/" +:+ x.
Hypothesis Hy : exists y, WellKnown_ProvidersV1 wk = y +:+ "/".
Hypothesis Hrepo : plainSegment repoName = true.
Hypothesis Hver : plainSegment version = true.
Hypothesis Hnv : version <> "versions".
Hypothesis Hfresh : fresh fs.
Hypothesis Hman : readLines fs (shaSumPathOf distPath repoName version) = (lines, None).
Hypothesis Hparse : parseLines lines = Some entries.









Hypothesis HmanReg : os_Stat fs (shaSumPathOf distPath repoName version) = inl IsRegular.
Hypothesis HsigReg :
  os_Stat fs (shaSumPathOf distPath repoName version +:+ ".sig") = inl IsRegular.
Hypothesis Hmo : ¬ ["release"] `prefix_of` resolve (shaSumPathOf distPath repoName version).
Hypothesis Hso :
  ¬ ["release"] `prefix_of` resolve (shaSumPathOf distPath repoName version +:+ ".sig").











Hypothesis Hkey : (readLines fs gpgPubKeyFile).2 = None.
Hypothesis Hko : ¬ ["release"] `prefix_of` resolve gpgPubKeyFile.
Hypothesis Hzips :
  forall e, e ∈ entries -> strings.HasSuffix e.2 ".zip" = true ->
    plainSegment e.2 = true /\ os_Stat fs (distPath +:+ e.2) = inl IsRegular /\
    ¬ ["release"] `prefix_of` resolve (distPath +:+ e.2).
Hypothesis Hplat :
  forall e p, e ∈ entries -> platformOf e.2 = Some p ->
    Platform_Os p ∈ targets /\ plainSegment (Platform_Arch p) = true.










End Success.






